(** * Market-state tracking engine: listing store, bazaar store, valuation

    A shallow embedding of [utils/auctions.py], [utils/bazzar.py] and
    [api/chest_calculator.py].

    Conventions of the embedding.
    - A SQLite table is the list of its rows in rowid order.  A statement
      that carries a conflict clause ([INSERT OR REPLACE], [INSERT OR
      IGNORE]) is a function on that list; primary-key uniqueness is an
      invariant that is proved, not a property of the type.
    - [time.time()] is an input: every operation that reads the clock takes
      the millisecond timestamp it would have computed.
    - Python [int] and [float] values that take part in arithmetic are exact
      rationals ([Q]); the binary rounding of [float] is not represented.
      Columns declared [INTEGER] are [Z], columns declared [TEXT] are
      [string] (a byte string, as SQLite's [LOWER] and [=] see it).
    - A Python [dict] keyed by listing id is a [gmap string _], a Python
      [set] of listing ids a [gset string]; iterating the set goes through
      [elements], whose order is as unspecified as Python's. *)

From Stdlib Require Import ZArith QArith String Ascii List Lia.
From stdpp Require Import base option list strings gmap sorting.

Open Scope string_scope.
Open Scope Z_scope.
Open Scope list_scope.

(** ** Python and SQL string primitives *)

(** [LOWER(c)] of SQLite: only the 26 ASCII capitals change. *)
Definition lower_ascii (c : ascii) : ascii :=
  let n := N_of_ascii c in
  if ((65 <=? n) && (n <=? 90))%N then ascii_of_N (n + 32) else c.

(** [LOWER(s)]. *)
Fixpoint LOWER (s : string) : string :=
  match s with
  | EmptyString => EmptyString
  | String c s' => String (lower_ascii c) (LOWER s')
  end.

(** ['_' in s]. *)
Fixpoint has_underscore (s : string) : bool :=
  match s with
  | EmptyString => false
  | String c s' => if Ascii.eqb c "_" then true else has_underscore s'
  end.

(** [s.replace('_', ' ')]. *)
Fixpoint underscores_to_spaces (s : string) : string :=
  match s with
  | EmptyString => EmptyString
  | String c s' =>
      String (if Ascii.eqb c "_" then " "%char else c) (underscores_to_spaces s')
  end.

(** [s.startswith(p)]. *)
Definition startswith (s p : string) : bool := String.prefix p s.

(** The guard both lookups put in front of the space variants:
    ['_' in name and not name.startswith('ENCHANTMENT_')]. *)
Definition may_use_spaces (name : string) : bool :=
  has_underscore name && negb (startswith name "ENCHANTMENT_").

(** ** Exceptions *)

(** A call either returns or raises the named Python exception. *)
Inductive outcome (A : Type) : Type :=
  | Returned (a : A)
  | Raised (exn : string).
Arguments Returned {A} a.
Arguments Raised {A} exn.

#[export] Instance outcome_ret : MRet outcome := fun A a => Returned a.
#[export] Instance outcome_bind : MBind outcome := fun A B f m =>
  match m with
  | Returned a => f a
  | Raised e => Raised e
  end.

(** ** Python numbers *)

(** [a / b] on numbers: true division, [ZeroDivisionError] on a zero
    divisor. *)
Definition py_div (a b : Q) : outcome Q :=
  if Qeq_bool b 0 then Raised "ZeroDivisionError" else Returned (a / b)%Q.

(** [round(x, 2)]: the multiple of 1/100 nearest to [x], a tie going to the
    even multiple. *)
Definition py_round2 (x : Q) : Q :=
  let n := (Qnum x * 100)%Z in
  let d := Z.pos (Qden x) in
  let q := (n / d)%Z in
  let r := (n mod d)%Z in
  let k := match (2 * r ?= d)%Z with
           | Lt => q
           | Gt => (q + 1)%Z
           | Eq => if Z.even q then q else (q + 1)%Z
           end in
  (k # 100)%Q.

(** Truth value of a number: [bool(x)]. *)
Definition truthy (x : Q) : bool := negb (Qeq_bool x 0).

(** ** SQL result clauses *)

(** [ORDER BY] on a [TEXT] column: bytewise order, a proper prefix first. *)
Definition text_le (x y : string) : Prop := String.leb x y = true.

#[export] Instance text_le_dec (x y : string) : Decision (text_le x y) :=
  decide (String.leb x y = true).

(** [LIMIT n]: the first [n] rows, every row when [n] is negative. *)
Definition LIMIT {A : Type} (n : Z) (rows : list A) : list A :=
  if (n <? 0)%Z then rows else take (Z.to_nat n) rows.


(** * The listing snapshot store ([HypixelAuctionTracker]) *)

Module HypixelAuctionTracker.

(** One element of the [auctions] array of an upstream page, with the keys
    [store_auctions] reads.  [bin] and [claimed] are the truth values of
    [auction.get('bin')] and [auction.get('claimed')]. *)
Record auction : Type := {
  uuid : string;
  auctioneer : string;
  profile_id : string;
  item_name : string;
  tier : string;
  category : string;
  starting_bid : Z;
  highest_bid_amount : Z;
  bin : bool;
  start : Z;
  end_ : Z;
  last_updated : Z;
  claimed : bool
}.

(** A row of table [auctions] (primary key [uuid]). *)
Record auctions_row : Type := {
  a_uuid : string;
  a_auctioneer : string;
  a_profile_id : string;
  a_item_name : string;
  a_tier : string;
  a_category : string;
  a_starting_bid : Z;
  a_highest_bid_amount : Z;
  a_bin : Z;
  a_start_time : Z;
  a_end_time : Z;
  a_last_updated : Z;
  a_claimed : Z;
  a_fetch_timestamp : Z
}.

(** A row of table [auction_history] (primary key [(uuid, fetch_timestamp)]). *)
Record history_row : Type := {
  h_uuid : string;
  h_item_name : string;
  h_tier : string;
  h_starting_bid : Z;
  h_bin : Z;
  h_claimed : Z;
  h_end_time : Z;
  h_fetch_timestamp : Z
}.

(** A row of table [auction_sales] (primary key [uuid]): a Sale Event. *)
Record sales_row : Type := {
  s_uuid : string;
  s_item_name : string;
  s_tier : string;
  s_price : Z;
  s_first_seen : Z;
  s_last_seen : Z;
  s_sold_timestamp : Z
}.

(** A row of table [update_log]; [id] is the autoincrement key. *)
Record update_log_row : Type := {
  l_id : Z;
  l_timestamp : Z;
  l_total_pages : Z;
  l_total_auctions : Z;
  l_duration_seconds : Q
}.

(** The database file behind one tracker. *)
Record db : Type := {
  auctions : list auctions_row;
  auction_history : list history_row;
  auction_sales : list sales_row;
  update_log : list update_log_row
}.

(** [setup_database] on a fresh file: four empty tables. *)
Definition setup_database : db :=
  {| auctions := []; auction_history := []; auction_sales := [];
     update_log := [] |}.

(** [1 if x else 0]. *)
Definition flag (b : bool) : Z := if b then 1 else 0.

(** The tuple appended to [auction_data] for one upstream auction. *)
Definition auction_tuple (fetch_timestamp : Z) (a : auction) : auctions_row :=
  {| a_uuid := uuid a;
     a_auctioneer := auctioneer a;
     a_profile_id := profile_id a;
     a_item_name := item_name a;
     a_tier := tier a;
     a_category := category a;
     a_starting_bid := starting_bid a;
     a_highest_bid_amount := highest_bid_amount a;
     a_bin := flag (bin a);
     a_start_time := start a;
     a_end_time := end_ a;
     a_last_updated := last_updated a;
     a_claimed := flag (claimed a);
     a_fetch_timestamp := fetch_timestamp |}.

(** The tuple appended to [history_data] for one upstream auction. *)
Definition history_tuple (fetch_timestamp : Z) (a : auction) : history_row :=
  {| h_uuid := uuid a;
     h_item_name := item_name a;
     h_tier := tier a;
     h_starting_bid := starting_bid a;
     h_bin := flag (bin a);
     h_claimed := flag (claimed a);
     h_end_time := end_ a;
     h_fetch_timestamp := fetch_timestamp |}.

(** [WHERE bin = 1 AND claimed = 0]. *)
Definition open_bin (r : auctions_row) : bool :=
  (a_bin r =? 1)%Z && (a_claimed r =? 0)%Z.

(** [(row[1], row[2], row[3], row[4])] of a selected row. *)
Definition prev_info (r : auctions_row) : string * string * Z * Z :=
  (a_item_name r, a_tier r, a_starting_bid r, a_fetch_timestamp r).

(** [{row[0]: (row[1], row[2], row[3], row[4]) for row in rows}]: a later
    row with the same key replaces an earlier one. *)
Definition previous_of (rows : list auctions_row)
    : gmap string (string * string * Z * Z) :=
  foldl (fun m r => <[a_uuid r := prev_info r]> m) ∅ rows.

(** The tuple appended to [sales_data] for a vanished listing id. *)
Definition sale_tuple (fetch_timestamp : Z) (u : string)
    (prev : string * string * Z * Z) : sales_row :=
  let '(item_name, tier, price, first_seen) := prev in
  {| s_uuid := u;
     s_item_name := item_name;
     s_tier := tier;
     s_price := price;
     s_first_seen := first_seen;
     s_last_seen := first_seen;
     s_sold_timestamp := fetch_timestamp |}.

(** [INSERT OR REPLACE INTO auctions]: a row with the same [uuid] is deleted,
    the new row gets the next rowid. *)
Definition replace_auction (tbl : list auctions_row) (r : auctions_row)
    : list auctions_row :=
  filter (fun x => a_uuid x ≠ a_uuid r) tbl ++ [r].

(** [INSERT OR IGNORE INTO auction_history]: nothing happens when the key
    [(uuid, fetch_timestamp)] is taken. *)
Definition ignore_history (tbl : list history_row) (r : history_row)
    : list history_row :=
  if existsb (fun x => String.eqb (h_uuid x) (h_uuid r)
                       && (h_fetch_timestamp x =? h_fetch_timestamp r)%Z) tbl
  then tbl else tbl ++ [r].

(** [INSERT OR REPLACE INTO auction_sales]. *)
Definition replace_sale (tbl : list sales_row) (r : sales_row)
    : list sales_row :=
  filter (fun x => s_uuid x ≠ s_uuid r) tbl ++ [r].

(** [previous_auctions] as [store_auctions] reads it from the database. *)
Definition previous_auctions (st : db) : gmap string (string * string * Z * Z) :=
  previous_of (filter (fun r => open_bin r = true) (auctions st)).

(** [current_uuids] after the loop over the poll. *)
Definition current_uuids (poll : list auction) : gset string :=
  list_to_set (uuid <$> poll).

(** [sold_uuids = set(previous_auctions.keys()) - current_uuids]. *)
Definition sold_uuids (st : db) (poll : list auction) : gset string :=
  dom (previous_auctions st) ∖ current_uuids poll.

(** [sales_data]: one tuple per element of [sold_uuids], each read from
    [previous_auctions[uuid]]. *)
Definition sales_data (fetch_timestamp : Z) (st : db) (poll : list auction)
    : list sales_row :=
  omap (fun u => sale_tuple fetch_timestamp u <$> previous_auctions st !! u)
       (elements (sold_uuids st poll)).

(** [history_data]: the fixed-price, unclaimed auctions of the poll. *)
Definition history_data (fetch_timestamp : Z) (poll : list auction)
    : list history_row :=
  history_tuple fetch_timestamp <$>
    filter (fun a => (bin a && negb (claimed a)) = true) poll.

(** [store_auctions(auctions)] run at clock value [fetch_timestamp] (ms).
    The single loop of the source fills [current_uuids], [auction_data] and
    [history_data]; here each is its own comprehension over the poll. *)
Definition store_auctions (fetch_timestamp : Z) (poll : list auction) (st : db)
    : db :=
  let auction_data := auction_tuple fetch_timestamp <$> poll in
  let history := history_data fetch_timestamp poll in
  let sales := sales_data fetch_timestamp st poll in
  {| auctions := foldl replace_auction [] auction_data;
     auction_history :=
       match history with
       | [] => auction_history st
       | _ => foldl ignore_history (auction_history st) history
       end;
     auction_sales :=
       match sales with
       | [] => auction_sales st
       | _ => foldl replace_sale (auction_sales st) sales
       end;
     update_log := update_log st |}.


(** One upstream page as [fetch_all_auctions] reads it: the truth value of
    [page.get('success')], [page.get('totalPages', 0)],
    [page.get('totalAuctions', 0)] and [page.get('auctions', [])]. *)
Record page : Type := {
  success : bool;
  totalPages : Z;
  totalAuctions : Z;
  page_auctions : list auction
}.

(** [log_update_cycle]: one more row in [update_log]. *)
Definition log_update_cycle (timestamp total_pages total_auctions : Z)
    (duration : Q) (st : db) : db :=
  {| auctions := auctions st;
     auction_history := auction_history st;
     auction_sales := auction_sales st;
     update_log :=
       update_log st ++
         [{| l_id := Z.of_nat (length (update_log st)) + 1;
             l_timestamp := timestamp;
             l_total_pages := total_pages;
             l_total_auctions := total_auctions;
             l_duration_seconds := duration |}] |}.

(** What one of the pages [1 .. total_pages - 1] adds to [all_auctions]: a
    page that failed or is not a success is skipped. *)
Definition page_contribution (fetch_page : nat -> option page) (n : nat)
    : list auction :=
  match fetch_page n with
  | Some page_data => if success page_data then page_auctions page_data else []
  | None => []
  end.

(** [fetch_all_auctions].  [fetch_page] is the network; [fetch_timestamp] is
    the clock read inside [store_auctions], [log_timestamp] the one read
    inside [log_update_cycle], [duration] the measured run time. *)
Definition fetch_all_auctions (fetch_page : nat -> option page)
    (fetch_timestamp log_timestamp : Z) (duration : Q) (st : db) : db :=
  match fetch_page 0%nat with
  | None => st
  | Some first_page =>
      if negb (success first_page) then st
      else
        let total_pages := totalPages first_page in
        let all_auctions :=
          page_auctions first_page ++
            concat (page_contribution fetch_page <$>
                      seq 1 (Z.to_nat (total_pages - 1))) in
        log_update_cycle log_timestamp total_pages (totalAuctions first_page)
          duration (store_auctions fetch_timestamp all_auctions st)
  end.

(** [ORDER BY starting_bid ASC LIMIT 1] over the rows that satisfy [p].  SQL
    leaves the order of equal bids open; the row of lowest rowid is taken. *)
Definition select_lowest (p : auctions_row -> bool) (tbl : list auctions_row)
    : option auctions_row :=
  foldl (fun best r =>
           if p r then
             match best with
             | None => Some r
             | Some b =>
                 if (a_starting_bid r <? a_starting_bid b)%Z then Some r
                 else Some b
             end
           else best)
        None tbl.

(** [WHERE item_name = ? AND bin = 1 AND claimed = 0]. *)
Definition exact_bin (name : string) (r : auctions_row) : bool :=
  String.eqb (a_item_name r) name && open_bin r.

(** [WHERE LOWER(item_name) = LOWER(?) AND bin = 1 AND claimed = 0]. *)
Definition nocase_bin (name : string) (r : auctions_row) : bool :=
  String.eqb (LOWER (a_item_name r)) (LOWER name) && open_bin r.

(** The dictionary [get_lowest_bin] returns; [player_name] is present only
    when [include_player_name] was set. *)
Record bin_item : Type := {
  b_uuid : string;
  b_item_name : string;
  b_price : Z;
  b_tier : string;
  b_auctioneer : string;
  b_player_name : option (option string)
}.

(** [item_dict] as [get_lowest_bin] fills it from the selected row;
    [get_player_name] is the Mojang lookup. *)
Definition item_dict (get_player_name : string -> option string)
    (include_player_name : bool) (r : auctions_row) : bin_item :=
  {| b_uuid := a_uuid r;
     b_item_name := a_item_name r;
     b_price := a_starting_bid r;
     b_tier := a_tier r;
     b_auctioneer := a_auctioneer r;
     b_player_name :=
       if include_player_name
       then Some (get_player_name (a_auctioneer r)) else None |}.

(** The row [get_lowest_bin] ends up with after its four queries. *)
Definition lowest_bin_row (st : db) (item_name : string) : option auctions_row :=
  let result := select_lowest (exact_bin item_name) (auctions st) in
  let result :=
    if negb (bool_decide (is_Some result)) && has_underscore item_name
       && negb (startswith item_name "ENCHANTMENT_")
    then
      let item_name_with_spaces := underscores_to_spaces item_name in
      select_lowest (exact_bin item_name_with_spaces) (auctions st)
    else result in
  let result :=
    if negb (bool_decide (is_Some result))
    then select_lowest (nocase_bin item_name) (auctions st)
    else result in
  let result :=
    if negb (bool_decide (is_Some result)) && has_underscore item_name
       && negb (startswith item_name "ENCHANTMENT_")
    then
      let item_name_with_spaces := underscores_to_spaces item_name in
      select_lowest (nocase_bin item_name_with_spaces) (auctions st)
    else result in
  result.

(** [get_lowest_bin(item_name, include_player_name)]. *)
Definition get_lowest_bin (get_player_name : string -> option string)
    (st : db) (item_name : string) (include_player_name : bool)
    : option bin_item :=
  match lowest_bin_row st item_name with
  | Some r => Some (item_dict get_player_name include_player_name r)
  | None => None
  end.

(** The dictionary [get_sales_per_day] returns. *)
Record sales_stats : Type := {
  ss_item_name : string;
  total_sales : Z;
  daily_sales : Q;
  avg_sale_price : Q;
  min_sale_price : Z;
  max_sale_price : Z;
  period_days : Z
}.

(** [WHERE item_name = ? AND sold_timestamp >= ?]. *)
Definition sold_since (name : string) (days_ago_ms : Z) (s : sales_row) : bool :=
  String.eqb (s_item_name s) name && (days_ago_ms <=? s_sold_timestamp s)%Z.

(** [get_sales_per_day(item_name, days)] at clock value [now_ms]. *)
Definition get_sales_per_day (st : db) (now_ms : Z) (item_name : string)
    (days : Z) : outcome (option sales_stats) :=
  let days_ago_ms := (now_ms - days * 24 * 60 * 60 * 1000)%Z in
  let rows := List.filter (sold_since item_name days_ago_ms) (auction_sales st) in
  let prices := s_price <$> rows in
  let count := Z.of_nat (length rows) in
  if (0 <? count)%Z then
    daily ← py_div (inject_Z count) (inject_Z days);
    mret (Some
      {| ss_item_name := item_name;
         total_sales := count;
         daily_sales := daily;
         avg_sale_price := (inject_Z (foldr Z.add 0%Z prices) / inject_Z count)%Q;
         min_sale_price := foldr Z.min (hd 0%Z prices) prices;
         max_sale_price := foldr Z.max (hd 0%Z prices) prices;
         period_days := days |})
  else mret None.

(** [ORDER BY starting_bid ASC]. *)
Definition bid_le (x y : auctions_row) : Prop :=
  (a_starting_bid x <= a_starting_bid y)%Z.

#[export] Instance bid_le_dec (x y : auctions_row) : Decision (bid_le x y) :=
  decide (a_starting_bid x <= a_starting_bid y)%Z.

(** One dictionary of the list [get_cheapest_listings] returns. *)
Record cheap_listing : Type := {
  c_uuid : string;
  c_item_name : string;
  c_price : Z;
  c_tier : string;
  c_auctioneer : string;
  c_end_time : Z;
  c_player_name : option (option string)
}.

(** The rows [get_cheapest_listings] fetches:
    [WHERE item_name = ? AND bin = 1 AND claimed = 0
     ORDER BY starting_bid ASC LIMIT ?]. *)
Definition cheapest_rows (st : db) (item_name : string) (limit : Z)
    : list auctions_row :=
  LIMIT limit
    (merge_sort bid_le (List.filter (exact_bin item_name) (auctions st))).

(** [get_cheapest_listings(item_name, limit, include_player_names)]. *)
Definition get_cheapest_listings (get_player_name : string -> option string)
    (st : db) (item_name : string) (limit : Z) (include_player_names : bool)
    : list cheap_listing :=
  (fun row =>
     {| c_uuid := a_uuid row;
        c_item_name := a_item_name row;
        c_price := a_starting_bid row;
        c_tier := a_tier row;
        c_auctioneer := a_auctioneer row;
        c_end_time := a_end_time row;
        c_player_name :=
          if include_player_names
          then Some (get_player_name (a_auctioneer row)) else None |})
  <$> cheapest_rows st item_name limit.

(** One dictionary of the list [get_all_bin_items] returns. *)
Record bin_summary : Type := {
  bs_item_name : string;
  bs_lowest_bin : Z;
  bs_tier : string;
  bs_available_count : Z
}.

(** One group of [GROUP BY item_name] over the fixed-price unclaimed rows:
    [MIN(starting_bid)], the [tier] of the row that holds the minimum, and
    [COUNT( * )]. *)
Definition bin_group (st : db) (name : string) : option bin_summary :=
  match select_lowest (exact_bin name) (auctions st) with
  | Some r =>
      Some {| bs_item_name := name;
              bs_lowest_bin := a_starting_bid r;
              bs_tier := a_tier r;
              bs_available_count :=
                Z.of_nat (length (List.filter (exact_bin name) (auctions st))) |}
  | None => None
  end.

(** [get_all_bin_items()]: one group per item name, [ORDER BY item_name]. *)
Definition get_all_bin_items (st : db) : list bin_summary :=
  omap (bin_group st)
    (merge_sort text_le
       (remove_dups
          (a_item_name <$> List.filter open_bin (auctions st)))).

End HypixelAuctionTracker.

(** * The bazaar snapshot store ([HypixelBazaarTracker]) *)

Module HypixelBazaarTracker.

(** [product_info['quick_status']]; a key that is missing is [None] and is
    read through [.get(key, 0)]. *)
Record quick_status : Type := {
  sellPrice : option Q;
  sellVolume : option Z;
  sellMovingWeek : option Z;
  sellOrders : option Z;
  buyPrice : option Q;
  buyVolume : option Z;
  buyMovingWeek : option Z;
  buyOrders : option Z
}.

(** [product_info.get('quick_status', {})]. *)
Definition no_status : quick_status :=
  {| sellPrice := None; sellVolume := None; sellMovingWeek := None;
     sellOrders := None; buyPrice := None; buyVolume := None;
     buyMovingWeek := None; buyOrders := None |}.

(** The upstream reply: the truth value of [data.get('success')],
    [data.get('lastUpdated')] when present, and the items of
    [data.get('products', {})] in order.  A reply that is the empty
    dictionary has [bz_success = false]. *)
Record bazaar_data : Type := {
  bz_success : bool;
  lastUpdated : option Z;
  products : list (string * option quick_status)
}.

(** A row of [bazaar_current] (primary key [product_id]) and of
    [bazaar_products] (primary key [(product_id, timestamp)]). *)
Record product_row : Type := {
  product_id : string;
  sell_price : Q;
  sell_volume : Z;
  sell_moving_week : Z;
  sell_orders : Z;
  buy_price : Q;
  buy_volume : Z;
  buy_moving_week : Z;
  buy_orders : Z;
  timestamp : Z
}.

Record update_log_row : Type := {
  l_id : Z;
  l_timestamp : Z;
  l_total_products : Z;
  l_duration_seconds : Q
}.

Record db : Type := {
  bazaar_products : list product_row;
  bazaar_current : list product_row;
  update_log : list update_log_row
}.

Definition setup_database : db :=
  {| bazaar_products := []; bazaar_current := []; update_log := [] |}.

(** The tuple built for one product, the same for both tables. *)
Definition product_tuple (ts : Z) (p : string * option quick_status)
    : product_row :=
  let quick := default no_status p.2 in
  {| product_id := p.1;
     sell_price := default 0%Q (sellPrice quick);
     sell_volume := default 0 (sellVolume quick);
     sell_moving_week := default 0 (sellMovingWeek quick);
     sell_orders := default 0 (sellOrders quick);
     buy_price := default 0%Q (buyPrice quick);
     buy_volume := default 0 (buyVolume quick);
     buy_moving_week := default 0 (buyMovingWeek quick);
     buy_orders := default 0 (buyOrders quick);
     timestamp := ts |}.

(** Plain [INSERT INTO bazaar_current]: a taken [product_id] raises. *)
Definition insert_current (tbl : outcome (list product_row)) (r : product_row)
    : outcome (list product_row) :=
  rows ← tbl;
  if existsb (fun x => String.eqb (product_id x) (product_id r)) rows
  then Raised "sqlite3.IntegrityError"
  else mret (rows ++ [r]).

(** Plain [INSERT INTO bazaar_products]: a taken [(product_id, timestamp)]
    raises. *)
Definition insert_history (tbl : outcome (list product_row)) (r : product_row)
    : outcome (list product_row) :=
  rows ← tbl;
  if existsb (fun x => String.eqb (product_id x) (product_id r)
                       && (timestamp x =? timestamp r)) rows
  then Raised "sqlite3.IntegrityError"
  else mret (rows ++ [r]).

(** [store_bazaar_data(data, store_history)] at clock value [now_ms].  The
    result is the committed database; when a statement raises nothing was
    committed and the database is the one the call started from. *)
Definition store_bazaar_data (now_ms : Z) (data : option bazaar_data)
    (store_history : bool) (st : db) : outcome db :=
  match data with
  | None => mret st
  | Some d =>
      if negb (bz_success d) then mret st
      else
        let ts := default now_ms (lastUpdated d) in
        let current_data := product_tuple ts <$> products d in
        let history_data :=
          if store_history then product_tuple ts <$> products d else [] in
        current ← foldl insert_current (mret []) current_data;
        history ←
          (if store_history && negb (bool_decide (history_data = []))
           then foldl insert_history (mret (bazaar_products st)) history_data
           else mret (bazaar_products st));
        mret {| bazaar_products := history;
                bazaar_current := current;
                update_log := update_log st |}
  end.

(** The dictionary [get_product_info] returns. *)
Record product : Type := {
  p_product_id : string;
  p_sell_price : Q;
  p_buy_price : Q;
  p_sell_volume : Z;
  p_buy_volume : Z;
  p_sell_orders : Z;
  p_buy_orders : Z;
  p_sell_moving_week : Z;
  p_buy_moving_week : Z
}.

(** [fetchone()] after [WHERE product_id = ?]. *)
Definition select_exact (name : string) (tbl : list product_row)
    : option product_row :=
  head (List.filter (fun r => String.eqb (product_id r) name) tbl).

(** [fetchone()] after [WHERE LOWER(product_id) = LOWER(?)]. *)
Definition select_nocase (name : string) (tbl : list product_row)
    : option product_row :=
  head (List.filter (fun r => String.eqb (LOWER (product_id r)) (LOWER name))
          tbl).

(** The dictionary built from the selected row. *)
Definition product_dict (r : product_row) : product :=
  {| p_product_id := product_id r;
     p_sell_price := sell_price r;
     p_buy_price := buy_price r;
     p_sell_volume := sell_volume r;
     p_buy_volume := buy_volume r;
     p_sell_orders := sell_orders r;
     p_buy_orders := buy_orders r;
     p_sell_moving_week := sell_moving_week r;
     p_buy_moving_week := buy_moving_week r |}.

(** The row [get_product_info] ends up with after its four queries. *)
Definition product_info_row (st : db) (product_id : string)
    : option product_row :=
  let result := select_exact product_id (bazaar_current st) in
  let result :=
    if negb (bool_decide (is_Some result)) && has_underscore product_id
       && negb (startswith product_id "ENCHANTMENT_")
    then
      let product_id_with_spaces := underscores_to_spaces product_id in
      select_exact product_id_with_spaces (bazaar_current st)
    else result in
  let result :=
    if negb (bool_decide (is_Some result))
    then select_nocase product_id (bazaar_current st)
    else result in
  let result :=
    if negb (bool_decide (is_Some result)) && has_underscore product_id
       && negb (startswith product_id "ENCHANTMENT_")
    then
      let product_id_with_spaces := underscores_to_spaces product_id in
      select_nocase product_id_with_spaces (bazaar_current st)
    else result in
  result.

(** [get_product_info(product_id)]. *)
Definition get_product_info (st : db) (product_id : string) : option product :=
  match product_info_row st product_id with
  | Some r => Some (product_dict r)
  | None => None
  end.

(** [fetch_bazaar_data()].  [response] is what the request produced: [None]
    when it raised a [RequestException], else the decoded reply. *)
Definition fetch_bazaar_data (response : option bazaar_data)
    : option bazaar_data :=
  match response with
  | Some data => if bz_success data then Some data else None
  | None => None
  end.

(** [log_update_cycle(total_products, duration)] at clock value
    [timestamp_ms]. *)
Definition log_update_cycle (timestamp_ms total_products : Z) (duration : Q)
    (st : db) : db :=
  {| bazaar_products := bazaar_products st;
     bazaar_current := bazaar_current st;
     update_log :=
       update_log st ++
         [{| l_id := Z.of_nat (length (update_log st)) + 1;
             l_timestamp := timestamp_ms;
             l_total_products := total_products;
             l_duration_seconds := duration |}] |}.

(** [update(store_history)]: the committed database and the returned flag.
    [now_ms] is the clock read by [store_bazaar_data], [log_ms] the one read
    by [log_update_cycle]. *)
Definition update (response : option bazaar_data) (now_ms log_ms : Z)
    (duration : Q) (store_history : bool) (st : db) : outcome (db * bool) :=
  match fetch_bazaar_data response with
  | Some data =>
      st' ← store_bazaar_data now_ms (Some data) store_history st;
      mret (log_update_cycle log_ms (Z.of_nat (length (products data)))
              duration st', true)
  | None => mret (st, false)
  end.

(** [get_all_products()]: [SELECT product_id ... ORDER BY product_id]. *)
Definition get_all_products (st : db) : list string :=
  merge_sort text_le (product_id <$> bazaar_current st).

(** [ORDER BY timestamp ASC]. *)
Definition timestamp_le (x y : product_row) : Prop :=
  (timestamp x <= timestamp y)%Z.

#[export] Instance timestamp_le_dec (x y : product_row)
    : Decision (timestamp_le x y) :=
  decide (timestamp x <= timestamp y)%Z.


End HypixelBazaarTracker.

(** * The valuation engine ([ChestValueCalculator]) *)

Module ChestValueCalculator.

Module AH := HypixelAuctionTracker.
Module BZ := HypixelBazaarTracker.

(** [result["auction_house"]]. *)
Record auction_house_entry : Type := {
  lowest_bin : Z;
  ah_tier : string;
  ah_total : Z
}.

(** [result["bazaar"]]. *)
Record bazaar_entry : Type := {
  insta_sell_price : Q;
  insta_buy_price : Q;
  bz_total : Q
}.

(** The dictionary [get_item_value] returns. *)
Record item_value : Type := {
  iv_item_name : string;
  iv_quantity : Z;
  found_in : list string;
  auction_house : option auction_house_entry;
  bazaar : option bazaar_entry;
  best_price : option Q;
  total_value : Q;
  market : option string;
  sales_per_day : Q
}.

(** The calculator owns one tracker of each kind. *)
Record calculator : Type := {
  auction_tracker : AH.db;
  bazaar_tracker : BZ.db
}.

(** [get_lowest_bin(item_name)] as the calculator calls it: player names are
    not requested, so the Mojang lookup is never consulted. *)
Definition lowest_bin_of (c : calculator) (item_name : string)
    : option AH.bin_item :=
  AH.get_lowest_bin (fun _ => None) (auction_tracker c) item_name false.

(** Lines 99-112: the auction-house part.  Returns [found_in],
    [result["auction_house"]] and [result["sales_per_day"]]. *)
Definition check_auction_house (c : calculator) (now_ms : Z)
    (item_name : string) (quantity : Z)
    : outcome (list string * option auction_house_entry * Q) :=
  match lowest_bin_of c item_name with
  | Some auction_item =>
      sales_data ← AH.get_sales_per_day (auction_tracker c) now_ms item_name 7;
      mret (["auction_house"],
            Some {| lowest_bin := AH.b_price auction_item;
                    ah_tier := AH.b_tier auction_item;
                    ah_total := AH.b_price auction_item * quantity |},
            match sales_data with
            | Some sd =>
                if truthy (AH.daily_sales sd)
                then py_round2 (AH.daily_sales sd) else (-1)%Q
            | None => (-1)%Q
            end)
  | None => mret ([], None, (-1)%Q)
  end.

(** [get_item_value(item_name, quantity)] at clock value [now_ms]. *)
Definition get_item_value (c : calculator) (now_ms : Z) (item_name : string)
    (quantity : Z) : outcome item_value :=
  '(found_in, auction_house, sales_per_day) ←
    check_auction_house c now_ms item_name quantity;
  let '(found_in, bazaar, sales_per_day) :=
    match BZ.get_product_info (bazaar_tracker c) item_name with
    | Some bazaar_item =>
        let sell_price := BZ.p_buy_price bazaar_item in
        (found_in ++ ["bazaar"],
         Some {| insta_sell_price := sell_price;
                 insta_buy_price := BZ.p_sell_price bazaar_item;
                 bz_total := (sell_price * inject_Z quantity)%Q |},
         if Qeq_bool sales_per_day (-1)
            && truthy (inject_Z (BZ.p_buy_moving_week bazaar_item))
         then py_round2 (inject_Z (BZ.p_buy_moving_week bazaar_item) / 7)%Q
         else sales_per_day)
    | None => (found_in, None, sales_per_day)
    end in
  let '(best_price, total_value, market) :=
    match auction_house, bazaar with
    | Some ah, Some bz =>
        let ah_price := inject_Z (lowest_bin ah) in
        let bz_price := insta_sell_price bz in
        if Qle_bool bz_price ah_price
        then (Some ah_price, (ah_price * inject_Z quantity)%Q,
              Some "auction_house")
        else (Some bz_price, (bz_price * inject_Z quantity)%Q, Some "bazaar")
    | Some ah, None =>
        (Some (inject_Z (lowest_bin ah)),
         (inject_Z (lowest_bin ah) * inject_Z quantity)%Q,
         Some "auction_house")
    | None, Some bz =>
        (Some (insta_sell_price bz),
         (insta_sell_price bz * inject_Z quantity)%Q, Some "bazaar")
    | None, None => (None, 0%Q, None)
    end in
  mret {| iv_item_name := item_name;
          iv_quantity := quantity;
          found_in := found_in;
          auction_house := auction_house;
          bazaar := bazaar;
          best_price := best_price;
          total_value := total_value;
          market := market;
          sales_per_day := sales_per_day |}.

(** One element of the [items] argument: a dictionary that may lack
    ["name"] and ["quantity"]. *)
Record chest_item : Type := {
  name : option string;
  quantity : option Z
}.

(** [results["summary"]]; [is_profitable] and [roi_percent] are keys that
    exist only when a cost was given. *)
Record summary : Type := {
  total_items : Z;
  items_found : Z;
  items_not_found : Z;
  sum_total_value : Q;
  chest_cost : option Q;
  profit : option Q;
  is_profitable : option bool;
  roi_percent : option Q
}.

(** [get_last_update_times]: [MAX(timestamp)] of each [update_log], [None]
    when the table is empty or the maximum is 0.  The ISO rendering of the
    same instant is not represented. *)
Record last_updates : Type := {
  ah_last_update_timestamp : option Z;
  bz_last_update_timestamp : option Z
}.

Definition max_timestamp (ts : list Z) : option Z :=
  match ts with
  | [] => None
  | t :: ts' =>
      let m := foldl Z.max t ts' in
      if (m =? 0)%Z then None else Some m
  end.

Definition get_last_update_times (c : calculator) : last_updates :=
  {| ah_last_update_timestamp :=
       max_timestamp (AH.l_timestamp <$> AH.update_log (auction_tracker c));
     bz_last_update_timestamp :=
       max_timestamp (BZ.l_timestamp <$> BZ.update_log (bazaar_tracker c)) |}.

(** The dictionary [calculate_chest_value] returns. *)
Record chest_result : Type := {
  items : list item_value;
  chest_summary : summary;
  last_updated : last_updates
}.

(** The loop body of [calculate_chest_value] on the pair
    [(results["items"], results["summary"])]. *)
Definition chest_step (c : calculator) (now_ms : Z)
    (acc : outcome (list item_value * summary)) (item : chest_item)
    : outcome (list item_value * summary) :=
  '(values, s) ← acc;
  let item_name := default "" (name item) in
  let quantity := default 1 (quantity item) in
  if String.eqb item_name "" then mret (values, s)
  else
    item_value ← get_item_value c now_ms item_name quantity;
    mret (values ++ [item_value],
          match best_price item_value with
          | Some _ =>
              {| total_items := total_items s;
                 items_found := items_found s + 1;
                 items_not_found := items_not_found s;
                 sum_total_value :=
                   (sum_total_value s + total_value item_value)%Q;
                 chest_cost := chest_cost s;
                 profit := profit s;
                 is_profitable := is_profitable s;
                 roi_percent := roi_percent s |}
          | None =>
              {| total_items := total_items s;
                 items_found := items_found s;
                 items_not_found := items_not_found s + 1;
                 sum_total_value := sum_total_value s;
                 chest_cost := chest_cost s;
                 profit := profit s;
                 is_profitable := is_profitable s;
                 roi_percent := roi_percent s |}
          end).

(** [results["summary"]] before the loop. *)
Definition initial_summary (n : nat) (cost : option Q) : summary :=
  {| total_items := Z.of_nat n;
     items_found := 0;
     items_not_found := 0;
     sum_total_value := 0%Q;
     chest_cost := cost;
     profit := match cost with None => None | Some _ => Some 0%Q end;
     is_profitable := None;
     roi_percent := None |}.

(** Lines 200-204: the profit block. *)
Definition with_profit (s : summary) : outcome summary :=
  match chest_cost s with
  | None => mret s
  | Some cost =>
      let profit := (sum_total_value s - cost)%Q in
      roi ← (if negb (Qle_bool cost 0)
             then q ← py_div profit cost; mret (q * 100)%Q
             else mret 0%Q);
      mret {| total_items := total_items s;
              items_found := items_found s;
              items_not_found := items_not_found s;
              sum_total_value := sum_total_value s;
              chest_cost := chest_cost s;
              profit := Some profit;
              is_profitable := Some (negb (Qle_bool profit 0));
              roi_percent := Some roi |}
  end.

(** [calculate_chest_value(items, chest_cost)] at clock value [now_ms]. *)
Definition calculate_chest_value (c : calculator) (now_ms : Z)
    (chest : list chest_item) (cost : option Q) : outcome chest_result :=
  let last_updates := get_last_update_times c in
  '(values, s) ←
    foldl (chest_step c now_ms)
          (mret ([], initial_summary (length chest) cost)) chest;
  s ← with_profit s;
  mret {| items := values; chest_summary := s; last_updated := last_updates |}.

End ChestValueCalculator.

(** * The name resolver, as the specification words it *)

(** The first attempt that hits wins. *)
Fixpoint first_hit {A : Type} (attempts : list (option A)) : option A :=
  match attempts with
  | [] => None
  | Some a :: _ => Some a
  | None :: rest => first_hit rest
  end.

(** Resolution order of the specification: (1) exact match, (2) the
    underscore-to-space variant, attempted only for a name that contains an
    underscore and does not start with [ENCHANTMENT_], (3) case-insensitive
    exact match, (4) case-insensitive match of the variant under the same
    restriction; no hit is "not found". *)
Definition resolution_order {A : Type} (exact nocase : string -> option A)
    (name : string) : option A :=
  first_hit
    [ exact name;
      if may_use_spaces name then exact (underscores_to_spaces name) else None;
      nocase name;
      if may_use_spaces name then nocase (underscores_to_spaces name) else None ].

(** * Runs of the listing store *)

(** The store after a sequence of ingests, oldest first; each ingest is the
    clock value [store_auctions] read and the poll it was given. *)
Definition ingest_all (polls : list (Z * list HypixelAuctionTracker.auction))
    (st : HypixelAuctionTracker.db) : HypixelAuctionTracker.db :=
  foldl (fun st p => HypixelAuctionTracker.store_auctions p.1 p.2 st) st polls.

(** A row of [auctions] with its [fetch_timestamp] column set to [ts]. *)
Definition refetched (ts : Z) (r : HypixelAuctionTracker.auctions_row)
    : HypixelAuctionTracker.auctions_row :=
  let m := HypixelAuctionTracker.Build_auctions_row in
  m (HypixelAuctionTracker.a_uuid r) (HypixelAuctionTracker.a_auctioneer r)
    (HypixelAuctionTracker.a_profile_id r) (HypixelAuctionTracker.a_item_name r)
    (HypixelAuctionTracker.a_tier r) (HypixelAuctionTracker.a_category r)
    (HypixelAuctionTracker.a_starting_bid r)
    (HypixelAuctionTracker.a_highest_bid_amount r)
    (HypixelAuctionTracker.a_bin r) (HypixelAuctionTracker.a_start_time r)
    (HypixelAuctionTracker.a_end_time r) (HypixelAuctionTracker.a_last_updated r)
    (HypixelAuctionTracker.a_claimed r) ts.

(** The Sale Event the claims expect for a vanished row of [auctions]:
    price, tier and first-seen of the row, sold at [ts]. *)
Definition sale_event_of (ts : Z) (r : HypixelAuctionTracker.auctions_row)
    : HypixelAuctionTracker.sales_row :=
  {| HypixelAuctionTracker.s_uuid := HypixelAuctionTracker.a_uuid r;
     HypixelAuctionTracker.s_item_name := HypixelAuctionTracker.a_item_name r;
     HypixelAuctionTracker.s_tier := HypixelAuctionTracker.a_tier r;
     HypixelAuctionTracker.s_price := HypixelAuctionTracker.a_starting_bid r;
     HypixelAuctionTracker.s_first_seen :=
       HypixelAuctionTracker.a_fetch_timestamp r;
     HypixelAuctionTracker.s_last_seen :=
       HypixelAuctionTracker.a_fetch_timestamp r;
     HypixelAuctionTracker.s_sold_timestamp := ts |}.

(** * Quantities the valuation statements refer to *)

(** The Sale Events [get_sales_per_day(name)] counts with its default window
    of 7 days at clock value [now_ms]: those stored under exactly [name] and
    sold at or after [now_ms - 7 days]. *)
Definition week_sales (st : HypixelAuctionTracker.db) (now_ms : Z)
    (name : string) : list HypixelAuctionTracker.sales_row :=
  List.filter
    (HypixelAuctionTracker.sold_since name (now_ms - 7 * 24 * 60 * 60 * 1000))
    (HypixelAuctionTracker.auction_sales st).

(** The auction daily rate over that window, as reported: the count over 7,
    rounded to two decimals. *)
Definition auction_daily_rate (st : HypixelAuctionTracker.db) (now_ms : Z)
    (name : string) : Q :=
  py_round2 (inject_Z (Z.of_nat (length (week_sales st now_ms name)))
             / inject_Z 7)%Q.

(** The bazaar rate, as reported: the buy moving week over 7, rounded to two
    decimals. *)
Definition bazaar_daily_rate (p : HypixelBazaarTracker.product) : Q :=
  py_round2 (inject_Z (HypixelBazaarTracker.p_buy_moving_week p) / 7)%Q.

(** The sum of [total_value] over the valued items that have a best price. *)
Definition found_total (values : list ChestValueCalculator.item_value) : Q :=
  foldr Qplus 0%Q
    (ChestValueCalculator.total_value <$>
       filter (fun v => is_Some (ChestValueCalculator.best_price v)) values).

(** * Concrete markets used by the examples *)

Module Examples.

Import HypixelAuctionTracker.

(** A fixed-price or bid listing with the given id, name and price. *)
Definition listing (u n : string) (price : Z) (is_bin is_claimed : bool)
    : auction :=
  {| uuid := u; auctioneer := "seller"; profile_id := "profile";
     item_name := n; tier := "RARE"; category := "misc";
     starting_bid := price; highest_bid_amount := 0; bin := is_bin;
     start := 0; end_ := 9000; last_updated := 0; claimed := is_claimed |}.

(** A quote with the given instant-sell price and buy moving week. *)
Definition quote (instant_sell : Q) (moving_week : option Z)
    : option HypixelBazaarTracker.quick_status :=
  Some {| HypixelBazaarTracker.sellPrice := Some (instant_sell + 1)%Q;
          HypixelBazaarTracker.sellVolume := Some 10;
          HypixelBazaarTracker.sellMovingWeek := Some 70;
          HypixelBazaarTracker.sellOrders := Some 3;
          HypixelBazaarTracker.buyPrice := Some instant_sell;
          HypixelBazaarTracker.buyVolume := Some 10;
          HypixelBazaarTracker.buyMovingWeek := moving_week;
          HypixelBazaarTracker.buyOrders := Some 3 |}.

(** The bazaar after one successful poll of the given products. *)
Definition bazaar_after (ps : list (string * option HypixelBazaarTracker.quick_status))
    : HypixelBazaarTracker.db :=
  match HypixelBazaarTracker.store_bazaar_data 500
          (Some {| HypixelBazaarTracker.bz_success := true;
                   HypixelBazaarTracker.lastUpdated := Some 400;
                   HypixelBazaarTracker.products := ps |})
          true HypixelBazaarTracker.setup_database with
  | Returned st => st
  | Raised _ => HypixelBazaarTracker.setup_database
  end.

(** The listing board after the given polls, oldest first. *)
Definition board_after (polls : list (Z * list auction)) : db :=
  ingest_all polls setup_database.

(** Poll 1 lists [u1] and [u2]; poll 2 lists only [u2]. *)
Definition poll1 : list auction :=
  [listing "u1" "Spirit Wing" 100 true false;
   listing "u2" "Spirit Bone" 50 true false].
Definition poll2 : list auction :=
  [listing "u2" "Spirit Bone" 50 true false].

Definition board1 : db := board_after [(1000, poll1)].
Definition board2 : db := board_after [(1000, poll1); (2000, poll2)].

(** [u1] is listed, vanishes, is listed again and vanishes again. *)
Definition board_relisted : db :=
  board_after [(1000, poll1); (2000, poll2); (3000, poll1)].

(** A listing under ["A_B"] sells; the only listing left is named ["A B"]. *)
Definition board_renamed : db :=
  board_after [(1000, [listing "v1" "A_B" 70 true false]);
               (2000, [listing "v2" "A B" 80 true false])].

(** Item ["A"] is worth 100 and item ["B"] 50 on the listing board. *)
Definition board_chest : db :=
  board_after [(1000, [listing "a1" "A" 100 true false;
                       listing "b1" "B" 50 true false])].

(** The only listing and the only product are named with spaces where an
    enchantment key has underscores. *)
Definition board_enchant : db :=
  board_after [(1000, [listing "e1" "ENCHANTMENT ULTIMATE WISE 5" 900 true false])].
Definition bazaar_enchant : HypixelBazaarTracker.db :=
  bazaar_after [("ENCHANTMENT ULTIMATE WISE 5", quote 900 (Some 7))].

(** Listing board and bazaar quote three items: ["A"] at 100 against 150,
    ["C"] at 200 against 150, ["D"] at 150 against 150. *)
Definition board_prices : db :=
  board_after [(1000, [listing "a1" "A" 100 true false;
                       listing "c1" "C" 200 true false;
                       listing "d1" "D" 150 true false])].
Definition bazaar_prices : HypixelBazaarTracker.db :=
  bazaar_after [("A", quote 150 (Some 21)); ("C", quote 150 (Some 21));
                ("D", quote 150 (Some 21)); ("E", quote 30 (Some 0))].

(** A pure auction ([bin] false) and a claimed fixed-price listing. *)
Definition board_bids : db :=
  board_after [(1000, [listing "n1" "Bow" 10 false false;
                       listing "n2" "Rod" 20 true true])].

(** Upstream announces two pages; page 0 lists [u2], page 1 cannot be
    fetched. *)
Definition pages_with_failure (n : nat) : option page :=
  match n with
  | O => Some {| success := true; totalPages := 2; totalAuctions := 2;
                 page_auctions := poll2 |}
  | _ => None
  end.

(** A poll that repeats the listing id [u1] with two prices. *)
Definition poll_repeated : list auction :=
  [listing "u1" "Spirit Wing" 100 true false;
   listing "u2" "Spirit Bone" 50 true false;
   listing "u1" "Spirit Wing" 90 true false].

(** A successful reply stamped 400 that quotes products ["B"] and ["A"], in
    that order; ["A"] comes without a [quick_status]. *)
Definition reply_400 : HypixelBazaarTracker.bazaar_data :=
  {| HypixelBazaarTracker.bz_success := true;
     HypixelBazaarTracker.lastUpdated := Some 400;
     HypixelBazaarTracker.products := [("B", quote 20 (Some 14)); ("A", None)] |}.

Definition calc (ah : db) (bz : HypixelBazaarTracker.db)
    : ChestValueCalculator.calculator :=
  {| ChestValueCalculator.auction_tracker := ah;
     ChestValueCalculator.bazaar_tracker := bz |}.

End Examples.

(** * Properties of the listing snapshot store *)

Section ListingStore.

Import HypixelAuctionTracker.

(** A decidable statement about concrete tables, settled by evaluation. *)
Ltac by_evaluation :=
  match goal with
  | |- ?P => refine (@bool_decide_unpack P _ _); vm_compute; exact I
  end.

(** ** Generic facts about keyed tables *)

Lemma filter_key_unique {A K : Type} `{EqDecision K} (f : A -> K) (l : list A)
    (x : A) :
  NoDup (f <$> l) -> x ∈ l -> filter (fun y => f y = f x) l = [x].
Proof.
  induction l as [|y l IH]; intros Hnd Hin; [by apply elem_of_nil in Hin|].
  rewrite fmap_cons in Hnd. apply NoDup_cons in Hnd as [Hy Hnd].
  apply elem_of_cons in Hin as [->|Hin].
  - rewrite filter_cons_True by done. f_equal.
    clear IH Hnd. induction l as [|z l IH]; [done|].
    rewrite fmap_cons in Hy. apply not_elem_of_cons in Hy as [Hne Hy].
    rewrite filter_cons_False by congruence. by apply IH.
  - rewrite filter_cons_False; [by apply IH|].
    intros Heq. apply Hy. rewrite Heq. by apply list_elem_of_fmap_2.
Qed.

Lemma filter_key_absent {A K : Type} `{EqDecision K} (f : A -> K) (l : list A)
    (k : K) :
  k ∉ f <$> l -> filter (fun y => f y = k) l = [].
Proof.
  induction l as [|y l IH]; intros Hk; [done|].
  rewrite fmap_cons in Hk. apply not_elem_of_cons in Hk as [Hne Hk].
  rewrite filter_cons_False by congruence. by apply IH.
Qed.

(** ** The dictionary of the previous snapshot *)

Lemma previous_of_snoc rows r :
  previous_of (rows ++ [r]) = <[a_uuid r := prev_info r]> (previous_of rows).
Proof. unfold previous_of. by rewrite foldl_app. Qed.

Lemma previous_of_dom rows u :
  u ∈ dom (previous_of rows) <-> u ∈ a_uuid <$> rows.
Proof.
  induction rows as [|r rows IH] using rev_ind.
  - unfold previous_of; simpl. rewrite dom_empty_L. set_solver.
  - rewrite previous_of_snoc, dom_insert_L, fmap_app, elem_of_union,
      elem_of_singleton, elem_of_app, IH. simpl.
    rewrite list_elem_of_singleton. tauto.
Qed.

Lemma previous_of_lookup rows r :
  NoDup (a_uuid <$> rows) -> r ∈ rows ->
  previous_of rows !! a_uuid r = Some (prev_info r).
Proof.
  induction rows as [|x rows IH] using rev_ind; intros Hnd Hin.
  - by apply elem_of_nil in Hin.
  - rewrite previous_of_snoc. rewrite fmap_app in Hnd.
    apply NoDup_app in Hnd as (Hnd & Hdisj & _).
    apply elem_of_app in Hin as [Hin|Hin].
    + rewrite lookup_insert_ne; [by apply IH|].
      intros Heq. apply (Hdisj (a_uuid r)).
      * by apply list_elem_of_fmap_2.
      * rewrite <- Heq. set_solver.
    + apply list_elem_of_singleton in Hin as ->. by rewrite lookup_insert_eq.
Qed.

Lemma NoDup_filter_key (P : auctions_row -> Prop) `{forall r, Decision (P r)}
    (rows : list auctions_row) :
  NoDup (a_uuid <$> rows) -> NoDup (a_uuid <$> filter P rows).
Proof.
  induction rows as [|r rows IH]; intros Hnd; [done|].
  rewrite fmap_cons in Hnd. apply NoDup_cons in Hnd as [Hr Hnd].
  destruct (decide (P r)).
  - rewrite filter_cons_True by done. rewrite fmap_cons. apply NoDup_cons.
    split; [|by apply IH].
    intros Hin. apply Hr. apply list_elem_of_fmap in Hin as (y & -> & Hy).
    apply list_elem_of_filter in Hy as [_ Hy]. by apply list_elem_of_fmap_2.
  - rewrite filter_cons_False by done. by apply IH.
Qed.


(** ** The sale events of one ingest *)

Lemma sale_tuple_uuid ts u v : s_uuid (sale_tuple ts u v) = u.
Proof. by destruct v as [[[? ?] ?] ?]. Qed.

Lemma sale_tuple_prev_info ts r :
  sale_tuple ts (a_uuid r) (prev_info r) = sale_event_of ts r.
Proof. done. Qed.

Lemma sales_data_elem ts st poll s :
  s ∈ sales_data ts st poll <->
  exists u v, u ∈ sold_uuids st poll /\ previous_auctions st !! u = Some v
              /\ s = sale_tuple ts u v.
Proof.
  unfold sales_data. rewrite list_elem_of_omap. split.
  - intros (u & Hu & Hs). apply elem_of_elements in Hu.
    destruct (previous_auctions st !! u) as [v|] eqn:Hv; [|done].
    simpl in Hs. exists u, v. split; [done|]. split; [done|]. congruence.
  - intros (u & v & Hu & Hv & ->). exists u. split.
    + by apply elem_of_elements.
    + by rewrite Hv.
Qed.

Lemma omap_keys_NoDup {A B K : Type} (f : A -> option B) (g : B -> K)
    (h : A -> K) (l : list A) :
  (forall a b, f a = Some b -> g b = h a) ->
  NoDup (h <$> l) -> NoDup (g <$> omap f l).
Proof.
  intros Hg. induction l as [|a l IH]; intros Hnd; [constructor|].
  rewrite fmap_cons in Hnd. apply NoDup_cons in Hnd as [Ha Hnd]. simpl.
  destruct (f a) as [b|] eqn:Hb; [|by apply IH].
  rewrite fmap_cons. apply NoDup_cons. split; [|by apply IH].
  intros Hin. apply Ha.
  apply list_elem_of_fmap in Hin as (b' & Heq & Hb').
  apply list_elem_of_omap in Hb' as (a' & Ha' & Hfa').
  rewrite (Hg _ _ Hb) in Heq. rewrite (Hg _ _ Hfa') in Heq.
  rewrite Heq. by apply list_elem_of_fmap_2.
Qed.

Lemma sales_data_NoDup ts st poll :
  NoDup (s_uuid <$> sales_data ts st poll).
Proof.
  unfold sales_data.
  apply (omap_keys_NoDup _ s_uuid (fun u => u)).
  - intros u s Hs. destruct (previous_auctions st !! u) as [v|]; [|done].
    simpl in Hs. injection Hs as <-. apply sale_tuple_uuid.
  - rewrite list_fmap_id. apply NoDup_elements.
Qed.

Lemma sales_data_uuid ts st poll u :
  u ∈ s_uuid <$> sales_data ts st poll <-> u ∈ sold_uuids st poll.
Proof.
  rewrite list_elem_of_fmap. split.
  - intros (s & -> & Hs). apply sales_data_elem in Hs as (u & v & Hu & _ & ->).
    by rewrite sale_tuple_uuid.
  - intros Hu. assert (Hdom : u ∈ dom (previous_auctions st)).
    { unfold sold_uuids in Hu. by apply elem_of_difference in Hu as [? _]. }
    apply elem_of_dom in Hdom as [v Hv].
    exists (sale_tuple ts u v). split; [by rewrite sale_tuple_uuid|].
    apply sales_data_elem. by exists u, v.
Qed.

Lemma sold_uuids_elem st poll u :
  u ∈ sold_uuids st poll <->
  (exists r, r ∈ auctions st /\ open_bin r = true /\ a_uuid r = u)
  /\ u ∉ uuid <$> poll.
Proof.
  unfold sold_uuids, previous_auctions, current_uuids.
  rewrite elem_of_difference, previous_of_dom, elem_of_list_to_set,
    list_elem_of_fmap.
  split; intros [(r & Hr1 & Hr2) Hn]; (split; [|done]).
  - apply list_elem_of_filter in Hr2 as [? ?]. by exists r.
  - destruct Hr2 as [? <-]. exists r. split; [done|].
    by apply list_elem_of_filter.
Qed.

Lemma sales_data_vanished ts st poll r :
  NoDup (a_uuid <$> auctions st) ->
  r ∈ auctions st -> open_bin r = true -> a_uuid r ∉ uuid <$> poll ->
  sale_event_of ts r ∈ sales_data ts st poll.
Proof.
  intros Hnd Hin Hopen Hgone. apply sales_data_elem.
  exists (a_uuid r), (prev_info r). split; [|split; [|done]].
  - apply sold_uuids_elem. split; [by exists r|done].
  - unfold previous_auctions. apply previous_of_lookup.
    + by apply NoDup_filter_key.
    + by apply list_elem_of_filter.
Qed.

(** ** [INSERT OR REPLACE INTO auction_sales] *)

Lemma replace_sale_hit tbl r u :
  s_uuid r = u -> filter (fun s => s_uuid s = u) (replace_sale tbl r) = [r].
Proof.
  intros Hu. unfold replace_sale. rewrite filter_app.
  rewrite list_filter_filter.
  rewrite (filter_cons_True _ r []) by done.
  replace (filter _ tbl) with (@nil sales_row); [done|].
  symmetry. induction tbl as [|x tbl IH]; [done|].
  rewrite filter_cons_False; [done|]. intros [? ?]. congruence.
Qed.

Lemma replace_sale_miss tbl r u :
  s_uuid r <> u ->
  filter (fun s => s_uuid s = u) (replace_sale tbl r)
  = filter (fun s => s_uuid s = u) tbl.
Proof.
  intros Hu. unfold replace_sale. rewrite filter_app.
  rewrite (filter_cons_False _ r []) by done.
  rewrite app_nil_r, list_filter_filter.
  apply list_filter_iff. intros x. split; [by intros [? ?]|].
  intros Hx. split; [done|congruence].
Qed.

Lemma replace_all_miss sales tbl u :
  u ∉ s_uuid <$> sales ->
  filter (fun s => s_uuid s = u) (foldl replace_sale tbl sales)
  = filter (fun s => s_uuid s = u) tbl.
Proof.
  revert tbl. induction sales as [|x sales IH]; intros tbl Hu; [done|].
  rewrite fmap_cons in Hu. apply not_elem_of_cons in Hu as [Hne Hu].
  simpl. rewrite IH by done. apply replace_sale_miss. congruence.
Qed.

Lemma replace_all_hit sales tbl s :
  NoDup (s_uuid <$> sales) -> s ∈ sales ->
  filter (fun x => s_uuid x = s_uuid s) (foldl replace_sale tbl sales) = [s].
Proof.
  revert tbl. induction sales as [|x sales IH]; intros tbl Hnd Hin.
  - by apply elem_of_nil in Hin.
  - rewrite fmap_cons in Hnd. apply NoDup_cons in Hnd as [Hx Hnd]. simpl.
    apply elem_of_cons in Hin as [->|Hin]; [|by apply IH].
    rewrite replace_all_miss by done. by apply replace_sale_hit.
Qed.

Lemma replace_sale_NoDup tbl r :
  NoDup (s_uuid <$> tbl) -> NoDup (s_uuid <$> replace_sale tbl r).
Proof.
  intros Hnd. unfold replace_sale. rewrite fmap_app. apply NoDup_app.
  split; [|split].
  - induction tbl as [|x tbl IH]; [constructor|].
    rewrite fmap_cons in Hnd. apply NoDup_cons in Hnd as [Hx Hnd].
    destruct (decide (s_uuid x ≠ s_uuid r)).
    + rewrite filter_cons_True by done. rewrite fmap_cons. apply NoDup_cons.
      split; [|by apply IH]. intros Hin. apply Hx.
      apply list_elem_of_fmap in Hin as (y & -> & Hy).
      apply list_elem_of_filter in Hy as [_ Hy]. by apply list_elem_of_fmap_2.
    + rewrite filter_cons_False by done. by apply IH.
  - intros u Hu Hr. simpl in Hr. apply list_elem_of_singleton in Hr as ->.
    apply list_elem_of_fmap in Hu as (y & Heq & Hy).
    apply list_elem_of_filter in Hy as [Hy _]. congruence.
  - simpl. apply NoDup_singleton.
Qed.

Lemma replace_all_NoDup sales tbl :
  NoDup (s_uuid <$> tbl) -> NoDup (s_uuid <$> foldl replace_sale tbl sales).
Proof.
  revert tbl. induction sales as [|x sales IH]; intros tbl Hnd; [done|].
  simpl. apply IH. by apply replace_sale_NoDup.
Qed.

Lemma store_auctions_sales ts poll st :
  auction_sales (store_auctions ts poll st)
  = foldl replace_sale (auction_sales st) (sales_data ts st poll).
Proof. unfold store_auctions; simpl. by destruct (sales_data ts st poll). Qed.

Lemma store_auctions_sales_NoDup ts poll st :
  NoDup (s_uuid <$> auction_sales st) ->
  NoDup (s_uuid <$> auction_sales (store_auctions ts poll st)).
Proof. rewrite store_auctions_sales. apply replace_all_NoDup. Qed.


Lemma sold_uuid_recorded ts poll st u :
  u ∈ sold_uuids st poll ->
  exists ev,
    filter (fun s => s_uuid s = u) (auction_sales (store_auctions ts poll st))
    = [ev]
    /\ s_sold_timestamp ev = ts.
Proof.
  intros Hsold. apply sales_data_uuid with (ts := ts) in Hsold.
  apply list_elem_of_fmap in Hsold as (ev & -> & Hev).
  exists ev. split.
  - rewrite store_auctions_sales. apply replace_all_hit; [|done].
    apply sales_data_NoDup.
  - apply sales_data_elem in Hev as (u & v & _ & _ & ->).
    by destruct v as [[[? ?] ?] ?].
Qed.

(** ** The current snapshot after an ingest *)

Lemma fmap_filter_key {A : Type} (f : A -> A) (k : A -> string) (u : string)
    (l : list A) :
  (forall x, k (f x) = k x) ->
  f <$> filter (fun x => k x ≠ u) l = filter (fun x => k x ≠ u) (f <$> l).
Proof.
  intros Hk. induction l as [|x l IH]; [done|].
  rewrite fmap_cons. destruct (decide (k x ≠ u)) as [Hne|Heq].
  - rewrite !filter_cons_True by (by rewrite ?Hk).
    rewrite fmap_cons. by f_equal.
  - rewrite !filter_cons_False by (by rewrite ?Hk). done.
Qed.

Lemma refetched_replace_auction ts tbl r :
  refetched ts <$> replace_auction tbl r
  = replace_auction (refetched ts <$> tbl) (refetched ts r).
Proof.
  unfold replace_auction. rewrite fmap_app. f_equal.
  by apply (fmap_filter_key (refetched ts) a_uuid).
Qed.

Lemma refetched_snapshot t1 t2 poll acc :
  foldl replace_auction (refetched t2 <$> acc) (auction_tuple t2 <$> poll)
  = refetched t2 <$> foldl replace_auction acc (auction_tuple t1 <$> poll).
Proof.
  revert acc. induction poll as [|a poll IH]; intros acc; [done|].
  rewrite !fmap_cons. simpl. rewrite <- IH. f_equal.
  by rewrite refetched_replace_auction.
Qed.

Lemma snapshot_uuids rows acc u :
  u ∈ a_uuid <$> foldl replace_auction acc rows ->
  u ∈ a_uuid <$> acc \/ u ∈ a_uuid <$> rows.
Proof.
  revert acc. induction rows as [|r rows IH]; intros acc Hu; [by left|].
  simpl in Hu. apply IH in Hu as [Hu|Hu].
  - unfold replace_auction in Hu. rewrite fmap_app in Hu.
    apply elem_of_app in Hu as [Hu|Hu].
    + left. apply list_elem_of_fmap in Hu as (y & -> & Hy).
      apply list_elem_of_filter in Hy as [_ Hy]. by apply list_elem_of_fmap_2.
    + right. simpl in Hu. apply list_elem_of_singleton in Hu as ->.
      rewrite fmap_cons. apply elem_of_cons. by left.
  - right. rewrite fmap_cons. apply elem_of_cons. by right.
Qed.

Lemma replace_auction_NoDup tbl r :
  NoDup (a_uuid <$> tbl) -> NoDup (a_uuid <$> replace_auction tbl r).
Proof.
  intros Hnd. unfold replace_auction. rewrite fmap_app. apply NoDup_app.
  split; [by apply NoDup_filter_key|]. split; [|apply NoDup_singleton].
  intros u Hu Hr. simpl in Hr. apply list_elem_of_singleton in Hr as ->.
  apply list_elem_of_fmap in Hu as (y & Heq & Hy).
  apply list_elem_of_filter in Hy as [Hy _]. congruence.
Qed.

(** The primary key of [auctions] holds after every ingest, whatever the
    poll repeats. *)
Lemma store_auctions_snapshot_NoDup ts poll st :
  NoDup (a_uuid <$> auctions (store_auctions ts poll st)).
Proof.
  simpl. generalize (auction_tuple ts <$> poll). intros rows.
  assert (Hgen : forall acc, NoDup (a_uuid <$> acc) ->
            NoDup (a_uuid <$> foldl replace_auction acc rows)).
  { induction rows as [|r rows IH]; intros acc Hacc; [done|].
    simpl. apply IH. by apply replace_auction_NoDup. }
  apply Hgen. constructor.
Qed.

Lemma nothing_sold_on_same_poll t1 poll st :
  sold_uuids (store_auctions t1 poll st) poll = ∅.
Proof.
  apply elem_of_equiv_empty_L. intros u Hu.
  apply sold_uuids_elem in Hu as [(r & Hr & _ & <-) Hgone].
  apply Hgone. simpl in Hr.
  apply (list_elem_of_fmap_2 a_uuid) in Hr.
  apply snapshot_uuids in Hr as [Hr|Hr]; [by apply elem_of_nil in Hr|].
  rewrite <- list_fmap_compose in Hr. exact Hr.
Qed.

(** ** Sale detection *)

(** C1. On every ingest into a store whose [auctions] table respects its
    primary key (it does after any ingest, [store_auctions_snapshot_NoDup]),
    a listing id that the prior current snapshot holds as fixed-price
    ([bin = 1]) and unclaimed ([claimed = 0]) and that is absent from the
    new poll produces exactly one Sale Event: the ingest's
    [sales_data] has exactly one record for the id, and so has table
    [auction_sales] afterwards; its price is the prior row's starting bid,
    its first-seen the prior row's fetch timestamp, its sold timestamp the
    new poll's fetch timestamp.  A listing id that is present in the new
    poll produces no Sale Event, and the records [auction_sales] holds for
    it are left as they were. *)
Theorem C1_sale_detection (ts : Z) (poll : list auction) (st : db) :
  NoDup (a_uuid <$> auctions st) ->
  (forall r, r ∈ auctions st -> open_bin r = true ->
             a_uuid r ∉ uuid <$> poll ->
     filter (fun s => s_uuid s = a_uuid r) (sales_data ts st poll)
       = [sale_event_of ts r]
     /\ filter (fun s => s_uuid s = a_uuid r)
          (auction_sales (store_auctions ts poll st))
       = [sale_event_of ts r]
     /\ s_price (sale_event_of ts r) = a_starting_bid r
     /\ s_first_seen (sale_event_of ts r) = a_fetch_timestamp r
     /\ s_sold_timestamp (sale_event_of ts r) = ts)
  /\ (forall u, u ∈ uuid <$> poll ->
        filter (fun s => s_uuid s = u) (sales_data ts st poll) = []
        /\ filter (fun s => s_uuid s = u)
             (auction_sales (store_auctions ts poll st))
           = filter (fun s => s_uuid s = u) (auction_sales st)).
Proof.
  intros Hnd. split.
  - intros r Hin Hopen Hgone.
    pose proof (sales_data_vanished ts st poll r Hnd Hin Hopen Hgone) as Hev.
    pose proof (sales_data_NoDup ts st poll) as Hsd.
    split; [|split; [|done]].
    + change (a_uuid r) with (s_uuid (sale_event_of ts r)).
      by apply filter_key_unique.
    + rewrite store_auctions_sales.
      change (a_uuid r) with (s_uuid (sale_event_of ts r)).
      by apply replace_all_hit.
  - intros u Hu.
    assert (Hnot : u ∉ s_uuid <$> sales_data ts st poll).
    { rewrite sales_data_uuid, sold_uuids_elem. by intros [_ ?]. }
    split.
    + by apply filter_key_absent.
    + rewrite store_auctions_sales. by apply replace_all_miss.
Qed.

(** C2. After any sequence of ingests into a fresh store the sale-event
    table holds at most one record per listing id.  On a further ingest that
    detects a listing id as sold while a Sale Event for it is already stored,
    no second record appears: the table keeps its length, still has one
    record per id, and the one record of that id now carries the sold
    timestamp of this ingest. *)
Theorem C2_one_sale_event_per_listing :
  (forall polls,
     NoDup (s_uuid <$> auction_sales (ingest_all polls setup_database)))
  /\ (forall ts poll st u,
        NoDup (s_uuid <$> auction_sales st) ->
        u ∈ s_uuid <$> auction_sales st ->
        u ∈ sold_uuids st poll ->
        let st' := store_auctions ts poll st in
        NoDup (s_uuid <$> auction_sales st')
        /\ (exists ev, filter (fun s => s_uuid s = u) (auction_sales st') = [ev]
                       /\ s_sold_timestamp ev = ts)
        /\ length (filter (fun s => s_uuid s = u) (auction_sales st'))
           = length (filter (fun s => s_uuid s = u) (auction_sales st))).
Proof.
  split.
  - intros polls. unfold ingest_all.
    assert (Hgen : forall st, NoDup (s_uuid <$> auction_sales st) ->
              NoDup (s_uuid <$> auction_sales
                       (foldl (fun st p => store_auctions p.1 p.2 st) st polls))).
    { induction polls as [|p polls IH]; intros st Hst; [done|].
      simpl. apply IH. by apply store_auctions_sales_NoDup. }
    apply Hgen. simpl. constructor.
  - intros ts poll st u Hnd Hold Hsold st'. subst st'.
    split; [by apply store_auctions_sales_NoDup|].
    destruct (sold_uuid_recorded ts poll st u Hsold) as (ev & Hone & Hts).
    split; [by exists ev|].
    rewrite Hone.
    apply list_elem_of_fmap in Hold as (old & Heq & Hold).
    rewrite Heq. by rewrite (filter_key_unique s_uuid _ old).
Qed.

(** Poll 1 lists [u1] and [u2], poll 2 only [u2]: the ingest of poll 2
    records the sale of [u1] at the price and first-seen of poll 1, and
    nothing for [u2]. *)
Lemma C1_sale_detection_witness :
  let u1 :=
    auction_tuple 1000 (Examples.listing "u1" "Spirit Wing" 100 true false) in
  (NoDup (a_uuid <$> auctions Examples.board1)
   /\ u1 ∈ auctions Examples.board1
   /\ open_bin u1 = true
   /\ (a_uuid u1 ∉ uuid <$> Examples.poll2)
   /\ filter (fun s => s_uuid s = "u1") (auction_sales Examples.board2)
      = [sale_event_of 2000 u1]
   /\ filter (fun s => s_uuid s = "u2")
        (sales_data 2000 Examples.board1 Examples.poll2) = []).
Proof.
  intros u1.
  assert (Hnd : NoDup (a_uuid <$> auctions Examples.board1)).
  { by_evaluation. }
  assert (Hin : u1 ∈ auctions Examples.board1).
  { vm_compute. constructor. }
  assert (Hgone : a_uuid u1 ∉ uuid <$> Examples.poll2).
  { by_evaluation. }
  destruct (C1_sale_detection 2000 Examples.poll2 Examples.board1 Hnd)
    as [Hsold Hkept].
  destruct (Hsold u1 Hin eq_refl Hgone) as (_ & Htable & _).
  destruct (Hkept "u2") as [Hnone _].
  { by_evaluation. }
  repeat split; done.
Defined.

(** [u1] is listed, sold, listed again and vanishes again at 4000: the store
    already holds a Sale Event for [u1], and the ingest at 4000 leaves one
    record for it, sold at 4000. *)
Lemma C2_one_sale_event_per_listing_witness :
  NoDup (s_uuid <$> auction_sales Examples.board_relisted)
  /\ "u1" ∈ s_uuid <$> auction_sales Examples.board_relisted
  /\ "u1" ∈ sold_uuids Examples.board_relisted Examples.poll2
  /\ exists ev,
       filter (fun s => s_uuid s = "u1")
         (auction_sales (store_auctions 4000 Examples.poll2 Examples.board_relisted))
       = [ev]
       /\ s_sold_timestamp ev = 4000.
Proof.
  assert (Hnd : NoDup (s_uuid <$> auction_sales Examples.board_relisted)).
  { apply (proj1 C2_one_sale_event_per_listing). }
  assert (Hold : "u1" ∈ s_uuid <$> auction_sales Examples.board_relisted).
  { by_evaluation. }
  assert (Hsold : "u1" ∈ sold_uuids Examples.board_relisted Examples.poll2).
  { by_evaluation. }
  destruct (proj2 C2_one_sale_event_per_listing 4000 Examples.poll2
              Examples.board_relisted "u1" Hnd Hold Hsold) as (_ & Hev & _).
  repeat split; done.
Defined.


(** ** Ingesting the same poll twice *)

(** C8, as the code has it.  Ingesting the same listing list a second time
    right after the first produces no Sale Event and leaves [auction_sales]
    as it was; the current snapshot keeps its rows, in order, except that
    the [fetch_timestamp] column of every row now holds the clock value of
    the second ingest.  When both ingests read the same clock value the
    snapshot is unchanged. *)
Theorem C8_same_poll_twice (t1 t2 : Z) (poll : list auction) (st : db) :
  let st1 := store_auctions t1 poll st in
  let st2 := store_auctions t2 poll st1 in
  sales_data t2 st1 poll = []
  /\ auction_sales st2 = auction_sales st1
  /\ auctions st2 = refetched t2 <$> auctions st1
  /\ auctions (store_auctions t1 poll st1) = auctions st1.
Proof.
  intros st1 st2.
  assert (Hnone : sales_data t2 st1 poll = []).
  { unfold sales_data. subst st1.
    by rewrite nothing_sold_on_same_poll, elements_empty. }
  split; [done|]. split; [|split].
  - subst st2. by rewrite store_auctions_sales, Hnone.
  - subst st1 st2. simpl.
    by rewrite <- (refetched_snapshot t1 t2 poll []).
  - subst st1. simpl.
    rewrite (refetched_snapshot t1 t1 poll []) at 1.
    rewrite <- (refetched_snapshot t1 t1 poll []). done.
Qed.

(** The claim as written fails on the snapshot: a second ingest one second
    after the first changes the stored rows. *)
Lemma C8_same_poll_twice_counterexample :
  let st1 := store_auctions 1000 Examples.poll2 setup_database in
  let st2 := store_auctions 2000 Examples.poll2 st1 in
  auctions st2 <> auctions st1.
Proof. intros st1 st2 Heq. vm_compute in Heq. discriminate Heq. Qed.

(** ** An empty or failed poll *)

(** C3, as the code has it.  The bazaar store rejects a missing reply and a
    reply without a true [success]: [store_bazaar_data] returns with the
    database as it was.  On the listing side the rejection is in
    [fetch_all_auctions]: when the first page is missing or is not a success
    the database is as it was, [store_auctions] not being called.
    [store_auctions] itself has no such check: given an empty list it
    leaves [auction_history] and [update_log] as they were, empties the
    current snapshot and stores, for every fixed-price unclaimed row of the
    prior snapshot, a Sale Event sold at this ingest. *)
Theorem C3_rejected_polls :
  (forall now data store_history st,
     data = None \/ (exists d, data = Some d
                               /\ HypixelBazaarTracker.bz_success d = false) ->
     HypixelBazaarTracker.store_bazaar_data now data store_history st
     = Returned st)
  /\ (forall fetch_page ts log_ts duration st,
        fetch_page 0%nat = None
        \/ (exists p, fetch_page 0%nat = Some p /\ success p = false) ->
        fetch_all_auctions fetch_page ts log_ts duration st = st)
  /\ (forall ts st,
        let st' := store_auctions ts [] st in
        auctions st' = []
        /\ auction_history st' = auction_history st
        /\ update_log st' = update_log st
        /\ forall r, r ∈ auctions st -> open_bin r = true ->
             exists ev,
               filter (fun s => s_uuid s = a_uuid r) (auction_sales st') = [ev]
               /\ s_sold_timestamp ev = ts).
Proof.
  split; [|split].
  - intros now data sh st [->|(d & -> & Hd)]; [done|].
    unfold HypixelBazaarTracker.store_bazaar_data. by rewrite Hd.
  - intros fetch_page ts log_ts duration st [Hp|(p & Hp & Hs)];
      unfold fetch_all_auctions; rewrite Hp; [done|]. by rewrite Hs.
  - intros ts st st'. subst st'. repeat split.
    intros r Hr Hopen. apply sold_uuid_recorded.
    apply sold_uuids_elem. split; [by exists r|].
    simpl. apply not_elem_of_nil.
Qed.

(** An empty list given to [store_auctions] wipes the snapshot and records
    every open fixed-price listing as sold. *)
Lemma C3_rejected_polls_counterexample :
  let st' := store_auctions 2000 [] Examples.board1 in
  auctions st' <> auctions Examples.board1
  /\ auction_sales st' <> auction_sales Examples.board1.
Proof.
  intros st'. split; intros Heq; vm_compute in Heq; discriminate Heq.
Qed.

Lemma C3_rejected_polls_witness :
  HypixelBazaarTracker.store_bazaar_data 500
    (Some {| HypixelBazaarTracker.bz_success := false;
             HypixelBazaarTracker.lastUpdated := Some 400;
             HypixelBazaarTracker.products :=
               [("X", Examples.quote 150 (Some 21))] |})
    true (Examples.bazaar_after [("Y", Examples.quote 10 None)])
  = Returned (Examples.bazaar_after [("Y", Examples.quote 10 None)])
  /\ fetch_all_auctions (fun _ => None) 2000 2001 1 Examples.board1
     = Examples.board1.
Proof.
  destruct C3_rejected_polls as (Hbz & Hah & _). split.
  - apply Hbz. right. eexists. split; [reflexivity|reflexivity].
  - apply Hah. by left.
Defined.

End ListingStore.

(** * Properties of the name resolver *)

Section NameResolver.

Lemma bool_decide_is_Some {A : Type} (o : option A) :
  bool_decide (is_Some o) = match o with Some _ => true | None => false end.
Proof.
  destruct o.
  - apply bool_decide_eq_true_2. by eexists.
  - apply bool_decide_eq_false_2. by intros [? ?].
Qed.

(** The four queries of either lookup, written over any pair of exact and
    case-insensitive selections, are the resolution order of the
    specification. *)
Lemma four_queries_resolution {A : Type} (exact nocase : string -> option A)
    (name : string) :
  (let result := exact name in
   let result :=
     if negb (bool_decide (is_Some result)) && has_underscore name
        && negb (startswith name "ENCHANTMENT_")
     then exact (underscores_to_spaces name) else result in
   let result :=
     if negb (bool_decide (is_Some result)) then nocase name else result in
   let result :=
     if negb (bool_decide (is_Some result)) && has_underscore name
        && negb (startswith name "ENCHANTMENT_")
     then nocase (underscores_to_spaces name) else result in
   result)
  = resolution_order exact nocase name.
Proof.
  unfold resolution_order, may_use_spaces. cbv zeta.
  destruct (exact name), (has_underscore name),
    (startswith name "ENCHANTMENT_"), (exact (underscores_to_spaces name)),
    (nocase name), (nocase (underscores_to_spaces name)); reflexivity.
Qed.

Lemma lowest_bin_row_resolution st name :
  HypixelAuctionTracker.lowest_bin_row st name
  = resolution_order
      (fun n => HypixelAuctionTracker.select_lowest
                  (HypixelAuctionTracker.exact_bin n)
                  (HypixelAuctionTracker.auctions st))
      (fun n => HypixelAuctionTracker.select_lowest
                  (HypixelAuctionTracker.nocase_bin n)
                  (HypixelAuctionTracker.auctions st))
      name.
Proof.
  unfold HypixelAuctionTracker.lowest_bin_row.
  apply (four_queries_resolution
           (fun n => HypixelAuctionTracker.select_lowest
                       (HypixelAuctionTracker.exact_bin n) _)
           (fun n => HypixelAuctionTracker.select_lowest
                       (HypixelAuctionTracker.nocase_bin n) _)).
Qed.

Lemma product_info_row_resolution st name :
  HypixelBazaarTracker.product_info_row st name
  = resolution_order
      (fun n => HypixelBazaarTracker.select_exact n
                  (HypixelBazaarTracker.bazaar_current st))
      (fun n => HypixelBazaarTracker.select_nocase n
                  (HypixelBazaarTracker.bazaar_current st))
      name.
Proof.
  unfold HypixelBazaarTracker.product_info_row.
  apply (four_queries_resolution
           (fun n => HypixelBazaarTracker.select_exact n _)
           (fun n => HypixelBazaarTracker.select_nocase n _)).
Qed.

Lemma resolution_order_sentinel {A : Type} (exact nocase : string -> option A)
    (name : string) :
  startswith name "ENCHANTMENT_" = true ->
  resolution_order exact nocase name = first_hit [exact name; nocase name].
Proof.
  intros Hs. unfold resolution_order, may_use_spaces. rewrite Hs.
  rewrite andb_false_r. simpl. destruct (exact name); [done|].
  by destruct (nocase name).
Qed.

Lemma select_lowest_sat p tbl r :
  HypixelAuctionTracker.select_lowest p tbl = Some r -> p r = true.
Proof.
  unfold HypixelAuctionTracker.select_lowest.
  assert (Hgen : forall best,
            (forall b, best = Some b -> p b = true) ->
            foldl (fun best r =>
                     if p r then
                       match best with
                       | None => Some r
                       | Some b =>
                           if (HypixelAuctionTracker.a_starting_bid r
                               <? HypixelAuctionTracker.a_starting_bid b)%Z
                           then Some r else Some b
                       end
                     else best) best tbl = Some r -> p r = true).
  { induction tbl as [|x tbl IH]; intros best Hbest Hr; [by apply Hbest|].
    simpl in Hr. apply IH in Hr; [done|].
    intros b Hb. destruct (p x) eqn:Hx; [|by apply Hbest].
    destruct best as [b0|].
    - destruct (_ <? _)%Z; injection Hb as <-; [done|by apply Hbest].
    - by injection Hb as <-. }
  apply Hgen. intros b Hb. discriminate Hb.
Qed.

Lemma head_filter_sat {A : Type} (p : A -> bool) (l : list A) (r : A) :
  head (List.filter p l) = Some r -> p r = true.
Proof.
  induction l as [|x l IH]; simpl; [done|].
  destruct (p x) eqn:Hx; simpl; [|done]. intros [= <-]. done.
Qed.


(** C4. Both lookups try, in this order and with the first hit winning,
    (1) the exact name, (2) the name with underscores turned into spaces,
    only when the name contains an underscore and does not start with
    [ENCHANTMENT_], (3) the name compared case-insensitively, (4) the space
    variant compared case-insensitively under the same restriction; with no
    hit the result is [None].  Both are total functions into an option, so
    no call raises.  For a name that starts with [ENCHANTMENT_] only
    attempts (1) and (3) are made, and whatever row is returned has a stored
    name equal to the queried one up to ASCII case: its underscores were not
    converted. *)
Theorem C4_resolution_order :
  (forall get_player_name st name include_player_name,
     HypixelAuctionTracker.get_lowest_bin get_player_name st name
       include_player_name
     = HypixelAuctionTracker.item_dict get_player_name include_player_name
       <$> resolution_order
             (fun n => HypixelAuctionTracker.select_lowest
                         (HypixelAuctionTracker.exact_bin n)
                         (HypixelAuctionTracker.auctions st))
             (fun n => HypixelAuctionTracker.select_lowest
                         (HypixelAuctionTracker.nocase_bin n)
                         (HypixelAuctionTracker.auctions st))
             name)
  /\ (forall st name,
        HypixelBazaarTracker.get_product_info st name
        = HypixelBazaarTracker.product_dict
          <$> resolution_order
                (fun n => HypixelBazaarTracker.select_exact n
                            (HypixelBazaarTracker.bazaar_current st))
                (fun n => HypixelBazaarTracker.select_nocase n
                            (HypixelBazaarTracker.bazaar_current st))
                name)
  /\ (forall get_player_name st name include_player_name,
        startswith name "ENCHANTMENT_" = true ->
        HypixelAuctionTracker.get_lowest_bin get_player_name st name
          include_player_name
        = HypixelAuctionTracker.item_dict get_player_name include_player_name
          <$> first_hit
                [ HypixelAuctionTracker.select_lowest
                    (HypixelAuctionTracker.exact_bin name)
                    (HypixelAuctionTracker.auctions st);
                  HypixelAuctionTracker.select_lowest
                    (HypixelAuctionTracker.nocase_bin name)
                    (HypixelAuctionTracker.auctions st) ]
        /\ forall b,
             HypixelAuctionTracker.get_lowest_bin get_player_name st name
               include_player_name = Some b ->
             LOWER (HypixelAuctionTracker.b_item_name b) = LOWER name)
  /\ (forall st name,
        startswith name "ENCHANTMENT_" = true ->
        HypixelBazaarTracker.get_product_info st name
        = HypixelBazaarTracker.product_dict
          <$> first_hit
                [ HypixelBazaarTracker.select_exact name
                    (HypixelBazaarTracker.bazaar_current st);
                  HypixelBazaarTracker.select_nocase name
                    (HypixelBazaarTracker.bazaar_current st) ]
        /\ forall p,
             HypixelBazaarTracker.get_product_info st name = Some p ->
             LOWER (HypixelBazaarTracker.p_product_id p) = LOWER name).
Proof.
  assert (Hah : forall gp st name incl,
            HypixelAuctionTracker.get_lowest_bin gp st name incl
            = HypixelAuctionTracker.item_dict gp incl
              <$> HypixelAuctionTracker.lowest_bin_row st name).
  { intros. unfold HypixelAuctionTracker.get_lowest_bin.
    by destruct (HypixelAuctionTracker.lowest_bin_row st name). }
  assert (Hbz : forall st name,
            HypixelBazaarTracker.get_product_info st name
            = HypixelBazaarTracker.product_dict
              <$> HypixelBazaarTracker.product_info_row st name).
  { intros. unfold HypixelBazaarTracker.get_product_info.
    by destruct (HypixelBazaarTracker.product_info_row st name). }
  split; [|split; [|split]].
  - intros. by rewrite Hah, lowest_bin_row_resolution.
  - intros. by rewrite Hbz, product_info_row_resolution.
  - intros gp st name incl Hs.
    rewrite Hah, lowest_bin_row_resolution, resolution_order_sentinel by done.
    split; [done|]. intros b Hb. simpl in Hb.
    destruct (HypixelAuctionTracker.select_lowest
                (HypixelAuctionTracker.exact_bin name) _) as [r|] eqn:He.
    + injection Hb as <-. apply select_lowest_sat in He.
      unfold HypixelAuctionTracker.exact_bin in He.
      apply andb_true_iff in He as [He _]. apply String.eqb_eq in He.
      simpl. by rewrite He.
    + destruct (HypixelAuctionTracker.select_lowest
                  (HypixelAuctionTracker.nocase_bin name) _) as [r|] eqn:Hn;
        [|done].
      injection Hb as <-. apply select_lowest_sat in Hn.
      unfold HypixelAuctionTracker.nocase_bin in Hn.
      apply andb_true_iff in Hn as [Hn _]. by apply String.eqb_eq in Hn.
  - intros st name Hs.
    rewrite Hbz, product_info_row_resolution, resolution_order_sentinel by done.
    split; [done|]. intros p Hp. simpl in Hp.
    destruct (HypixelBazaarTracker.select_exact name _) as [r|] eqn:He.
    + injection Hp as <-. apply head_filter_sat in He.
      apply String.eqb_eq in He. simpl. by rewrite He.
    + destruct (HypixelBazaarTracker.select_nocase name _) as [r|] eqn:Hn;
        [|done].
      injection Hp as <-. apply head_filter_sat in Hn.
      by apply String.eqb_eq in Hn.
Qed.

(** ["ENCHANTMENT_ULTIMATE_WISE_5"] starts with the sentinel prefix: with
    only the space-separated name stored, both lookups miss. *)
Lemma C4_resolution_order_witness :
  startswith "ENCHANTMENT_ULTIMATE_WISE_5" "ENCHANTMENT_" = true
  /\ HypixelAuctionTracker.get_lowest_bin (fun _ => None)
       Examples.board_enchant "ENCHANTMENT_ULTIMATE_WISE_5" false = None
  /\ HypixelBazaarTracker.get_product_info Examples.bazaar_enchant
       "ENCHANTMENT_ULTIMATE_WISE_5" = None.
Proof.
  destruct C4_resolution_order as (_ & _ & Hah & Hbz).
  split; [reflexivity|]. split.
  - rewrite (proj1 (Hah (fun _ => None) Examples.board_enchant
                      "ENCHANTMENT_ULTIMATE_WISE_5" false eq_refl)).
    reflexivity.
  - rewrite (proj1 (Hbz Examples.bazaar_enchant
                      "ENCHANTMENT_ULTIMATE_WISE_5" eq_refl)).
    reflexivity.
Defined.

(** The stored key ["ENCHANTED_DIAMOND"] is not reached from the query
    ["enchanted diamond"]: only underscores of the query are turned into
    spaces, never spaces into underscores, nor is the stored key rewritten. *)
Remark spaced_query_misses_underscored_key :
  HypixelBazaarTracker.get_product_info
    (Examples.bazaar_after [("ENCHANTED_DIAMOND", Examples.quote 150 (Some 21))])
    "enchanted diamond" = None
  /\ HypixelBazaarTracker.p_product_id
     <$> HypixelBazaarTracker.get_product_info
           (Examples.bazaar_after
              [("ENCHANTED_DIAMOND", Examples.quote 150 (Some 21))])
           "enchanted_diamond"
     = Some "ENCHANTED_DIAMOND".
Proof. split; reflexivity. Qed.

End NameResolver.

(** * Properties of the valuation engine *)

Section Valuation.

Import ChestValueCalculator.

(** ** Rounding and truth values *)

Lemma py_round2_nonneg (x : Q) :
  (0 <= Qnum x)%Z -> (0 <= Qnum (py_round2 x))%Z.
Proof.
  intros Hx. unfold py_round2. cbv zeta.
  assert (Hq : (0 <= Qnum x * 100 / Z.pos (Qden x))%Z).
  { apply Z.div_pos; lia. }
  simpl. destruct (_ ?= _)%Z; [destruct (Z.even _)|..]; lia.
Qed.

Lemma nonneg_is_not_sentinel (x : Q) :
  (0 <= Qnum x)%Z -> Qeq_bool x (-1) = false.
Proof.
  intros Hx. unfold Qeq_bool. simpl. apply Z.eqb_neq. lia.
Qed.

Lemma count_over_week_num (n : Z) :
  Qnum (inject_Z n / inject_Z 7)%Q = (n * 1)%Z.
Proof. reflexivity. Qed.

Lemma positive_count_truthy (n : Z) :
  (0 < n)%Z -> truthy (inject_Z n / inject_Z 7)%Q = true.
Proof.
  intros Hn. unfold truthy, Qeq_bool. rewrite count_over_week_num. simpl.
  apply negb_true_iff, Z.eqb_neq. lia.
Qed.

Lemma truthy_inject_Z (z : Z) : truthy (inject_Z z) = negb (z =? 0)%Z.
Proof.
  unfold truthy, Qeq_bool. simpl. f_equal.
  destruct (Z.eqb_spec (z * 1) 0), (Z.eqb_spec z 0); (done || lia).
Qed.

(** ** The auction-house part of a valuation *)

Lemma get_sales_per_day_week st now_ms name :
  let rows := week_sales st now_ms name in
  let count := Z.of_nat (length rows) in
  HypixelAuctionTracker.get_sales_per_day st now_ms name 7
  = Returned
      (if (0 <? count)%Z then
         Some {| AH.ss_item_name := name;
                 AH.total_sales := count;
                 AH.daily_sales := (inject_Z count / inject_Z 7)%Q;
                 AH.avg_sale_price :=
                   (inject_Z (foldr Z.add 0%Z (AH.s_price <$> rows))
                    / inject_Z count)%Q;
                 AH.min_sale_price :=
                   foldr Z.min (hd 0%Z (AH.s_price <$> rows))
                     (AH.s_price <$> rows);
                 AH.max_sale_price :=
                   foldr Z.max (hd 0%Z (AH.s_price <$> rows))
                     (AH.s_price <$> rows);
                 AH.period_days := 7 |}
       else None).
Proof.
  intros rows count. unfold HypixelAuctionTracker.get_sales_per_day.
  fold (week_sales st now_ms name). fold rows. fold count.
  by destruct (0 <? count)%Z.
Qed.

(** The sales-per-day value the auction-house part leaves behind. *)
Lemma check_auction_house_returns c now_ms name q :
  check_auction_house c now_ms name q
  = Returned
      match lowest_bin_of c name with
      | Some a =>
          (["auction_house"],
           Some {| lowest_bin := AH.b_price a;
                   ah_tier := AH.b_tier a;
                   ah_total := AH.b_price a * q |},
           if (0 <? Z.of_nat (length (week_sales (auction_tracker c) now_ms name)))%Z
           then auction_daily_rate (auction_tracker c) now_ms name
           else (-1)%Q)
      | None => ([], None, (-1)%Q)
      end.
Proof.
  unfold check_auction_house.
  destruct (lowest_bin_of c name) as [a|]; [|done].
  rewrite get_sales_per_day_week. cbv zeta.
  destruct (0 <? _)%Z eqn:Hn; simpl; [|done].
  apply Z.ltb_lt in Hn. by rewrite positive_count_truthy.
Qed.


Lemma auction_daily_rate_not_sentinel st now_ms name :
  Qeq_bool (auction_daily_rate st now_ms name) (-1) = false.
Proof.
  apply nonneg_is_not_sentinel, py_round2_nonneg.
  rewrite count_over_week_num. lia.
Qed.

(** ** What [get_item_value] returns *)

(** [get_item_value] returns, and its price and velocity fields are read off
    the two lookups and the week's Sale Events. *)
Lemma get_item_value_returns c now_ms name q :
  exists r,
    get_item_value c now_ms name q = Returned r
    /\ (best_price r, total_value r, market r)
       = match lowest_bin_of c name,
               BZ.get_product_info (bazaar_tracker c) name with
         | Some a, Some b =>
             if Qle_bool (BZ.p_buy_price b) (inject_Z (AH.b_price a))
             then (Some (inject_Z (AH.b_price a)),
                   (inject_Z (AH.b_price a) * inject_Z q)%Q,
                   Some "auction_house")
             else (Some (BZ.p_buy_price b),
                   (BZ.p_buy_price b * inject_Z q)%Q, Some "bazaar")
         | Some a, None =>
             (Some (inject_Z (AH.b_price a)),
              (inject_Z (AH.b_price a) * inject_Z q)%Q, Some "auction_house")
         | None, Some b =>
             (Some (BZ.p_buy_price b), (BZ.p_buy_price b * inject_Z q)%Q,
              Some "bazaar")
         | None, None => (None, 0%Q, None)
         end
    /\ sales_per_day r
       = (if bool_decide (is_Some (lowest_bin_of c name))
             && (0 <? Z.of_nat (length (week_sales (auction_tracker c) now_ms name)))%Z
          then auction_daily_rate (auction_tracker c) now_ms name
          else match BZ.get_product_info (bazaar_tracker c) name with
               | Some b =>
                   if (BZ.p_buy_moving_week b =? 0)%Z then (-1)%Q
                   else bazaar_daily_rate b
               | None => (-1)%Q
               end).
Proof.
  unfold get_item_value. rewrite check_auction_house_returns.
  rewrite bool_decide_is_Some.
  destruct (lowest_bin_of c name) as [a|];
    destruct (BZ.get_product_info (bazaar_tracker c) name) as [b|];
    simpl.
  - destruct (0 <? _)%Z eqn:Hn.
    + rewrite auction_daily_rate_not_sentinel. simpl.
      destruct (Qle_bool _ _); eexists; (split; [reflexivity|done]).
    + rewrite truthy_inject_Z. unfold bazaar_daily_rate.
      destruct (BZ.p_buy_moving_week b =? 0)%Z; simpl;
        destruct (Qle_bool _ _); eexists; (split; [reflexivity|done]).
  - destruct (0 <? _)%Z; eexists; (split; [reflexivity|done]).
  - rewrite truthy_inject_Z. unfold bazaar_daily_rate.
    destruct (BZ.p_buy_moving_week b =? 0)%Z; simpl;
      eexists; (split; [reflexivity|done]).
  - eexists. split; [reflexivity|done].
Qed.


(** ** The best-price rule *)

(** C9. When an item is found in both markets and the lowest fixed price
    equals the bazaar instant-sell price, the auction house wins the tie:
    the best price is the listing-board price and the market is
    ["auction_house"].  More generally, with both markets present the market
    is ["auction_house"] exactly when the listing-board price is at least
    the instant-sell price ([ah_price >= bz_price]). *)
Theorem C9_tie_goes_to_auction_house c now_ms name q a b :
  lowest_bin_of c name = Some a ->
  BZ.get_product_info (bazaar_tracker c) name = Some b ->
  exists r,
    get_item_value c now_ms name q = Returned r
    /\ ((inject_Z (AH.b_price a) == BZ.p_buy_price b)%Q ->
        best_price r = Some (inject_Z (AH.b_price a))
        /\ market r = Some "auction_house"
        /\ total_value r = (inject_Z (AH.b_price a) * inject_Z q)%Q)
    /\ (market r = Some "auction_house"
        <-> (BZ.p_buy_price b <= inject_Z (AH.b_price a))%Q).
Proof.
  intros Ha Hb.
  destruct (get_item_value_returns c now_ms name q) as (r & Hr & Hprice & _).
  exists r. split; [done|]. rewrite Ha, Hb in Hprice.
  destruct (Qle_bool (BZ.p_buy_price b) (inject_Z (AH.b_price a))) eqn:Hle;
    injection Hprice as Hbest Htotal Hmarket.
  - apply Qle_bool_iff in Hle. split; [done|]. by rewrite Hmarket.
  - assert (Hnle : ~ (BZ.p_buy_price b <= inject_Z (AH.b_price a))%Q).
    { intros H. apply Qle_bool_iff in H. congruence. }
    split.
    + intros Heq. exfalso. apply Hnle. rewrite Heq. apply Qle_refl.
    + rewrite Hmarket. split; [discriminate|done].
Qed.

Lemma C9_tie_goes_to_auction_house_witness :
  exists r,
    get_item_value (Examples.calc Examples.board_prices Examples.bazaar_prices)
      3000 "D" 1 = Returned r
    /\ best_price r = Some (inject_Z 150)
    /\ market r = Some "auction_house".
Proof.
  destruct (lowest_bin_of
              (Examples.calc Examples.board_prices Examples.bazaar_prices) "D")
    as [a|] eqn:Ha; [|vm_compute in Ha; discriminate Ha].
  destruct (BZ.get_product_info
              (bazaar_tracker
                 (Examples.calc Examples.board_prices Examples.bazaar_prices))
              "D") as [b|] eqn:Hb; [|vm_compute in Hb; discriminate Hb].
  destruct (C9_tie_goes_to_auction_house _ 3000 "D" 1 a b Ha Hb)
    as (r & Hr & Htie & _).
  vm_compute in Ha. injection Ha as <-.
  vm_compute in Hb. injection Hb as <-.
  destruct Htie as (Hbest & Hmarket & _); [reflexivity|].
  exists r. split; [exact Hr|]. split; [exact Hbest|exact Hmarket].
Defined.

(** ** The loop and the profit block of [calculate_chest_value] *)

Lemma found_total_cons v vs :
  found_total (v :: vs)
  = match best_price v with
    | Some _ => (total_value v + found_total vs)%Q
    | None => found_total vs
    end.
Proof.
  unfold found_total. destruct (best_price v) as [p|] eqn:Hp.
  - rewrite filter_cons_True by (rewrite Hp; by eexists). done.
  - rewrite filter_cons_False by (rewrite Hp; by intros [? ?]). done.
Qed.

Lemma chest_loop c now_ms chest vs s :
  exists vs' s',
    foldl (chest_step c now_ms) (Returned (vs, s)) chest
    = Returned (vs ++ vs', s')
    /\ Forall2
         (fun item v =>
            get_item_value c now_ms (default "" (name item))
              (default 1 (quantity item)) = Returned v)
         (filter (fun item => default "" (name item) <> "") chest) vs'
    /\ total_items s' = total_items s
    /\ (chest_cost s' = chest_cost s /\ profit s' = profit s
        /\ is_profitable s' = is_profitable s
        /\ roi_percent s' = roi_percent s)
    /\ items_found s'
       = items_found s
         + Z.of_nat (length (filter (fun v => is_Some (best_price v)) vs'))
    /\ items_not_found s'
       = items_not_found s
         + Z.of_nat (length (filter (fun v => best_price v = None) vs'))
    /\ (sum_total_value s' == sum_total_value s + found_total vs')%Q.
Proof.
  revert vs s. induction chest as [|item chest IH]; intros vs s.
  - exists [], s. rewrite app_nil_r. simpl.
    split; [done|]. split; [constructor|]. split; [done|]. split; [done|].
    split; [lia|]. split; [lia|]. unfold found_total. simpl. ring.
  - simpl.
    destruct (String.eqb (default "" (name item)) "") eqn:He.
    + apply String.eqb_eq in He.
      destruct (IH vs s) as (vs' & s' & Hrun & Hval & Hrest).
      exists vs', s'. rewrite filter_cons_False by (by intros ?).
      split; [exact Hrun|]. split; [exact Hval|exact Hrest].
    + apply String.eqb_neq in He.
      destruct (get_item_value_returns c now_ms (default "" (name item))
                  (default 1 (quantity item))) as (r & Hr & _).
      rewrite Hr. simpl. unfold mret, outcome_ret.
      rewrite filter_cons_True by done.
      destruct (best_price r) as [p|] eqn:Hp;
        match goal with
        | |- context [foldl _ (Returned (_, ?s1)) chest] =>
            destruct (IH (vs ++ [r]) s1)
              as (vs' & s' & Hrun & Hval & Htot & Hcost & Hf & Hnf & Hsum)
        end;
        exists (r :: vs'), s'; simpl in *;
        (split; [by rewrite Hrun, <- app_assoc|]);
        (split; [by constructor|]);
        (split; [done|]); (split; [done|]);
        rewrite found_total_cons, Hp.
      * rewrite filter_cons_True by (rewrite Hp; by eexists).
        rewrite filter_cons_False by (rewrite Hp; by intros ?).
        simpl. split; [lia|]. split; [lia|]. rewrite Hsum. ring.
      * rewrite filter_cons_False by (rewrite Hp; by intros [? ?]).
        rewrite filter_cons_True by done.
        simpl. split; [lia|]. split; [lia|]. done.
Qed.

Lemma positive_cost_divides (k : Q) :
  Qle_bool k 0 = false -> Qeq_bool k 0 = false.
Proof.
  intros Hk. destruct (Qeq_bool k 0) eqn:He; [|done].
  apply Qeq_bool_iff in He.
  assert (Hle : Qle_bool k 0 = true).
  { apply Qle_bool_iff. rewrite He. apply Qle_refl. }
  congruence.
Qed.

Lemma with_profit_returns s :
  exists s',
    with_profit s = Returned s'
    /\ total_items s' = total_items s
    /\ items_found s' = items_found s
    /\ items_not_found s' = items_not_found s
    /\ sum_total_value s' = sum_total_value s
    /\ chest_cost s' = chest_cost s
    /\ match chest_cost s with
       | None => s' = s
       | Some k =>
           profit s' = Some (sum_total_value s - k)%Q
           /\ is_profitable s'
              = Some (negb (Qle_bool (sum_total_value s - k) 0))
           /\ roi_percent s'
              = Some (if Qle_bool k 0 then 0%Q
                      else ((sum_total_value s - k) / k * 100)%Q)
       end.
Proof.
  unfold with_profit. destruct (chest_cost s) as [k|] eqn:Hk.
  - destruct (Qle_bool k 0) eqn:Hle; simpl.
    + eexists. split; [reflexivity|]. simpl. by repeat split.
    + unfold py_div. rewrite (positive_cost_divides k Hle). simpl.
      eexists. split; [reflexivity|]. simpl. by repeat split.
  - exists s. by repeat split.
Qed.

(** [calculate_chest_value] returns; its summary counts and sums the valued
    items, and carries what the profit block computed. *)
Lemma calculate_chest_value_returns c now_ms chest cost :
  exists res,
    calculate_chest_value c now_ms chest cost = Returned res
    /\ Forall2
         (fun item v =>
            get_item_value c now_ms (default "" (name item))
              (default 1 (quantity item)) = Returned v)
         (filter (fun item => default "" (name item) <> "") chest)
         (items res)
    /\ items_found (chest_summary res)
       = Z.of_nat (length (filter (fun v => is_Some (best_price v))
                             (items res)))
    /\ items_not_found (chest_summary res)
       = Z.of_nat (length (filter (fun v => best_price v = None) (items res)))
    /\ (sum_total_value (chest_summary res) == found_total (items res))%Q
    /\ chest_cost (chest_summary res) = cost
    /\ match cost with
       | None =>
           profit (chest_summary res) = None
           /\ is_profitable (chest_summary res) = None
           /\ roi_percent (chest_summary res) = None
       | Some k =>
           let total := sum_total_value (chest_summary res) in
           profit (chest_summary res) = Some (total - k)%Q
           /\ is_profitable (chest_summary res)
              = Some (negb (Qle_bool (total - k) 0))
           /\ roi_percent (chest_summary res)
              = Some (if Qle_bool k 0 then 0%Q
                      else ((total - k) / k * 100)%Q)
       end.
Proof.
  unfold calculate_chest_value.
  destruct (chest_loop c now_ms chest [] (initial_summary (length chest) cost))
    as (vs & s & Hrun & Hval & Htot & (Hcost & Hp & Hip & Hroi) & Hf & Hnf
        & Hsum).
  cbv zeta. change (mret ([], ?x)) with (Returned (@nil item_value, x)).
  rewrite Hrun. simpl.
  destruct (with_profit_returns s)
    as (s' & Hs' & _ & Hf' & Hnf' & Hsum' & Hcost' & Hprofit).
  rewrite Hs'. simpl. eexists. split; [reflexivity|]. simpl.
  split; [done|]. split; [rewrite Hf', Hf; simpl; lia|].
  split; [rewrite Hnf', Hnf; simpl; lia|].
  split; [rewrite Hsum', Hsum; simpl; ring|].
  split; [by rewrite Hcost', Hcost|].
  rewrite Hcost in Hprofit. simpl in Hprofit.
  destruct cost as [k|].
  - cbv zeta. by rewrite Hsum'.
  - subst s'. by rewrite Hp, Hip, Hroi.
Qed.

(** C5. For an item found in both markets the best price is the higher of
    the lowest fixed price and the bazaar instant-sell price, the market
    names the winning side and the total value is the best price times the
    quantity.  Found in one market only, that market's price is the best
    price.  Found in neither, the best price is absent, the total value is 0
    and no market is named.  In [calculate_chest_value] the not-found
    counter of the summary is the number of valued items without a best
    price, the valued items being those of the chest whose name is not
    empty, each valued by [get_item_value]. *)
Theorem C5_best_price_rule :
  (forall c now_ms name q,
     exists r,
       get_item_value c now_ms name q = Returned r
       /\ (forall a b,
             lowest_bin_of c name = Some a ->
             BZ.get_product_info (bazaar_tracker c) name = Some b ->
             ((BZ.p_buy_price b <= inject_Z (AH.b_price a))%Q ->
              best_price r = Some (inject_Z (AH.b_price a))
              /\ market r = Some "auction_house"
              /\ total_value r = (inject_Z (AH.b_price a) * inject_Z q)%Q)
             /\ ((inject_Z (AH.b_price a) < BZ.p_buy_price b)%Q ->
                 best_price r = Some (BZ.p_buy_price b)
                 /\ market r = Some "bazaar"
                 /\ total_value r = (BZ.p_buy_price b * inject_Z q)%Q))
       /\ (forall a,
             lowest_bin_of c name = Some a ->
             BZ.get_product_info (bazaar_tracker c) name = None ->
             best_price r = Some (inject_Z (AH.b_price a))
             /\ market r = Some "auction_house"
             /\ total_value r = (inject_Z (AH.b_price a) * inject_Z q)%Q)
       /\ (forall b,
             lowest_bin_of c name = None ->
             BZ.get_product_info (bazaar_tracker c) name = Some b ->
             best_price r = Some (BZ.p_buy_price b)
             /\ market r = Some "bazaar"
             /\ total_value r = (BZ.p_buy_price b * inject_Z q)%Q)
       /\ (lowest_bin_of c name = None ->
           BZ.get_product_info (bazaar_tracker c) name = None ->
           best_price r = None /\ total_value r = 0%Q /\ market r = None))
  /\ (forall c now_ms chest cost,
        exists res,
          calculate_chest_value c now_ms chest cost = Returned res
          /\ items_not_found (chest_summary res)
             = Z.of_nat (length (filter (fun v => best_price v = None)
                                   (items res)))
          /\ Forall2
               (fun item v =>
                  get_item_value c now_ms (default "" (name item))
                    (default 1 (quantity item)) = Returned v)
               (filter (fun item => default "" (name item) <> "") chest)
               (items res)).
Proof.
  split.
  - intros c now_ms name q.
    destruct (get_item_value_returns c now_ms name q) as (r & Hr & Hprice & _).
    exists r. split; [done|].
    destruct (lowest_bin_of c name) as [a|];
      destruct (BZ.get_product_info (bazaar_tracker c) name) as [b|];
      (split; [|split; [|split]]); try (intros; discriminate).
    + intros a' b' [= <-] [= <-].
      destruct (Qle_bool (BZ.p_buy_price b) (inject_Z (AH.b_price a)))
        eqn:Hle; injection Hprice as Hbest Htotal Hmarket.
      * split; [done|]. intros Hlt. apply Qle_bool_iff in Hle.
        exfalso. by apply (Qlt_not_le _ _ Hlt).
      * split; [|done]. intros Hle'. apply Qle_bool_iff in Hle'. congruence.
    + intros a' [= <-] _. by injection Hprice as Hbest Htotal Hmarket.
    + intros b' _ [= <-]. by injection Hprice as Hbest Htotal Hmarket.
    + intros _ _. by injection Hprice as Hbest Htotal Hmarket.
  - intros c now_ms chest cost.
    destruct (calculate_chest_value_returns c now_ms chest cost)
      as (res & Hres & Hval & _ & Hnf & _).
    by exists res.
Qed.

(** The examples of the claim: 100 on the listing board against 150 on the
    bazaar gives 150 and the bazaar; 200 against 150 gives 200 and the
    auction house. *)
Lemma C5_best_price_rule_witness :
  let c := Examples.calc Examples.board_prices Examples.bazaar_prices in
  (exists r,
     get_item_value c 3000 "A" 1 = Returned r
     /\ best_price r = Some (150 # 1)%Q /\ market r = Some "bazaar"
     /\ total_value r = ((150 # 1) * inject_Z 1)%Q)
  /\ (exists r,
        get_item_value c 3000 "C" 1 = Returned r
        /\ best_price r = Some (inject_Z 200)
        /\ market r = Some "auction_house"
        /\ total_value r = (inject_Z 200 * inject_Z 1)%Q).
Proof.
  intros c. split.
  - destruct (proj1 C5_best_price_rule c 3000 "A" 1) as (r & Hr & Hboth & _).
    destruct (lowest_bin_of c "A") as [a|] eqn:Ha;
      [|vm_compute in Ha; discriminate Ha].
    destruct (BZ.get_product_info (bazaar_tracker c) "A") as [b|] eqn:Hb;
      [|vm_compute in Hb; discriminate Hb].
    destruct (Hboth a b eq_refl eq_refl) as [_ Hbz].
    vm_compute in Ha. injection Ha as <-.
    vm_compute in Hb. injection Hb as <-.
    exists r. split; [exact Hr|]. apply Hbz. reflexivity.
  - destruct (proj1 C5_best_price_rule c 3000 "C" 1) as (r & Hr & Hboth & _).
    destruct (lowest_bin_of c "C") as [a|] eqn:Ha;
      [|vm_compute in Ha; discriminate Ha].
    destruct (BZ.get_product_info (bazaar_tracker c) "C") as [b|] eqn:Hb;
      [|vm_compute in Hb; discriminate Hb].
    destruct (Hboth a b eq_refl eq_refl) as [Hah _].
    vm_compute in Ha. injection Ha as <-.
    vm_compute in Hb. injection Hb as <-.
    exists r. split; [exact Hr|]. apply Hah. discriminate.
Defined.

(** ** Chest aggregation *)

(** C7, as the code has it.  [calculate_chest_value] returns; the total
    value of the summary is the sum of [total_value] over the valued items
    that have a best price.  With a cost [k] given, the profit is the total
    minus [k], the profitability flag says whether the profit is positive,
    and the ROI is [profit / k * 100] when [k > 0] and 0 when [k <= 0], so
    no division by zero happens.  Without a cost the profit is absent and
    neither the profitability flag nor the ROI exists. *)
Theorem C7_chest_aggregation c now_ms chest cost :
  exists res,
    calculate_chest_value c now_ms chest cost = Returned res
    /\ (sum_total_value (chest_summary res) == found_total (items res))%Q
    /\ chest_cost (chest_summary res) = cost
    /\ (cost = None ->
        profit (chest_summary res) = None
        /\ is_profitable (chest_summary res) = None
        /\ roi_percent (chest_summary res) = None)
    /\ (forall k, cost = Some k ->
          let p := (sum_total_value (chest_summary res) - k)%Q in
          profit (chest_summary res) = Some p
          /\ (exists flag, is_profitable (chest_summary res) = Some flag
                           /\ (flag = true <-> (0 < p)%Q))
          /\ ((0 < k)%Q ->
              roi_percent (chest_summary res) = Some (p / k * 100)%Q)
          /\ ((k <= 0)%Q -> roi_percent (chest_summary res) = Some 0%Q)).
Proof.
  destruct (calculate_chest_value_returns c now_ms chest cost)
    as (res & Hres & _ & _ & _ & Hsum & Hcost & Hprofit).
  exists res. split; [done|]. split; [done|]. split; [done|]. split.
  - intros ->. exact Hprofit.
  - intros k ->. cbv zeta in *. destruct Hprofit as (Hp & Hflag & Hroi).
    split; [done|]. split; [|split].
    + eexists. split; [exact Hflag|].
      rewrite negb_true_iff. split.
      * intros Hle. apply Qnot_le_lt. intros H. apply Qle_bool_iff in H.
        congruence.
      * intros Hlt. destruct (Qle_bool _ 0) eqn:Hle; [|done].
        apply Qle_bool_iff in Hle. exfalso. by apply (Qlt_not_le _ _ Hlt).
    + intros Hk. rewrite Hroi. destruct (Qle_bool k 0) eqn:Hle; [|done].
      apply Qle_bool_iff in Hle. exfalso. by apply (Qlt_not_le _ _ Hk).
    + intros Hk. rewrite Hroi. apply Qle_bool_iff in Hk. by rewrite Hk.
Qed.

(** The example of the claim: item ["A"] once at 100 and item ["B"] twice at
    50 with cost 150 give total 200, profit 50, profitable, ROI 100/3,
    between 33.3 and 33.4. *)
Lemma C7_chest_aggregation_witness :
  exists res roi,
    calculate_chest_value
      (Examples.calc Examples.board_chest (Examples.bazaar_after [])) 3000
      [ {| name := Some "A"; quantity := Some 1 |};
        {| name := Some "B"; quantity := Some 2 |} ]
      (Some (150 # 1)%Q)
    = Returned res
    /\ (sum_total_value (chest_summary res) == 200 # 1)%Q
    /\ profit (chest_summary res)
       = Some (sum_total_value (chest_summary res) - (150 # 1))%Q
    /\ (sum_total_value (chest_summary res) - (150 # 1) == 50 # 1)%Q
    /\ is_profitable (chest_summary res) = Some true
    /\ roi_percent (chest_summary res) = Some roi
    /\ (roi == 100 # 3)%Q /\ (333 # 10 <= roi)%Q /\ (roi < 334 # 10)%Q.
Proof.
  destruct (C7_chest_aggregation
              (Examples.calc Examples.board_chest (Examples.bazaar_after []))
              3000
              [ {| name := Some "A"; quantity := Some 1 |};
                {| name := Some "B"; quantity := Some 2 |} ]
              (Some (150 # 1)%Q))
    as (res & Hres & _ & _ & _ & Hcost).
  destruct (Hcost _ eq_refl) as (Hp & (flag & Hflag & Hiff) & Hroi & _).
  assert (Hsum : (sum_total_value (chest_summary res) == 200 # 1)%Q).
  { vm_compute in Hres. injection Hres as <-. reflexivity. }
  assert (Hpos : (0 < sum_total_value (chest_summary res) - (150 # 1))%Q).
  { rewrite Hsum. reflexivity. }
  exists res, ((sum_total_value (chest_summary res) - (150 # 1))
               / (150 # 1) * 100)%Q.
  split; [exact Hres|]. split; [exact Hsum|]. split; [exact Hp|].
  split; [by rewrite Hsum|]. split.
  - rewrite Hflag. f_equal. by apply Hiff.
  - split; [apply Hroi; reflexivity|].
    rewrite Hsum. split; [reflexivity|]. split; [discriminate|reflexivity].
Defined.

(** A negative cost: the claim's formula gives an ROI of -100, the code
    reports 0. *)
Lemma C7_chest_aggregation_counterexample :
  exists res,
    calculate_chest_value
      (Examples.calc Examples.board_chest (Examples.bazaar_after [])) 3000 []
      (Some (-1 # 1)%Q)
    = Returned res
    /\ profit (chest_summary res) = Some (0 - (-1 # 1))%Q
    /\ roi_percent (chest_summary res) = Some 0%Q
    /\ ~ ((0 - (-1 # 1)) / (-1 # 1) * 100 == 0)%Q.
Proof.
  eexists. split; [reflexivity|]. split; [reflexivity|].
  split; [reflexivity|]. discriminate.
Qed.


(** ** Sales velocity *)

(** C6, as the code has it.  With an auction signal (the item has a lowest
    fixed price and at least one Sale Event under its name in the last 7
    days) [sales_per_day] is the auction daily rate, the count over 7
    rounded to two decimals, which is never the sentinel.  Without an
    auction signal it is the bazaar buy moving week over 7, rounded to two
    decimals, when the item is a bazaar product whose buy moving week is not
    0; in every other case, a buy moving week of exactly 0 included, it is
    the sentinel -1. *)
Theorem C6_velocity_sentinel c now_ms name q :
  exists r,
    get_item_value c now_ms name q = Returned r
    /\ (is_Some (lowest_bin_of c name) ->
        week_sales (auction_tracker c) now_ms name <> [] ->
        sales_per_day r = auction_daily_rate (auction_tracker c) now_ms name
        /\ ~ (sales_per_day r == -1)%Q)
    /\ (lowest_bin_of c name = None
        \/ week_sales (auction_tracker c) now_ms name = [] ->
        (forall b, BZ.get_product_info (bazaar_tracker c) name = Some b ->
           BZ.p_buy_moving_week b <> 0 ->
           sales_per_day r = bazaar_daily_rate b)
        /\ (forall b, BZ.get_product_info (bazaar_tracker c) name = Some b ->
              BZ.p_buy_moving_week b = 0 -> sales_per_day r = (-1)%Q)
        /\ (BZ.get_product_info (bazaar_tracker c) name = None ->
            sales_per_day r = (-1)%Q)).
Proof.
  destruct (get_item_value_returns c now_ms name q) as (r & Hr & _ & Hs).
  exists r. split; [done|]. rewrite bool_decide_is_Some in Hs. split.
  - intros [a Ha] Hrows. rewrite Ha in Hs.
    destruct (week_sales (auction_tracker c) now_ms name) as [|x rows] eqn:Hw;
      [done|].
    simpl in Hs. split; [exact Hs|]. rewrite Hs.
    intros Heq. apply Qeq_bool_iff in Heq.
    pose proof (auction_daily_rate_not_sentinel (auction_tracker c) now_ms name)
      as Hno. congruence.
  - intros Hnone.
    assert (Hoff : (match lowest_bin_of c name with
                    | Some _ => true
                    | None => false
                    end
                    && (0 <? Z.of_nat
                          (length (week_sales (auction_tracker c) now_ms name)))%Z)
                   = false).
    { destruct Hnone as [Hn | Hn]; rewrite Hn; [done|]. by rewrite andb_false_r. }
    rewrite Hoff in Hs. clear Hoff.
    split; [|split].
    + intros b Hb Hmw. rewrite Hb in Hs.
      apply Z.eqb_neq in Hmw. by rewrite Hmw in Hs.
    + intros b Hb Hmw. rewrite Hb in Hs. by rewrite Hmw in Hs.
    + intros Hb. by rewrite Hb in Hs.
Qed.

(** Product ["E"] is quoted with a buy moving week of 0 and has no listing:
    the result carries the sentinel. *)
Lemma C6_velocity_sentinel_witness :
  let c := Examples.calc HypixelAuctionTracker.setup_database
             Examples.bazaar_prices in
  exists r b,
    get_item_value c 3000 "E" 1 = Returned r
    /\ lowest_bin_of c "E" = None
    /\ BZ.get_product_info (bazaar_tracker c) "E" = Some b
    /\ BZ.p_buy_moving_week b = 0
    /\ sales_per_day r = (-1)%Q.
Proof.
  intros c.
  destruct (C6_velocity_sentinel c 3000 "E" 1) as (r & Hr & _ & Hno).
  destruct (BZ.get_product_info (bazaar_tracker c) "E") as [b|] eqn:Hb;
    [|vm_compute in Hb; discriminate Hb].
  assert (Hmw : BZ.p_buy_moving_week b = 0).
  { vm_compute in Hb. by injection Hb as <-. }
  pose proof (proj1 (proj2 (Hno (or_introl eq_refl)))) as Hzero.
  exists r, b. split; [exact Hr|]. split; [reflexivity|].
  split; [reflexivity|]. split; [exact Hmw|]. exact (Hzero b eq_refl Hmw).
Defined.

(** The claim as written fails: zero auction sales and a buy moving week of
    exactly 0 give -1, not 0, the same value as with no data at all. *)
Lemma C6_velocity_sentinel_counterexample :
  let c := Examples.calc HypixelAuctionTracker.setup_database
             Examples.bazaar_prices in
  exists r b,
    get_item_value c 3000 "E" 1 = Returned r
    /\ week_sales (auction_tracker c) 3000 "E" = []
    /\ BZ.get_product_info (bazaar_tracker c) "E" = Some b
    /\ BZ.p_buy_moving_week b = 0
    /\ sales_per_day r = (-1)%Q
    /\ ~ (sales_per_day r == 0)%Q.
Proof.
  intros c. eexists _, _. split; [reflexivity|]. split; [reflexivity|].
  split; [reflexivity|]. split; [reflexivity|]. split; [reflexivity|].
  discriminate.
Qed.

(** ** Velocity and the raw name *)

Lemma week_sales_by_name st now_ms name :
  week_sales st now_ms name
  = List.filter
      (fun s => (now_ms - 7 * 24 * 60 * 60 * 1000 <=? AH.s_sold_timestamp s)%Z)
      (filter (fun s => AH.s_item_name s = name) (AH.auction_sales st)).
Proof.
  unfold week_sales. induction (AH.auction_sales st) as [|s rows IH]; [done|].
  simpl. unfold AH.sold_since at 1.
  destruct (String.eqb_spec (AH.s_item_name s) name) as [Heq|Hne].
  - rewrite filter_cons_True by done. simpl.
    destruct (_ <=? _)%Z; by rewrite IH.
  - rewrite filter_cons_False by done. simpl. exact IH.
Qed.

Lemma sales_per_day_by_name st now_ms name days :
  AH.get_sales_per_day st now_ms name days
  = AH.get_sales_per_day
      {| AH.auctions := AH.auctions st;
         AH.auction_history := AH.auction_history st;
         AH.auction_sales :=
           filter (fun s => AH.s_item_name s = name) (AH.auction_sales st);
         AH.update_log := AH.update_log st |}
      now_ms name days.
Proof.
  unfold AH.get_sales_per_day. simpl.
  assert (Hrows : forall cut,
            List.filter (AH.sold_since name cut) (AH.auction_sales st)
            = List.filter (AH.sold_since name cut)
                (filter (fun s => AH.s_item_name s = name) (AH.auction_sales st))).
  { intros cut. induction (AH.auction_sales st) as [|s rows IH]; [done|].
    simpl. unfold AH.sold_since at 1.
    destruct (String.eqb_spec (AH.s_item_name s) name) as [Heq|Hne].
    - rewrite filter_cons_True by done. simpl.
      replace (AH.sold_since name cut s) with (cut <=? AH.s_sold_timestamp s)%Z
        by (unfold AH.sold_since; by rewrite (proj2 (String.eqb_eq _ _) Heq)).
      destruct (_ <=? _)%Z; by rewrite IH.
    - rewrite filter_cons_False by done. simpl. exact IH. }
  by rewrite <- Hrows.
Qed.

(** C10, as the code has it.  [get_item_value] hands the raw name to
    [get_sales_per_day], which selects Sale Events by exact equality of the
    stored item name with that name: only the Sale Events stored under
    exactly the raw name count, whatever else the store holds, and the
    week's events are those of that name sold inside the window.  So, also
    for an item whose lowest fixed price was found through a fallback
    variant, Sale Events stored under the resolved name are not counted;
    when no Sale Event is stored under the raw name inside the window,
    [sales_per_day] is the sentinel unless the bazaar moving week supplies a
    value. *)
Theorem C10_velocity_uses_raw_name :
  (forall st now_ms name days,
     AH.get_sales_per_day st now_ms name days
     = AH.get_sales_per_day
         {| AH.auctions := AH.auctions st;
            AH.auction_history := AH.auction_history st;
            AH.auction_sales :=
              filter (fun s => AH.s_item_name s = name) (AH.auction_sales st);
            AH.update_log := AH.update_log st |}
         now_ms name days)
  /\ (forall st now_ms name,
        week_sales st now_ms name
        = List.filter
            (fun s =>
               (now_ms - 7 * 24 * 60 * 60 * 1000 <=? AH.s_sold_timestamp s)%Z)
            (filter (fun s => AH.s_item_name s = name) (AH.auction_sales st)))
  /\ (forall c now_ms name q,
        week_sales (auction_tracker c) now_ms name = [] ->
        exists r,
          get_item_value c now_ms name q = Returned r
          /\ sales_per_day r
             = match BZ.get_product_info (bazaar_tracker c) name with
               | Some b =>
                   if (BZ.p_buy_moving_week b =? 0)%Z then (-1)%Q
                   else bazaar_daily_rate b
               | None => (-1)%Q
               end).
Proof.
  split; [exact sales_per_day_by_name|]. split; [exact week_sales_by_name|].
  intros c now_ms name q Hnone.
  destruct (get_item_value_returns c now_ms name q) as (r & Hr & _ & Hs).
  exists r. split; [done|]. rewrite Hs, Hnone. simpl.
  by rewrite andb_false_r.
Qed.

(** ["A_B"] resolves to the listing named ["A B"] through the space variant;
    the one Sale Event of the store is under ["A_B"] but older than 7 days
    at clock value 700000000, so nothing is counted and the bazaar has no
    such product: the sentinel stays. *)
Lemma C10_velocity_uses_raw_name_witness :
  let c := Examples.calc Examples.board_renamed (Examples.bazaar_after []) in
  week_sales (auction_tracker c) 700000000 "A_B" = []
  /\ exists r,
       get_item_value c 700000000 "A_B" 1 = Returned r
       /\ sales_per_day r = (-1)%Q.
Proof.
  intros c.
  assert (Hnone : week_sales (auction_tracker c) 700000000 "A_B" = [])
    by reflexivity.
  split; [exact Hnone|].
  destruct (proj2 (proj2 C10_velocity_uses_raw_name) c 700000000 "A_B" 1 Hnone)
    as (r & Hr & Hs).
  exists r. split; [exact Hr|]. rewrite Hs. reflexivity.
Defined.

(** The claim as written fails: ["A_B"] has no exact match on the listing
    board and is priced through the space variant ["A B"], the bazaar does
    not know it, and yet the auction velocity for the raw name is found,
    from the Sale Event of the earlier listing that was named ["A_B"]. *)
Lemma C10_velocity_uses_raw_name_counterexample :
  let c := Examples.calc Examples.board_renamed (Examples.bazaar_after []) in
  AH.select_lowest (AH.exact_bin "A_B") (AH.auctions (auction_tracker c)) = None
  /\ (exists a, lowest_bin_of c "A_B" = Some a /\ AH.b_item_name a = "A B")
  /\ BZ.get_product_info (bazaar_tracker c) "A_B" = None
  /\ exists r,
       get_item_value c 3000 "A_B" 1 = Returned r
       /\ sales_per_day r = (14 # 100)%Q
       /\ ~ (sales_per_day r == -1)%Q.
Proof.
  intros c. split; [reflexivity|]. split; [eexists; split; reflexivity|].
  split; [reflexivity|]. eexists. split; [reflexivity|].
  split; [reflexivity|]. discriminate.
Qed.

End Valuation.

(** * Further properties of the listing snapshot store *)

(** A decidable statement about concrete tables, settled by evaluation. *)
Ltac evaluated :=
  match goal with
  | |- ?P => refine (@bool_decide_unpack P _ _); vm_compute; exact I
  end.

Section ListingStoreMore.

Import HypixelAuctionTracker.

(** ** Tables with [INSERT OR REPLACE] on a text key *)

Lemma keyed_replace_hit {A : Type} (k : A -> string) (tbl : list A) (r : A) :
  filter (fun x => k x = k r) (filter (fun x => k x ≠ k r) tbl ++ [r]) = [r].
Proof.
  rewrite filter_app, list_filter_filter.
  rewrite (filter_cons_True _ r []) by done.
  replace (filter _ tbl) with (@nil A); [done|].
  symmetry. induction tbl as [|x tbl IH]; [done|].
  rewrite filter_cons_False; [done|]. by intros [? ?].
Qed.

Lemma keyed_replace_miss {A : Type} (k : A -> string) (tbl : list A) (r : A)
    (u : string) :
  k r <> u ->
  filter (fun x => k x = u) (filter (fun x => k x ≠ k r) tbl ++ [r])
  = filter (fun x => k x = u) tbl.
Proof.
  intros Hu. rewrite filter_app.
  rewrite (filter_cons_False _ r []) by done.
  rewrite app_nil_r, list_filter_filter.
  apply list_filter_iff. intros x. split; [by intros [? ?]|].
  intros Hx. split; [done|congruence].
Qed.

Lemma snapshot_miss rows acc u :
  u ∉ a_uuid <$> rows ->
  filter (fun r => a_uuid r = u) (foldl replace_auction acc rows)
  = filter (fun r => a_uuid r = u) acc.
Proof.
  revert acc. induction rows as [|x rows IH]; intros acc Hu; [done|].
  rewrite fmap_cons in Hu. apply not_elem_of_cons in Hu as [Hne Hu].
  simpl. rewrite IH by done. apply keyed_replace_miss. congruence.
Qed.

Lemma snapshot_rows rows acc r :
  r ∈ foldl replace_auction acc rows -> r ∈ acc \/ r ∈ rows.
Proof.
  revert acc. induction rows as [|x rows IH]; intros acc Hr; [by left|].
  simpl in Hr. apply IH in Hr as [Hr|Hr].
  - unfold replace_auction in Hr. apply elem_of_app in Hr as [Hr|Hr].
    + left. by apply list_elem_of_filter in Hr as [_ ?].
    + right. apply list_elem_of_singleton in Hr as ->. by left.
  - right. by right.
Qed.

Lemma snapshot_covers rows acc u :
  u ∈ a_uuid <$> rows -> u ∈ a_uuid <$> foldl replace_auction acc rows.
Proof.
  revert acc. induction rows as [|x rows IH] using rev_ind; intros acc Hu.
  - by apply elem_of_nil in Hu.
  - rewrite foldl_app. simpl. unfold replace_auction at 1.
    rewrite fmap_app, elem_of_app. simpl.
    destruct (decide (u = a_uuid x)) as [->|Hne].
    + right. by apply list_elem_of_singleton.
    + left. rewrite fmap_app, elem_of_app in Hu. destruct Hu as [Hu|Hu].
      * apply (IH acc) in Hu.
        apply list_elem_of_fmap in Hu as (y & -> & Hy).
        apply list_elem_of_fmap_2. by apply list_elem_of_filter.
      * simpl in Hu. by apply list_elem_of_singleton in Hu.
Qed.

(** X1. Whatever the store held, after an ingest the current snapshot is the
    poll: its listing ids are exactly the listing ids of the poll, each once
    (the primary key holds even when the poll repeats an id), every row is
    the tuple of an auction of the poll stamped with this ingest's clock
    value, and nothing of the previous snapshot is left. *)
Theorem snapshot_is_the_poll (ts : Z) (poll : list auction) (st : db) :
  let st' := store_auctions ts poll st in
  NoDup (a_uuid <$> auctions st')
  /\ (forall u, u ∈ a_uuid <$> auctions st' <-> u ∈ uuid <$> poll)
  /\ (forall r, r ∈ auctions st' ->
        a_fetch_timestamp r = ts
        /\ exists a, a ∈ poll /\ r = auction_tuple ts a)
  /\ auctions st' = auctions (store_auctions ts poll setup_database).
Proof.
  intros st'. split; [apply store_auctions_snapshot_NoDup|].
  split; [|split; [|done]].
  - intros u. subst st'. simpl. split.
    + intros Hu. apply snapshot_uuids in Hu as [Hu|Hu];
        [by apply elem_of_nil in Hu|].
      by rewrite <- list_fmap_compose in Hu.
    + intros Hu. apply snapshot_covers. by rewrite <- list_fmap_compose.
  - intros r Hr. subst st'. simpl in Hr.
    apply snapshot_rows in Hr as [Hr|Hr]; [by apply elem_of_nil in Hr|].
    apply list_elem_of_fmap in Hr as (a & -> & Ha). split; [done|].
    by exists a.
Qed.

(** X2. When a poll lists the same listing id more than once, the row kept
    for that id is the one of its last occurrence. *)
Theorem last_occurrence_wins (ts : Z) (before after : list auction)
    (a : auction) (st : db) :
  uuid a ∉ uuid <$> after ->
  filter (fun r => a_uuid r = uuid a)
    (auctions (store_auctions ts (before ++ a :: after) st))
  = [auction_tuple ts a].
Proof.
  intros Hlast. simpl. rewrite fmap_app, foldl_app, fmap_cons. simpl.
  rewrite snapshot_miss by (by rewrite <- list_fmap_compose).
  apply (keyed_replace_hit a_uuid _ (auction_tuple ts a)).
Qed.

Lemma last_occurrence_wins_witness :
  (uuid (Examples.listing "u1" "Spirit Wing" 90 true false) ∉ uuid <$> [])
  /\ a_starting_bid
     <$> filter (fun r => a_uuid r = "u1")
           (auctions (store_auctions 1000 Examples.poll_repeated setup_database))
     = [90].
Proof.
  split; [apply not_elem_of_nil|].
  change Examples.poll_repeated
    with ([Examples.listing "u1" "Spirit Wing" 100 true false;
           Examples.listing "u2" "Spirit Bone" 50 true false]
          ++ Examples.listing "u1" "Spirit Wing" 90 true false :: []).
  rewrite (last_occurrence_wins 1000 _ []
             (Examples.listing "u1" "Spirit Wing" 90 true false)
             setup_database (not_elem_of_nil _)).
  reflexivity.
Defined.


(** ** The history table *)

Lemma store_auctions_history ts poll st :
  auction_history (store_auctions ts poll st)
  = foldl ignore_history (auction_history st) (history_data ts poll).
Proof. unfold store_auctions; simpl. by destruct (history_data ts poll). Qed.

Lemma ignore_history_taken tbl r :
  existsb (fun x => String.eqb (h_uuid x) (h_uuid r)
                    && (h_fetch_timestamp x =? h_fetch_timestamp r)%Z) tbl
  = true
  <-> (h_uuid r, h_fetch_timestamp r)
      ∈ (fun h => (h_uuid h, h_fetch_timestamp h)) <$> tbl.
Proof.
  rewrite existsb_exists, list_elem_of_fmap. split.
  - intros (x & Hx & Hk). apply andb_true_iff in Hk as [Hu Ht].
    apply String.eqb_eq in Hu. apply Z.eqb_eq in Ht.
    exists x. split; [by rewrite Hu, Ht|]. by apply list_elem_of_In.
  - intros (x & Hk & Hx). injection Hk as Hu Ht.
    exists x. split; [by apply list_elem_of_In|].
    rewrite Hu, Ht. by rewrite String.eqb_refl, Z.eqb_refl.
Qed.

Lemma history_appends rows tbl :
  exists added,
    foldl ignore_history tbl rows = tbl ++ added
    /\ forall h, h ∈ added -> h ∈ rows.
Proof.
  revert tbl. induction rows as [|r rows IH]; intros tbl.
  - exists []. by rewrite app_nil_r.
  - simpl. unfold ignore_history at 2.
    destruct (existsb _ tbl).
    + destruct (IH tbl) as (added & Heq & Hsub). exists added.
      split; [done|]. intros h Hh. right. by apply Hsub.
    + destruct (IH (tbl ++ [r])) as (added & Heq & Hsub).
      exists (r :: added). split; [by rewrite Heq, <- app_assoc|].
      intros h Hh. apply elem_of_cons in Hh as [->|Hh]; [by left|].
      right. by apply Hsub.
Qed.

Lemma history_keys_kept rows tbl k :
  k ∈ (fun h => (h_uuid h, h_fetch_timestamp h)) <$> tbl ->
  k ∈ (fun h => (h_uuid h, h_fetch_timestamp h))
      <$> foldl ignore_history tbl rows.
Proof.
  intros Hk. destruct (history_appends rows tbl) as (added & -> & _).
  rewrite fmap_app. apply elem_of_app. by left.
Qed.

Lemma history_covers rows tbl r :
  r ∈ rows ->
  (h_uuid r, h_fetch_timestamp r)
  ∈ (fun h => (h_uuid h, h_fetch_timestamp h))
    <$> foldl ignore_history tbl rows.
Proof.
  revert tbl. induction rows as [|x rows IH]; intros tbl Hr.
  - by apply elem_of_nil in Hr.
  - simpl. apply elem_of_cons in Hr as [->|Hr]; [|by apply IH].
    apply history_keys_kept. unfold ignore_history.
    destruct (existsb _ tbl) eqn:He.
    + by apply ignore_history_taken.
    + rewrite fmap_app. apply elem_of_app. right. simpl.
      by apply list_elem_of_singleton.
Qed.

Lemma history_key_kept_unique rows tbl :
  NoDup ((fun h => (h_uuid h, h_fetch_timestamp h)) <$> tbl) ->
  NoDup ((fun h => (h_uuid h, h_fetch_timestamp h))
         <$> foldl ignore_history tbl rows).
Proof.
  revert tbl. induction rows as [|r rows IH]; intros tbl Hnd; [done|].
  simpl. apply IH. unfold ignore_history.
  destruct (existsb _ tbl) eqn:He; [done|].
  rewrite fmap_app. apply NoDup_app. split; [done|].
  split; [|apply NoDup_singleton].
  intros k Hk Hr. simpl in Hr. apply list_elem_of_singleton in Hr as ->.
  apply ignore_history_taken in Hk. congruence.
Qed.

(** X3. The history table is append-only: an ingest keeps every stored row,
    in place, and appends only rows of this poll's fixed-price unclaimed
    auctions, stamped with this ingest's clock value.  After the ingest
    every fixed-price unclaimed auction of the poll has a history row under
    its listing id and this clock value; an auction that is not fixed-price
    or is claimed adds none. *)
Theorem history_is_append_only (ts : Z) (poll : list auction) (st : db) :
  let st' := store_auctions ts poll st in
  (exists added,
     auction_history st' = auction_history st ++ added
     /\ forall h, h ∈ added ->
          h_fetch_timestamp h = ts /\ h_bin h = 1 /\ h_claimed h = 0
          /\ exists a, a ∈ poll /\ bin a = true /\ claimed a = false
                       /\ h = history_tuple ts a)
  /\ (forall a, a ∈ poll -> bin a = true -> claimed a = false ->
        exists h, h ∈ auction_history st'
                  /\ h_uuid h = uuid a /\ h_fetch_timestamp h = ts).
Proof.
  intros st'. subst st'. rewrite store_auctions_history. split.
  - destruct (history_appends (history_data ts poll) (auction_history st))
      as (added & Heq & Hsub).
    exists added. split; [done|]. intros h Hh. apply Hsub in Hh.
    unfold history_data in Hh.
    apply list_elem_of_fmap in Hh as (a & -> & Ha).
    apply list_elem_of_filter in Ha as [Hopen Ha].
    apply andb_true_iff in Hopen as [Hb Hc]. apply negb_true_iff in Hc.
    simpl. rewrite Hb, Hc. repeat split; try done. by exists a.
  - intros a Ha Hb Hc.
    assert (Hin : history_tuple ts a ∈ history_data ts poll).
    { unfold history_data. apply list_elem_of_fmap_2.
      apply list_elem_of_filter. split; [|done]. by rewrite Hb, Hc. }
    apply (history_covers _ (auction_history st)) in Hin.
    apply list_elem_of_fmap in Hin as (h & Hk & Hh).
    injection Hk as Hu Ht. exists h. by repeat split.
Qed.

Lemma history_is_append_only_witness :
  exists h,
    h ∈ auction_history Examples.board2
    /\ h_uuid h = "u2" /\ h_fetch_timestamp h = 2000.
Proof.
  apply (proj2 (history_is_append_only 2000 Examples.poll2 Examples.board1)
           (Examples.listing "u2" "Spirit Bone" 50 true false)).
  - by left.
  - reflexivity.
  - reflexivity.
Defined.

(** X4. Over any run from a fresh database the primary keys of the snapshot
    table ([uuid]) and of the history table ([(uuid, fetch_timestamp)])
    hold: no two rows share a key, also when a poll repeats a listing id or
    two ingests read the same clock value. *)
Theorem primary_keys_hold (polls : list (Z * list auction)) :
  let st := ingest_all polls setup_database in
  NoDup (a_uuid <$> auctions st)
  /\ NoDup ((fun h => (h_uuid h, h_fetch_timestamp h)) <$> auction_history st).
Proof.
  unfold ingest_all.
  assert (Hgen : forall st0,
            NoDup (a_uuid <$> auctions st0) ->
            NoDup ((fun h => (h_uuid h, h_fetch_timestamp h))
                   <$> auction_history st0) ->
            let st := foldl (fun st p => store_auctions p.1 p.2 st) st0 polls in
            NoDup (a_uuid <$> auctions st)
            /\ NoDup ((fun h => (h_uuid h, h_fetch_timestamp h))
                      <$> auction_history st)).
  { induction polls as [|p polls IH]; intros st0 Ha Hh; [done|].
    simpl. apply IH.
    - apply store_auctions_snapshot_NoDup.
    - rewrite store_auctions_history. by apply history_key_kept_unique. }
  apply Hgen; simpl; constructor.
Qed.

(** ** Sale events that an ingest leaves alone *)

Lemma keys_of_filter {A : Type} (k : A -> string) (l : list A) (u : string) :
  u ∈ k <$> l <-> filter (fun x => k x = u) l <> [].
Proof.
  split.
  - intros Hu Hnil. apply list_elem_of_fmap in Hu as (x & -> & Hx).
    assert (Hin : x ∈ filter (fun y => k y = k x) l)
      by (by apply list_elem_of_filter).
    rewrite Hnil in Hin. by apply elem_of_nil in Hin.
  - intros Hne. destruct (filter (fun x => k x = u) l) as [|x rest] eqn:Hf;
      [done|].
    assert (Hin : x ∈ filter (fun x => k x = u) l) by (rewrite Hf; by left).
    apply list_elem_of_filter in Hin as [<- Hin]. by apply list_elem_of_fmap_2.
Qed.

Lemma unsold_sales_untouched ts poll st u :
  u ∉ sold_uuids st poll ->
  filter (fun s => s_uuid s = u) (auction_sales (store_auctions ts poll st))
  = filter (fun s => s_uuid s = u) (auction_sales st).
Proof.
  intros Hu. rewrite store_auctions_sales. apply replace_all_miss.
  by rewrite sales_data_uuid.
Qed.

(** X5. An ingest never deletes a Sale Event: a listing id that has one
    before the ingest has one afterwards.  The records of a listing id that
    this ingest does not detect as sold are left exactly as they were. *)
Theorem sale_events_are_kept (ts : Z) (poll : list auction) (st : db)
    (u : string) :
  let st' := store_auctions ts poll st in
  (u ∈ s_uuid <$> auction_sales st -> u ∈ s_uuid <$> auction_sales st')
  /\ (u ∉ sold_uuids st poll ->
      filter (fun s => s_uuid s = u) (auction_sales st')
      = filter (fun s => s_uuid s = u) (auction_sales st)).
Proof.
  intros st'. subst st'.
  pose proof (unsold_sales_untouched ts poll st u) as Hmiss.
  split; [|done]. intros Hold.
  destruct (decide (u ∈ sold_uuids st poll)) as [Hsold|Hnot].
  - destruct (sold_uuid_recorded ts poll st u Hsold) as (ev & Hev & _).
    apply keys_of_filter. by rewrite Hev.
  - apply keys_of_filter. rewrite (Hmiss Hnot). by apply keys_of_filter.
Qed.

Lemma sale_events_are_kept_witness :
  "u1" ∈ s_uuid <$> auction_sales Examples.board2
  /\ "u1" ∈ s_uuid
            <$> auction_sales
                  (store_auctions 3000 Examples.poll1 Examples.board2).
Proof.
  assert (Hold : "u1" ∈ s_uuid <$> auction_sales Examples.board2)
    by evaluated.
  split; [exact Hold|].
  exact (proj1 (sale_events_are_kept 3000 Examples.poll1 Examples.board2 "u1")
           Hold).
Defined.

(** X6. Only fixed-price unclaimed listings are ever inferred sold: when
    every row the prior snapshot holds for a listing id is a pure auction
    ([bin = 0]) or is claimed, the ingest produces no Sale Event for that id,
    whether or not the id is in the new poll. *)
Theorem only_open_bins_are_sold (ts : Z) (poll : list auction) (st : db)
    (u : string) :
  (forall r, r ∈ auctions st -> a_uuid r = u -> open_bin r = false) ->
  filter (fun s => s_uuid s = u) (sales_data ts st poll) = []
  /\ filter (fun s => s_uuid s = u) (auction_sales (store_auctions ts poll st))
     = filter (fun s => s_uuid s = u) (auction_sales st).
Proof.
  intros Hclosed.
  assert (Hnot : u ∉ sold_uuids st poll).
  { rewrite sold_uuids_elem. intros [(r & Hr & Hopen & Hu) _].
    rewrite (Hclosed r Hr Hu) in Hopen. discriminate Hopen. }
  split.
  - apply filter_key_absent. by rewrite sales_data_uuid.
  - by apply unsold_sales_untouched.
Qed.

Lemma only_open_bins_are_sold_witness :
  (forall r, r ∈ auctions Examples.board_bids -> a_uuid r = "n1" ->
             open_bin r = false)
  /\ filter (fun s => s_uuid s = "n1")
       (sales_data 2000 Examples.board_bids []) = [].
Proof.
  assert (Hclosed : forall r, r ∈ auctions Examples.board_bids ->
                      a_uuid r = "n1" -> open_bin r = false).
  { intros r Hr Hu. vm_compute in Hr.
    apply elem_of_cons in Hr as [->|Hr]; [reflexivity|].
    apply elem_of_cons in Hr as [->|Hr]; [reflexivity|].
    by apply elem_of_nil in Hr. }
  split; [exact Hclosed|].
  exact (proj1 (only_open_bins_are_sold 2000 [] Examples.board_bids "n1"
                  Hclosed)).
Defined.


(** ** A fetch cycle with failed pages *)




(** ** The lowest fixed price *)

Lemma select_lowest_fold (p : auctions_row -> bool) (tbl : list auctions_row)
    (best : option auctions_row) :
  match foldl (fun best r =>
                 if p r then
                   match best with
                   | None => Some r
                   | Some b =>
                       if (a_starting_bid r <? a_starting_bid b)%Z then Some r
                       else Some b
                   end
                 else best) best tbl with
  | None => best = None /\ forall x, x ∈ tbl -> p x = false
  | Some r =>
      (best = Some r \/ (r ∈ tbl /\ p r = true))
      /\ (forall b, best = Some b -> (a_starting_bid r <= a_starting_bid b)%Z)
      /\ (forall x, x ∈ tbl -> p x = true ->
            (a_starting_bid r <= a_starting_bid x)%Z)
  end.
Proof.
  revert best. induction tbl as [|x tbl IH]; intros best.
  - simpl. destruct best as [b|].
    + split; [by left|]. split; [by intros ? [= <-]|].
      intros y Hy. by apply elem_of_nil in Hy.
    + split; [done|]. intros y Hy. by apply elem_of_nil in Hy.
  - simpl.
    match goal with
    | |- context [foldl ?f ?b0 tbl] => specialize (IH b0); set (b1 := b0) in *
    end.
    destruct (foldl _ b1 tbl) as [r|].
    + destruct IH as (Hfrom & Hbest & Hmin). subst b1.
      destruct (p x) eqn:Hx.
      * destruct best as [b|].
        -- destruct (Z.ltb_spec (a_starting_bid x) (a_starting_bid b)).
           ++ specialize (Hbest _ eq_refl). split; [|split].
              ** right. destruct Hfrom as [[= <-]|[? ?]];
                   [split; [by left|done]|split; [by right|done]].
              ** intros b' [= <-]. lia.
              ** intros y Hy Hpy. apply elem_of_cons in Hy as [->|Hy];
                   [done|by apply Hmin].
           ++ specialize (Hbest _ eq_refl). split; [|split].
              ** destruct Hfrom as [?|[? ?]]; [by left|].
                 right. split; [by right|done].
              ** by intros b' [= <-].
              ** intros y Hy Hpy. apply elem_of_cons in Hy as [->|Hy];
                   [lia|by apply Hmin].
        -- specialize (Hbest _ eq_refl). split; [|split].
           ++ right. destruct Hfrom as [[= <-]|[? ?]];
                [split; [by left|done]|split; [by right|done]].
           ++ intros b' Hb'. discriminate Hb'.
           ++ intros y Hy Hpy. apply elem_of_cons in Hy as [->|Hy];
                [done|by apply Hmin].
      * split; [|split].
        -- destruct Hfrom as [?|[? ?]]; [by left|].
           right. split; [by right|done].
        -- done.
        -- intros y Hy Hpy. apply elem_of_cons in Hy as [->|Hy];
             [congruence|by apply Hmin].
    + destruct IH as (Hnone & Hall). subst b1.
      destruct (p x) eqn:Hx.
      * destruct best as [b|]; [destruct (_ <? _)%Z|]; discriminate Hnone.
      * split; [done|]. intros y Hy.
        apply elem_of_cons in Hy as [->|Hy]; [done|by apply Hall].
Qed.

Lemma select_lowest_Some p tbl r :
  select_lowest p tbl = Some r ->
  r ∈ tbl /\ p r = true
  /\ forall x, x ∈ tbl -> p x = true ->
       (a_starting_bid r <= a_starting_bid x)%Z.
Proof.
  intros Hr. pose proof (select_lowest_fold p tbl None) as H.
  unfold select_lowest in Hr. rewrite Hr in H.
  destruct H as ([Hn|[Hin Hp]] & _ & Hmin); [discriminate Hn|done].
Qed.

Lemma select_lowest_None p tbl :
  select_lowest p tbl = None <-> forall x, x ∈ tbl -> p x = false.
Proof.
  pose proof (select_lowest_fold p tbl None) as H.
  unfold select_lowest. split.
  - intros Hn. rewrite Hn in H. by destruct H.
  - intros Hall. destruct (foldl _ None tbl) as [r|]; [|done].
    destruct H as ([Hn|[Hin Hp]] & _); [discriminate Hn|].
    rewrite (Hall r Hin) in Hp. discriminate Hp.
Qed.


(** X8. When the snapshot holds a fixed-price unclaimed listing under
    exactly the queried name, [get_lowest_bin] answers from such a listing
    (the stored name of the answer is the queried name, case-insensitive and
    space variants are not consulted), and its price is at most the price of
    every fixed-price unclaimed listing stored under that exact name. *)
Theorem lowest_bin_is_lowest (get_player_name : string -> option string)
    (st : db) (name : string) (include_player_name : bool) (r0 : auctions_row) :
  r0 ∈ auctions st -> a_item_name r0 = name -> open_bin r0 = true ->
  exists b r,
    get_lowest_bin get_player_name st name include_player_name = Some b
    /\ b = item_dict get_player_name include_player_name r
    /\ r ∈ auctions st /\ open_bin r = true
    /\ b_item_name b = name
    /\ forall x, x ∈ auctions st -> a_item_name x = name -> open_bin x = true ->
         (b_price b <= a_starting_bid x)%Z.
Proof.
  intros Hin Hname Hopen.
  assert (Hp0 : exact_bin name r0 = true).
  { unfold exact_bin. rewrite Hopen, andb_true_r. by apply String.eqb_eq. }
  destruct (select_lowest (exact_bin name) (auctions st)) as [r|] eqn:Hsel.
  - apply select_lowest_Some in Hsel as Hr. destruct Hr as (Hr & Hp & Hmin).
    apply andb_true_iff in Hp as [Hn Ho]. apply String.eqb_eq in Hn.
    exists (item_dict get_player_name include_player_name r), r.
    split.
    + unfold get_lowest_bin, lowest_bin_row. rewrite Hsel. reflexivity.
    + repeat split; try done. intros x Hx Hxn Hxo. simpl. apply Hmin; [done|].
      unfold exact_bin. rewrite Hxo, andb_true_r. by apply String.eqb_eq.
  - rewrite select_lowest_None in Hsel. rewrite (Hsel r0 Hin) in Hp0.
    discriminate Hp0.
Qed.

Lemma lowest_bin_is_lowest_witness :
  exists b,
    get_lowest_bin (fun _ => None) Examples.board_prices "C" false = Some b
    /\ b_item_name b = "C"
    /\ (b_price b <= 200)%Z.
Proof.
  destruct (lowest_bin_is_lowest (fun _ => None) Examples.board_prices "C" false
              (auction_tuple 1000 (Examples.listing "c1" "C" 200 true false)))
    as (b & r & Hb & _ & Hr & _ & Hname & Hmin).
  - vm_compute. right. left.
  - reflexivity.
  - reflexivity.
  - exists b. split; [exact Hb|]. split; [exact Hname|].
    apply (Hmin (auction_tuple 1000 (Examples.listing "c1" "C" 200 true false))).
    + vm_compute. right. left.
    + reflexivity.
    + reflexivity.
Defined.


(** ** The cheapest listings *)

Lemma bid_le_total : Total bid_le.
Proof. intros x y. unfold bid_le. lia. Qed.

Lemma bid_le_trans : Transitive bid_le.
Proof. intros x y z. unfold bid_le. lia. Qed.

Lemma StronglySorted_take {A : Type} (R : relation A) (n : nat) (l : list A) :
  StronglySorted R l -> StronglySorted R (take n l).
Proof.
  revert n. induction l as [|x l IH]; intros n Hs; [by destruct n|].
  destruct n as [|n]; [constructor|]. simpl.
  apply StronglySorted_inv in Hs as [Hs Hx]. constructor; [by apply IH|].
  rewrite Forall_forall in Hx |- *. intros y Hy. apply Hx.
  by apply (subseteq_take n l).
Qed.

Lemma cheapest_rows_spec st name limit :
  let matching := List.filter (exact_bin name) (auctions st) in
  let rows := cheapest_rows st name limit in
  StronglySorted bid_le rows
  /\ length rows
     = (if (limit <? 0)%Z then length matching
        else min (Z.to_nat limit) (length matching))
  /\ (forall r, r ∈ rows -> r ∈ auctions st /\ exact_bin name r = true)
  /\ (forall r, r ∈ auctions st -> exact_bin name r = true ->
        r ∈ rows \/ forall x, x ∈ rows -> bid_le x r).
Proof.
  intros matching rows. subst rows. unfold cheapest_rows. fold matching.
  pose proof (@StronglySorted_merge_sort _ bid_le _ bid_le_trans bid_le_total
                matching) as Hsorted.
  pose proof (merge_sort_Permutation bid_le matching) as Hperm.
  assert (Hmem : forall r, r ∈ merge_sort bid_le matching
                           <-> r ∈ auctions st /\ exact_bin name r = true).
  { intros r. rewrite Hperm. subst matching.
    rewrite list_elem_of_In, filter_In, <- list_elem_of_In. tauto. }
  unfold LIMIT. destruct (limit <? 0)%Z.
  - split; [done|]. split; [by rewrite Hperm|].
    split; [intros r; by rewrite Hmem|].
    intros r Hr Hp. left. by apply Hmem.
  - split; [by apply StronglySorted_take|].
    split; [by rewrite length_take, Hperm|].
    split.
    + intros r Hr. apply Hmem. by apply (subseteq_take (Z.to_nat limit)).
    + intros r Hr Hp.
      assert (Hin : r ∈ merge_sort bid_le matching) by (by apply Hmem).
      rewrite <- (take_drop (Z.to_nat limit) (merge_sort bid_le matching))
        in Hin, Hsorted.
      apply elem_of_app in Hin as [Hin|Hin]; [by left|]. right.
      intros x Hx. by apply (StronglySorted_app_1_elem_of _ _ _ _ _ Hsorted).
Qed.

(** X9. [get_cheapest_listings] returns fixed-price unclaimed listings of
    the snapshot stored under exactly the given name, in ascending order of
    price; a non-negative limit bounds their number and a negative limit
    returns them all.  The listings returned are the cheapest ones: a
    matching listing that is left out costs at least as much as every
    listing returned. *)
Theorem cheapest_listings_are_cheapest
    (get_player_name : string -> option string) (st : db) (name : string)
    (limit : Z) (include_player_names : bool) :
  let matching := List.filter (exact_bin name) (auctions st) in
  let res :=
    get_cheapest_listings get_player_name st name limit include_player_names in
  StronglySorted (fun x y => (c_price x <= c_price y)%Z) res
  /\ length res
     = (if (limit <? 0)%Z then length matching
        else min (Z.to_nat limit) (length matching))
  /\ (forall l, l ∈ res ->
        c_item_name l = name
        /\ exists r, r ∈ auctions st /\ open_bin r = true
                     /\ c_uuid l = a_uuid r /\ c_price l = a_starting_bid r)
  /\ (forall r, r ∈ auctions st -> a_item_name r = name -> open_bin r = true ->
        a_uuid r ∈ c_uuid <$> res
        \/ forall l, l ∈ res -> (c_price l <= a_starting_bid r)%Z).
Proof.
  intros matching res. subst res. unfold get_cheapest_listings.
  destruct (cheapest_rows_spec st name limit) as (Hs & Hlen & Hfrom & Hall).
  split; [|split; [|split]].
  - apply StronglySorted_fmap with (R1 := bid_le); [|done].
    by intros x y Hxy.
  - by rewrite length_fmap.
  - intros l Hl. apply list_elem_of_fmap in Hl as (r & -> & Hr). simpl.
    apply Hfrom in Hr as [Hr Hp]. apply andb_true_iff in Hp as [Hn Ho].
    apply String.eqb_eq in Hn. split; [done|]. by exists r.
  - intros r Hr Hn Ho.
    destruct (Hall r Hr) as [Hin|Hle].
    + unfold exact_bin. rewrite Ho, andb_true_r. by apply String.eqb_eq.
    + left. rewrite <- list_fmap_compose.
      by apply (list_elem_of_fmap_2 (fun row => a_uuid row)) in Hin.
    + right. intros l Hl. apply list_elem_of_fmap in Hl as (x & -> & Hx).
      simpl. by apply Hle.
Qed.

Lemma cheapest_listings_are_cheapest_witness :
  c_price
  <$> get_cheapest_listings (fun _ => None)
        (store_auctions 1000 Examples.poll_repeated setup_database)
        "Spirit Wing" 5 false
  = [90]
  /\ (forall l,
        l ∈ get_cheapest_listings (fun _ => None) Examples.board1
              "Spirit Bone" 1 false ->
        c_item_name l = "Spirit Bone").
Proof.
  split; [reflexivity|]. intros l Hl.
  exact (proj1 (proj1 (proj2 (proj2
           (cheapest_listings_are_cheapest (fun _ => None) Examples.board1
              "Spirit Bone" 1 false))) l Hl)).
Defined.

(** X10. The first of the cheapest listings and [get_lowest_bin] agree on
    the price: with a limit other than 0 and a fixed-price unclaimed listing
    stored under exactly the queried name, [get_cheapest_listings] is not
    empty and its first price is the price [get_lowest_bin] reports. *)
Theorem cheapest_head_is_lowest_bin
    (get_player_name : string -> option string) (st : db) (name : string)
    (limit : Z) (r0 : auctions_row) :
  limit <> 0 ->
  r0 ∈ auctions st -> a_item_name r0 = name -> open_bin r0 = true ->
  exists l rest b,
    get_cheapest_listings get_player_name st name limit false = l :: rest
    /\ get_lowest_bin get_player_name st name false = Some b
    /\ c_price l = b_price b.
Proof.
  intros Hlimit Hin Hname Hopen.
  assert (Hp0 : exact_bin name r0 = true).
  { unfold exact_bin. rewrite Hopen, andb_true_r. by apply String.eqb_eq. }
  destruct (cheapest_rows_spec st name limit) as (Hs & Hlen & Hfrom & Hall).
  cbv zeta in *.
  destruct (select_lowest (exact_bin name) (auctions st)) as [r|] eqn:Hsel;
    [|rewrite select_lowest_None in Hsel; rewrite (Hsel r0 Hin) in Hp0;
      discriminate Hp0].
  apply select_lowest_Some in Hsel as Hr. destruct Hr as (Hr & Hp & Hmin).
  unfold get_cheapest_listings, get_lowest_bin, lowest_bin_row. rewrite Hsel.
  destruct (cheapest_rows st name limit) as [|x xs] eqn:Hx.
  - exfalso. simpl in Hlen.
    assert (Hm : r0 ∈ List.filter (exact_bin name) (auctions st)).
    { rewrite list_elem_of_In, filter_In, <- list_elem_of_In. by split. }
    destruct (List.filter (exact_bin name) (auctions st));
      [by apply elem_of_nil in Hm|].
    simpl in Hlen. destruct (Z.ltb_spec limit 0); lia.
  - eexists _, _, _. split; [reflexivity|]. split; [reflexivity|]. simpl.
    destruct (Hfrom x (list_elem_of_here _ _)) as [Hxin Hxp].
    pose proof (Hmin x Hxin Hxp) as Hle1.
    assert (Hle2 : bid_le x r).
    { destruct (Hall r Hr Hp) as [Hrin|Hle]; [|apply Hle; by left].
      apply elem_of_cons in Hrin as [->|Hrin]; [unfold bid_le; lia|].
      apply StronglySorted_inv in Hs as [_ Hhd].
      rewrite Forall_forall in Hhd. by apply Hhd. }
    unfold bid_le in Hle2. lia.
Qed.

Lemma cheapest_head_is_lowest_bin_witness :
  exists l rest b,
    get_cheapest_listings (fun _ => None) Examples.board_prices "A" 3 false
    = l :: rest
    /\ get_lowest_bin (fun _ => None) Examples.board_prices "A" false = Some b
    /\ c_price l = b_price b.
Proof.
  apply (cheapest_head_is_lowest_bin (fun _ => None) Examples.board_prices "A" 3
           (auction_tuple 1000 (Examples.listing "a1" "A" 100 true false))).
  - discriminate.
  - vm_compute. left.
  - reflexivity.
  - reflexivity.
Defined.


(** ** The lowest fixed price of every item *)

Lemma text_le_total : Total text_le.
Proof. intros x y. unfold text_le. apply String.leb_total. Qed.

Lemma omap_names {A : Type} (f : string -> option A) (k : A -> string)
    (names : list string) :
  (forall n, n ∈ names -> exists e, f n = Some e /\ k e = n) ->
  k <$> omap f names = names.
Proof.
  induction names as [|n names IH]; intros Hf; [done|].
  destruct (Hf n (list_elem_of_here _ _)) as (e & He & Hk).
  simpl. rewrite He. rewrite fmap_cons, Hk. f_equal.
  apply IH. intros m Hm. apply Hf. by right.
Qed.

Lemma bin_group_of_open_row st r :
  r ∈ auctions st -> open_bin r = true ->
  exists e m,
    bin_group st (a_item_name r) = Some e
    /\ select_lowest (exact_bin (a_item_name r)) (auctions st) = Some m
    /\ bs_item_name e = a_item_name r
    /\ bs_lowest_bin e = a_starting_bid m
    /\ (bs_lowest_bin e <= a_starting_bid r)%Z
    /\ (1 <= bs_available_count e)%Z.
Proof.
  intros Hr Ho.
  assert (Hp : exact_bin (a_item_name r) r = true).
  { unfold exact_bin. by rewrite Ho, String.eqb_refl. }
  unfold bin_group.
  destruct (select_lowest (exact_bin (a_item_name r)) (auctions st))
    as [m|] eqn:Hsel.
  - apply select_lowest_Some in Hsel as Hm. destruct Hm as (Hm & Hmp & Hmin).
    eexists _, m. split; [reflexivity|]. split; [done|]. simpl.
    split; [done|]. split; [done|]. split; [by apply Hmin|].
    assert (Hin : r ∈ List.filter (exact_bin (a_item_name r)) (auctions st)).
    { rewrite list_elem_of_In, filter_In, <- list_elem_of_In. by split. }
    destruct (List.filter _ (auctions st)); [by apply elem_of_nil in Hin|].
    simpl. lia.
  - rewrite select_lowest_None in Hsel. rewrite (Hsel r Hr) in Hp.
    discriminate Hp.
Qed.

(** X11. [get_all_bin_items] reports every item name that has a fixed-price
    unclaimed listing exactly once, in ascending order of name.  The lowest
    price reported for a name is at most the price of every such listing of
    that name, it is the price [get_lowest_bin] reports for the name, and
    the count reported is at least 1. *)
Theorem all_bin_items_agree_with_lowest_bin
    (get_player_name : string -> option string) (st : db) :
  let res := get_all_bin_items st in
  Sorted text_le (bs_item_name <$> res)
  /\ NoDup (bs_item_name <$> res)
  /\ (forall e, e ∈ res ->
        (1 <= bs_available_count e)%Z
        /\ exists b,
             get_lowest_bin get_player_name st (bs_item_name e) false = Some b
             /\ b_item_name b = bs_item_name e
             /\ b_price b = bs_lowest_bin e)
  /\ (forall r, r ∈ auctions st -> open_bin r = true ->
        exists e, e ∈ res /\ bs_item_name e = a_item_name r
                  /\ (bs_lowest_bin e <= a_starting_bid r)%Z).
Proof.
  intros res. subst res. unfold get_all_bin_items.
  set (names := merge_sort text_le
                  (remove_dups (a_item_name <$> List.filter open_bin (auctions st)))).
  assert (Hperm : names ≡ₚ remove_dups
                    (a_item_name <$> List.filter open_bin (auctions st)))
    by apply merge_sort_Permutation.
  assert (Hname : forall n, n ∈ names <->
            exists r, r ∈ auctions st /\ open_bin r = true /\ a_item_name r = n).
  { intros n. rewrite Hperm, elem_of_remove_dups, list_elem_of_fmap. split.
    - intros (r & -> & Hr).
      rewrite list_elem_of_In, filter_In, <- list_elem_of_In in Hr.
      destruct Hr. by exists r.
    - intros (r & Hr & Ho & <-). exists r. split; [done|].
      rewrite list_elem_of_In, filter_In, <- list_elem_of_In. by split. }
  assert (Hnames : bs_item_name <$> omap (bin_group st) names = names).
  { apply omap_names. intros n Hn. apply Hname in Hn as (r & Hr & Ho & <-).
    destruct (bin_group_of_open_row st r Hr Ho) as (e & m & He & _ & Hk & _).
    by exists e. }
  split; [|split; [|split]].
  - rewrite Hnames. apply (@Sorted_merge_sort _ text_le _ text_le_total).
  - rewrite Hnames, Hperm. apply NoDup_remove_dups.
  - intros e He. apply list_elem_of_omap in He as (n & Hn & Hg).
    apply Hname in Hn as (r & Hr & Ho & <-).
    destruct (bin_group_of_open_row st r Hr Ho)
      as (e' & m & He' & Hsel & Hk & Hlow & _ & Hcount).
    rewrite He' in Hg. injection Hg as <-. split; [done|].
    exists (item_dict get_player_name false m).
    unfold get_lowest_bin, lowest_bin_row. rewrite Hk, Hsel. simpl.
    split; [done|]. split; [|done].
    apply select_lowest_Some in Hsel as (_ & Hp & _).
    apply andb_true_iff in Hp as [Hp _]. by apply String.eqb_eq in Hp.
  - intros r Hr Ho.
    destruct (bin_group_of_open_row st r Hr Ho)
      as (e & m & He & _ & Hk & _ & Hle & _).
    exists e. split; [|done]. apply list_elem_of_omap.
    exists (a_item_name r). split; [|done]. apply Hname. by exists r.
Qed.

Lemma all_bin_items_agree_with_lowest_bin_witness :
  (bs_item_name <$> get_all_bin_items Examples.board_prices = ["A"; "C"; "D"])
  /\ exists e,
       e ∈ get_all_bin_items Examples.board_prices
       /\ bs_item_name e = "C" /\ (bs_lowest_bin e <= 200)%Z.
Proof.
  split; [reflexivity|].
  apply (proj2 (proj2 (proj2 (all_bin_items_agree_with_lowest_bin
                                (fun _ => None) Examples.board_prices)))
           (auction_tuple 1000 (Examples.listing "c1" "C" 200 true false))).
  - vm_compute. right. left.
  - reflexivity.
Defined.


(** ** Sales statistics *)









(** X14. A detected sale shows in the velocity of its item: after an ingest
    that finds a fixed-price unclaimed listing gone, [get_sales_per_day] for
    the stored name of that listing, asked at a clock value whose 7-day
    window reaches back to the ingest, returns statistics with at least one
    sale. *)
Theorem vanished_listing_counts_as_sale (ts now_ms : Z) (poll : list auction)
    (st : db) (r : auctions_row) :
  NoDup (a_uuid <$> auctions st) ->
  r ∈ auctions st -> open_bin r = true -> a_uuid r ∉ uuid <$> poll ->
  (now_ms - 7 * 24 * 60 * 60 * 1000 <= ts)%Z ->
  exists s,
    get_sales_per_day (store_auctions ts poll st) now_ms (a_item_name r) 7
    = Returned (Some s)
    /\ (1 <= total_sales s)%Z.
Proof.
  intros Hnd Hr Ho Hgone Hwin.
  pose proof (sales_data_vanished ts st poll r Hnd Hr Ho Hgone) as Hev.
  assert (Hstored : sale_event_of ts r
                    ∈ auction_sales (store_auctions ts poll st)).
  { rewrite store_auctions_sales.
    pose proof (replace_all_hit (sales_data ts st poll) (auction_sales st)
                  (sale_event_of ts r) (sales_data_NoDup ts st poll) Hev) as Hf.
    assert (Hin : sale_event_of ts r ∈ [sale_event_of ts r]) by (by left).
    rewrite <- Hf in Hin. by apply list_elem_of_filter in Hin as [_ ?]. }
  assert (Hrow : sale_event_of ts r
                 ∈ week_sales (store_auctions ts poll st) now_ms (a_item_name r)).
  { unfold week_sales. rewrite list_elem_of_In, filter_In, <- list_elem_of_In.
    split; [done|]. unfold sold_since. simpl.
    rewrite String.eqb_refl. simpl. by apply Z.leb_le. }
  rewrite get_sales_per_day_week. cbv zeta.
  destruct (week_sales (store_auctions ts poll st) now_ms (a_item_name r))
    as [|x rows]; [by apply elem_of_nil in Hrow|].
  assert (Hcount : (0 <? Z.of_nat (length (x :: rows)))%Z = true).
  { apply Z.ltb_lt. simpl. lia. }
  rewrite Hcount. eexists. split; [reflexivity|]. simpl. lia.
Qed.

Lemma vanished_listing_counts_as_sale_witness :
  exists s,
    get_sales_per_day Examples.board2 5000 "Spirit Wing" 7 = Returned (Some s)
    /\ (1 <= total_sales s)%Z.
Proof.
  apply (vanished_listing_counts_as_sale 2000 5000 Examples.poll2
           Examples.board1
           (auction_tuple 1000
              (Examples.listing "u1" "Spirit Wing" 100 true false))).
  - evaluated.
  - vm_compute. left.
  - reflexivity.
  - evaluated.
  - vm_compute. discriminate.
Defined.

End ListingStoreMore.

(** * Further properties of the name resolver *)

Section NameResolverMore.

Lemma first_hit_None {A : Type} (attempts : list (option A)) :
  first_hit attempts = None <-> Forall (fun o => o = None) attempts.
Proof.
  induction attempts as [|[a|] rest IH]; simpl.
  - split; [constructor|done].
  - split; [done|]. intros H. apply Forall_inv in H. discriminate H.
  - rewrite IH. split; [by constructor|]. apply Forall_inv_tail.
Qed.

Lemma resolution_order_None {A : Type} (exact nocase : string -> option A)
    (name : string) :
  (forall n, nocase n = None -> exact n = None) ->
  resolution_order exact nocase name = None
  <-> nocase name = None
      /\ (may_use_spaces name = true ->
          nocase (underscores_to_spaces name) = None).
Proof.
  intros Himp. unfold resolution_order. rewrite first_hit_None.
  rewrite !Forall_cons, Forall_nil.
  destruct (may_use_spaces name).
  - split.
    + intros (_ & _ & H3 & H4 & _). by split.
    + intros [H3 H4]. specialize (H4 eq_refl).
      repeat split; auto.
  - split.
    + intros (_ & _ & H3 & _). split; [done|]. discriminate.
    + intros [H3 _]. repeat split; auto.
Qed.

Lemma head_filter_None {A : Type} (p : A -> bool) (l : list A) :
  head (List.filter p l) = None <-> forall x, x ∈ l -> p x = false.
Proof.
  induction l as [|y l IH]; simpl.
  - split; [|done]. intros _ x Hx. by apply elem_of_nil in Hx.
  - destruct (p y) eqn:Hy; simpl.
    + split; [done|]. intros H. rewrite (H y) in Hy; [done|by left].
    + rewrite IH. split.
      * intros H x Hx. apply elem_of_cons in Hx as [->|Hx]; [done|by apply H].
      * intros H x Hx. apply H. by right.
Qed.

(** X15. A lookup answers "not found" exactly when no candidate matches any
    variant it is allowed to try.  [get_lowest_bin] returns [None] if and
    only if no fixed-price unclaimed listing has a stored name equal, up to
    ASCII case, to the queried name or, for a name that contains an
    underscore and does not start with [ENCHANTMENT_], to the queried name
    with underscores turned into spaces; [get_product_info] likewise over
    the current products.  So a query is found whatever its letter case. *)
Theorem not_found_exactly_when_no_variant_matches :
  (forall get_player_name st name include_player_name,
     HypixelAuctionTracker.get_lowest_bin get_player_name st name
       include_player_name = None
     <-> forall r, r ∈ HypixelAuctionTracker.auctions st ->
           HypixelAuctionTracker.open_bin r = true ->
           LOWER (HypixelAuctionTracker.a_item_name r) <> LOWER name
           /\ (may_use_spaces name = true ->
               LOWER (HypixelAuctionTracker.a_item_name r)
               <> LOWER (underscores_to_spaces name)))
  /\ (forall st name,
        HypixelBazaarTracker.get_product_info st name = None
        <-> forall r, r ∈ HypixelBazaarTracker.bazaar_current st ->
              LOWER (HypixelBazaarTracker.product_id r) <> LOWER name
              /\ (may_use_spaces name = true ->
                  LOWER (HypixelBazaarTracker.product_id r)
                  <> LOWER (underscores_to_spaces name))).
Proof.
  split.
  - intros gp st name incl.
    assert (Hnone : forall n,
              HypixelAuctionTracker.select_lowest
                (HypixelAuctionTracker.nocase_bin n)
                (HypixelAuctionTracker.auctions st) = None
              <-> forall r, r ∈ HypixelAuctionTracker.auctions st ->
                    HypixelAuctionTracker.open_bin r = true ->
                    LOWER (HypixelAuctionTracker.a_item_name r) <> LOWER n).
    { intros n. rewrite select_lowest_None. split.
      - intros H r Hr Ho Heq. specialize (H r Hr).
        unfold HypixelAuctionTracker.nocase_bin in H.
        rewrite Ho, andb_true_r in H. apply String.eqb_neq in H. by apply H.
      - intros H r Hr. unfold HypixelAuctionTracker.nocase_bin.
        destruct (HypixelAuctionTracker.open_bin r) eqn:Ho;
          [|by rewrite andb_false_r].
        rewrite andb_true_r. apply String.eqb_neq. by apply H. }
    assert (Himp : forall n,
              HypixelAuctionTracker.select_lowest
                (HypixelAuctionTracker.nocase_bin n)
                (HypixelAuctionTracker.auctions st) = None ->
              HypixelAuctionTracker.select_lowest
                (HypixelAuctionTracker.exact_bin n)
                (HypixelAuctionTracker.auctions st) = None).
    { intros n. rewrite !select_lowest_None. intros Hnc r Hr.
      specialize (Hnc r Hr). unfold HypixelAuctionTracker.exact_bin.
      unfold HypixelAuctionTracker.nocase_bin in Hnc.
      destruct (HypixelAuctionTracker.open_bin r);
        [|by rewrite andb_false_r].
      rewrite andb_true_r in *. apply String.eqb_neq in Hnc.
      apply String.eqb_neq. intros Heq. apply Hnc. by rewrite Heq. }
    unfold HypixelAuctionTracker.get_lowest_bin.
    rewrite lowest_bin_row_resolution.
    destruct (resolution_order _ _ name) as [r0|] eqn:Hres.
    + split; [discriminate|]. intros Hall. exfalso.
      assert (Hn : resolution_order
                     (fun n => HypixelAuctionTracker.select_lowest
                                 (HypixelAuctionTracker.exact_bin n)
                                 (HypixelAuctionTracker.auctions st))
                     (fun n => HypixelAuctionTracker.select_lowest
                                 (HypixelAuctionTracker.nocase_bin n)
                                 (HypixelAuctionTracker.auctions st))
                     name = None); [|congruence].
      apply resolution_order_None; [exact Himp|]. split.
      * apply Hnone. intros r Hr Ho. by apply Hall.
      * intros Hmay. apply Hnone. intros r Hr Ho.
        by apply (proj2 (Hall r Hr Ho)).
    + split; [intros _|done].
      apply resolution_order_None in Hres as [H3 H4]; [|exact Himp].
      intros r Hr Ho. split.
      * by apply (proj1 (Hnone name) H3).
      * intros Hmay. by apply (proj1 (Hnone _) (H4 Hmay)).
  - intros st name.
    assert (Hnone : forall n,
              HypixelBazaarTracker.select_nocase n
                (HypixelBazaarTracker.bazaar_current st) = None
              <-> forall r, r ∈ HypixelBazaarTracker.bazaar_current st ->
                    LOWER (HypixelBazaarTracker.product_id r) <> LOWER n).
    { intros n. unfold HypixelBazaarTracker.select_nocase.
      rewrite head_filter_None. split.
      - intros H r Hr. apply String.eqb_neq. by apply H.
      - intros H r Hr. apply String.eqb_neq. by apply H. }
    assert (Himp : forall n,
              HypixelBazaarTracker.select_nocase n
                (HypixelBazaarTracker.bazaar_current st) = None ->
              HypixelBazaarTracker.select_exact n
                (HypixelBazaarTracker.bazaar_current st) = None).
    { intros n Hn. rewrite Hnone in Hn.
      unfold HypixelBazaarTracker.select_exact. apply head_filter_None.
      intros r Hr. apply String.eqb_neq. intros Heq.
      apply (Hn r Hr). by rewrite Heq. }
    unfold HypixelBazaarTracker.get_product_info.
    rewrite product_info_row_resolution.
    destruct (resolution_order _ _ name) as [r0|] eqn:Hres.
    + split; [discriminate|]. intros Hall. exfalso.
      assert (Hn : resolution_order
                     (fun n => HypixelBazaarTracker.select_exact n
                                 (HypixelBazaarTracker.bazaar_current st))
                     (fun n => HypixelBazaarTracker.select_nocase n
                                 (HypixelBazaarTracker.bazaar_current st))
                     name = None); [|congruence].
      apply resolution_order_None; [exact Himp|]. split.
      * apply Hnone. intros r Hr. by apply Hall.
      * intros Hmay. apply Hnone. intros r Hr. by apply (proj2 (Hall r Hr)).
    + split; [intros _|done].
      apply resolution_order_None in Hres as [H3 H4]; [|exact Himp].
      intros r Hr. split.
      * by apply (proj1 (Hnone name) H3).
      * intros Hmay. by apply (proj1 (Hnone _) (H4 Hmay)).
Qed.

(** The listing named ["Spirit Bone"] is found under ["SPIRIT_BONE"]: the
    space variant compared case-insensitively matches, so the answer cannot
    be [None]. *)
Lemma not_found_exactly_when_no_variant_matches_witness :
  may_use_spaces "SPIRIT_BONE" = true
  /\ HypixelAuctionTracker.get_lowest_bin (fun _ => None) Examples.board1
       "SPIRIT_BONE" false <> None.
Proof.
  split; [reflexivity|]. intros Hnone.
  pose proof (proj1 (proj1 not_found_exactly_when_no_variant_matches
                       (fun _ => None) Examples.board1 "SPIRIT_BONE" false)
                Hnone) as Hall.
  destruct (Hall (HypixelAuctionTracker.auction_tuple 1000
                     (Examples.listing "u2" "Spirit Bone" 50 true false)))
    as [_ Hsp].
  - vm_compute. right. left.
  - reflexivity.
  - by apply Hsp.
Defined.

End NameResolverMore.

(** * Properties of the bazaar snapshot store *)

Section BazaarStore.

Import HypixelBazaarTracker.

(** ** Plain inserts *)

Lemma insert_raised_stays (f : outcome (list product_row) -> product_row ->
                               outcome (list product_row))
    (rows : list product_row) (e : string) :
  (forall r, f (Raised e) r = Raised e) ->
  foldl f (Raised e) rows = Raised e.
Proof.
  intros Hf. induction rows as [|r rows IH]; [done|]. simpl. by rewrite Hf.
Qed.

Lemma insert_current_step acc r :
  insert_current (Returned acc) r
  = if existsb (fun x => String.eqb (product_id x) (product_id r)) acc
    then Raised "sqlite3.IntegrityError" else Returned (acc ++ [r]).
Proof. reflexivity. Qed.

Lemma insert_history_step acc r :
  insert_history (Returned acc) r
  = if existsb (fun x => String.eqb (product_id x) (product_id r)
                         && (timestamp x =? timestamp r)%Z) acc
    then Raised "sqlite3.IntegrityError" else Returned (acc ++ [r]).
Proof. reflexivity. Qed.

Lemma current_inserted rows acc acc' :
  foldl insert_current (Returned acc) rows = Returned acc' ->
  acc' = acc ++ rows.
Proof.
  revert acc. induction rows as [|r rows IH]; intros acc Hret.
  - simpl in Hret. injection Hret as <-. by rewrite app_nil_r.
  - cbn [foldl] in Hret. rewrite insert_current_step in Hret.
    destruct (existsb _ acc).
    + rewrite insert_raised_stays in Hret; [discriminate Hret|done].
    + apply IH in Hret. by rewrite Hret, <- app_assoc.
Qed.

Lemma history_inserted rows acc acc' :
  foldl insert_history (Returned acc) rows = Returned acc' ->
  acc' = acc ++ rows.
Proof.
  revert acc. induction rows as [|r rows IH]; intros acc Hret.
  - simpl in Hret. injection Hret as <-. by rewrite app_nil_r.
  - cbn [foldl] in Hret. rewrite insert_history_step in Hret.
    destruct (existsb _ acc).
    + rewrite insert_raised_stays in Hret; [discriminate Hret|done].
    + apply IH in Hret. by rewrite Hret, <- app_assoc.
Qed.

Lemma current_inserts rows acc :
  NoDup (product_id <$> rows) ->
  (forall r, r ∈ rows -> product_id r ∉ product_id <$> acc) ->
  foldl insert_current (Returned acc) rows = Returned (acc ++ rows).
Proof.
  revert acc. induction rows as [|r rows IH]; intros acc Hnd Hfresh.
  - by rewrite app_nil_r.
  - cbn [foldl]. rewrite insert_current_step.
    rewrite fmap_cons in Hnd. apply NoDup_cons in Hnd as [Hr Hnd].
    assert (Hfree : existsb (fun x => String.eqb (product_id x) (product_id r))
                      acc = false).
    { apply not_true_is_false. rewrite existsb_exists.
      intros (x & Hx & Heq). apply String.eqb_eq in Heq.
      apply (Hfresh r (list_elem_of_here _ _)). rewrite <- Heq.
      apply list_elem_of_fmap_2. by apply list_elem_of_In. }
    rewrite Hfree. rewrite IH; [by rewrite <- app_assoc|done|].
    intros x Hx. rewrite fmap_app, elem_of_app. intros [Hin|Hin].
    + by apply (Hfresh x (list_elem_of_further _ _ _ Hx)).
    + simpl in Hin. apply list_elem_of_singleton in Hin.
      apply Hr. rewrite <- Hin. by apply list_elem_of_fmap_2.
Qed.

Lemma history_inserts rows acc :
  NoDup ((fun r => (product_id r, timestamp r)) <$> rows) ->
  (forall r, r ∈ rows ->
     (product_id r, timestamp r)
     ∉ (fun x => (product_id x, timestamp x)) <$> acc) ->
  foldl insert_history (Returned acc) rows = Returned (acc ++ rows).
Proof.
  revert acc. induction rows as [|r rows IH]; intros acc Hnd Hfresh.
  - by rewrite app_nil_r.
  - cbn [foldl]. rewrite insert_history_step.
    rewrite fmap_cons in Hnd. apply NoDup_cons in Hnd as [Hr Hnd].
    assert (Hfree : existsb (fun x => String.eqb (product_id x) (product_id r)
                                      && (timestamp x =? timestamp r)%Z)
                      acc = false).
    { apply not_true_is_false. rewrite existsb_exists.
      intros (x & Hx & Heq). apply andb_true_iff in Heq as [Hid Hts].
      apply String.eqb_eq in Hid. apply Z.eqb_eq in Hts.
      apply (Hfresh r (list_elem_of_here _ _)). rewrite <- Hid, <- Hts.
      apply (list_elem_of_fmap_2 (fun r => (product_id r, timestamp r))).
      by apply list_elem_of_In. }
    rewrite Hfree. rewrite IH; [by rewrite <- app_assoc|done|].
    intros x Hx. rewrite fmap_app, elem_of_app. intros [Hin|Hin].
    + by apply (Hfresh x (list_elem_of_further _ _ _ Hx)).
    + simpl in Hin. apply list_elem_of_singleton in Hin.
      apply Hr. rewrite <- Hin.
      by apply (list_elem_of_fmap_2 (fun r => (product_id r, timestamp r))).
Qed.

Lemma history_conflict r rows acc :
  (product_id r, timestamp r)
  ∈ (fun x => (product_id x, timestamp x)) <$> acc ->
  foldl insert_history (Returned acc) (r :: rows)
  = Raised "sqlite3.IntegrityError".
Proof.
  intros Hk. cbn [foldl]. rewrite insert_history_step.
  assert (Htaken : existsb (fun x => String.eqb (product_id x) (product_id r)
                                     && (timestamp x =? timestamp r)%Z)
                     acc = true).
  { apply existsb_exists. apply list_elem_of_fmap in Hk as (x & Heq & Hx).
    injection Heq as Hid Hts. exists x. split; [by apply list_elem_of_In|].
    by rewrite Hid, Hts, String.eqb_refl, Z.eqb_refl. }
  rewrite Htaken. by apply insert_raised_stays.
Qed.

Lemma product_tuple_ids ts (ps : list (string * option quick_status)) :
  product_id <$> (product_tuple ts <$> ps) = fst <$> ps.
Proof. rewrite <- list_fmap_compose. by apply list_fmap_ext. Qed.

Lemma store_bazaar_data_unfold now_ms d store_history st :
  bz_success d = true ->
  let rows := product_tuple (default now_ms (lastUpdated d)) <$> products d in
  store_bazaar_data now_ms (Some d) store_history st
  = match foldl insert_current (Returned []) rows with
    | Raised e => Raised e
    | Returned current =>
        match (if store_history && negb (bool_decide (rows = []))
               then foldl insert_history (Returned (bazaar_products st)) rows
               else Returned (bazaar_products st)) with
        | Raised e => Raised e
        | Returned history =>
            Returned {| bazaar_products := history;
                        bazaar_current := current;
                        update_log := update_log st |}
        end
    end.
Proof.
  intros Hs rows. subst rows. unfold store_bazaar_data. rewrite Hs.
  by destruct store_history.
Qed.

(** Whatever was committed is the reply's tuples. *)
Lemma store_bazaar_data_committed now_ms d store_history st st' :
  bz_success d = true ->
  store_bazaar_data now_ms (Some d) store_history st = Returned st' ->
  let rows := product_tuple (default now_ms (lastUpdated d)) <$> products d in
  bazaar_current st' = rows
  /\ bazaar_products st'
     = bazaar_products st ++ (if store_history then rows else [])
  /\ update_log st' = update_log st.
Proof.
  intros Hs Hst rows. rewrite (store_bazaar_data_unfold _ _ _ _ Hs) in Hst.
  fold rows in Hst.
  destruct (foldl insert_current (Returned []) rows) as [cur|e] eqn:Hc;
    [|discriminate Hst].
  apply current_inserted in Hc. simpl in Hc. subst cur.
  destruct store_history; simpl in Hst.
  - destruct (bool_decide (rows = [])) eqn:Hnil; simpl in Hst.
    + apply bool_decide_eq_true in Hnil. injection Hst as <-. simpl.
      by rewrite Hnil, app_nil_r.
    + destruct (foldl insert_history (Returned (bazaar_products st)) rows)
        as [hist|e] eqn:Hh; [|discriminate Hst].
      apply history_inserted in Hh. injection Hst as <-. by subst hist.
  - injection Hst as <-. simpl. by rewrite app_nil_r.
Qed.

(** What a reply that passes the check leaves committed, when no key is
    taken. *)
Lemma store_bazaar_data_commits now_ms d store_history st :
  bz_success d = true ->
  NoDup (fst <$> products d) ->
  (store_history = true ->
   forall p r, p ∈ products d -> r ∈ bazaar_products st ->
     product_id r = p.1 -> timestamp r <> default now_ms (lastUpdated d)) ->
  store_bazaar_data now_ms (Some d) store_history st
  = Returned
      {| bazaar_products :=
           bazaar_products st ++
             (if store_history
              then product_tuple (default now_ms (lastUpdated d)) <$> products d
              else []);
         bazaar_current :=
           product_tuple (default now_ms (lastUpdated d)) <$> products d;
         update_log := update_log st |}.
Proof.
  intros Hs Hnd Hfree. unfold store_bazaar_data. rewrite Hs. simpl negb.
  cbv iota zeta.
  set (ts := default now_ms (lastUpdated d)).
  change (mret []) with (Returned (@nil product_row)).
  rewrite current_inserts;
    [|by rewrite product_tuple_ids
     |intros r _; rewrite fmap_nil; apply not_elem_of_nil].
  simpl. destruct store_history.
  - destruct (bool_decide (product_tuple ts <$> products d = [])) eqn:Hnil.
    + apply bool_decide_eq_true in Hnil. simpl. rewrite Hnil.
      by rewrite app_nil_r.
    + simpl. change (mret (bazaar_products st))
        with (Returned (bazaar_products st)).
      rewrite history_inserts; [done| |].
      * apply (NoDup_fmap_2_strong _); [|].
        -- intros x y Hx Hy Heq. injection Heq as Hid _.
           apply list_elem_of_fmap in Hx as (px & -> & Hpx).
           apply list_elem_of_fmap in Hy as (py & -> & Hpy).
           simpl in Hid.
           assert (Hsame : px = py); [|by rewrite Hsame].
           revert Hnd Hpx Hpy Hid. clear.
           induction (products d) as [|p ps IH]; intros Hnd Hpx Hpy Hid.
           ++ by apply elem_of_nil in Hpx.
           ++ rewrite fmap_cons in Hnd. apply NoDup_cons in Hnd as [Hp Hnd].
              apply elem_of_cons in Hpx as [->|Hpx];
                apply elem_of_cons in Hpy as [->|Hpy]; try done.
              ** exfalso. apply Hp. rewrite Hid. by apply list_elem_of_fmap_2.
              ** exfalso. apply Hp. rewrite <- Hid. by apply list_elem_of_fmap_2.
              ** by apply IH.
        -- apply (NoDup_fmap_1 product_id). by rewrite product_tuple_ids.
      * intros r Hr Hk. apply list_elem_of_fmap in Hr as (p & -> & Hp).
        apply list_elem_of_fmap in Hk as (x & Heq & Hx).
        injection Heq as Hid Hts. simpl in Hid, Hts.
        by apply (Hfree eq_refl p x Hp Hx).
  - simpl. by rewrite app_nil_r.
Qed.


(** X16. A reply that passes the success check and whose product keys are
    free is committed whole: [bazaar_current] becomes exactly the tuples of
    the reply, in order, with nothing of the previous snapshot left; the
    history table keeps every row and, when history is stored, gets the same
    tuples appended; [update_log] is not touched.  The timestamp of the
    tuples is [lastUpdated] of the reply, or the clock when it is missing. *)
Theorem bazaar_poll_replaces_current (now_ms : Z) (d : bazaar_data)
    (store_history : bool) (st : db) :
  bz_success d = true ->
  NoDup (fst <$> products d) ->
  (store_history = true ->
   forall p r, p ∈ products d -> r ∈ bazaar_products st ->
     product_id r = p.1 -> timestamp r <> default now_ms (lastUpdated d)) ->
  exists st',
    store_bazaar_data now_ms (Some d) store_history st = Returned st'
    /\ bazaar_current st'
       = product_tuple (default now_ms (lastUpdated d)) <$> products d
    /\ bazaar_products st'
       = bazaar_products st ++
           (if store_history
            then product_tuple (default now_ms (lastUpdated d)) <$> products d
            else [])
    /\ update_log st' = update_log st.
Proof.
  intros Hs Hnd Hfree. eexists. split.
  - by apply store_bazaar_data_commits.
  - done.
Qed.

Lemma bazaar_poll_replaces_current_witness :
  exists st',
    store_bazaar_data 500 (Some Examples.reply_400) true
      (Examples.bazaar_after [("Y", Examples.quote 10 None)]) = Returned st'
    /\ product_id <$> bazaar_current st' = ["B"; "A"]
    /\ product_id <$> bazaar_products st' = ["Y"; "B"; "A"].
Proof.
  destruct (bazaar_poll_replaces_current 500 Examples.reply_400 true
              (Examples.bazaar_after [("Y", Examples.quote 10 None)]))
    as (st' & Hst & Hcur & Hhist & _).
  - reflexivity.
  - evaluated.
  - intros _ p r Hp Hr Hid. vm_compute in Hr.
    apply elem_of_cons in Hr as [->|Hr]; [|by apply elem_of_nil in Hr].
    simpl in Hid.
    apply elem_of_cons in Hp as [->|Hp]; [discriminate Hid|].
    apply elem_of_cons in Hp as [->|Hp]; [discriminate Hid|].
    by apply elem_of_nil in Hp.
  - exists st'. split; [exact Hst|]. rewrite Hcur, Hhist. split; reflexivity.
Defined.

Lemma lookup_stored_tuple ts (ps : list (string * option quick_status)) p :
  NoDup (fst <$> ps) -> p ∈ ps ->
  select_exact p.1 (product_tuple ts <$> ps) = Some (product_tuple ts p).
Proof.
  unfold select_exact. induction ps as [|x ps IH]; intros Hnd Hp.
  - by apply elem_of_nil in Hp.
  - rewrite fmap_cons in Hnd. apply NoDup_cons in Hnd as [Hx Hnd].
    rewrite fmap_cons. simpl.
    apply elem_of_cons in Hp as [->|Hp].
    + by rewrite String.eqb_refl.
    + destruct (String.eqb_spec x.1 p.1) as [Heq|Hne].
      * exfalso. apply Hx. rewrite Heq. by apply list_elem_of_fmap_2.
      * by apply IH.
Qed.

(** X17. What was stored is what is looked up: after such a commit,
    [get_product_info] called with the key of any product of the reply
    returns that product's quote, a field that the reply lacks reading as 0
    and a product without [quick_status] reading as all zeros. *)
Theorem bazaar_lookup_returns_stored_quote (now_ms : Z) (d : bazaar_data)
    (store_history : bool) (st st' : db) (pid : string)
    (quick : option quick_status) :
  bz_success d = true ->
  NoDup (fst <$> products d) ->
  store_bazaar_data now_ms (Some d) store_history st = Returned st' ->
  (pid, quick) ∈ products d ->
  exists p,
    get_product_info st' pid = Some p
    /\ p_product_id p = pid
    /\ p_buy_price p = default 0%Q (buyPrice (default no_status quick))
    /\ p_sell_price p = default 0%Q (sellPrice (default no_status quick))
    /\ p_buy_moving_week p
       = default 0 (buyMovingWeek (default no_status quick))
    /\ p_sell_moving_week p
       = default 0 (sellMovingWeek (default no_status quick))
    /\ p_buy_volume p = default 0 (buyVolume (default no_status quick))
    /\ p_sell_volume p = default 0 (sellVolume (default no_status quick))
    /\ p_buy_orders p = default 0 (buyOrders (default no_status quick))
    /\ p_sell_orders p = default 0 (sellOrders (default no_status quick)).
Proof.
  intros Hs Hnd Hst Hp.
  destruct (store_bazaar_data_committed _ _ _ _ _ Hs Hst) as (Hcur & _).
  exists (product_dict (product_tuple (default now_ms (lastUpdated d))
                          (pid, quick))).
  split; [|by repeat split].
  unfold get_product_info, product_info_row. rewrite Hcur.
  by rewrite (lookup_stored_tuple _ _ (pid, quick) Hnd Hp).
Qed.

Lemma bazaar_lookup_returns_stored_quote_witness :
  exists st' p,
    store_bazaar_data 500 (Some Examples.reply_400) true setup_database
    = Returned st'
    /\ get_product_info st' "A" = Some p
    /\ p_buy_price p = 0%Q /\ p_buy_moving_week p = 0.
Proof.
  destruct (store_bazaar_data 500 (Some Examples.reply_400) true setup_database)
    as [st'|e] eqn:Hst; [|vm_compute in Hst; discriminate Hst].
  destruct (bazaar_lookup_returns_stored_quote 500 Examples.reply_400 true
              setup_database st' "A" None)
    as (p & Hp & _ & Hbuy & _ & Hmw & _).
  - reflexivity.
  - evaluated.
  - exact Hst.
  - right. left.
  - exists st', p. split; [reflexivity|]. split; [exact Hp|].
    split; [exact Hbuy|exact Hmw].
Defined.

(** X18. With history stored, a second reply that carries the timestamp of a
    reply already committed cannot be stored: when a non-empty reply with a
    [lastUpdated] was committed, storing the same reply again raises
    [sqlite3.IntegrityError] on the history table's primary key. *)
Theorem same_reply_twice_raises (now1 now2 t : Z) (d : bazaar_data)
    (st st1 : db) :
  bz_success d = true -> lastUpdated d = Some t -> products d <> [] ->
  store_bazaar_data now1 (Some d) true st = Returned st1 ->
  store_bazaar_data now2 (Some d) true st1 = Raised "sqlite3.IntegrityError".
Proof.
  intros Hs Ht Hne Hst.
  destruct (store_bazaar_data_committed _ _ _ _ _ Hs Hst) as (Hcur & Hhist & _).
  rewrite (store_bazaar_data_unfold now1 _ _ _ Hs) in Hst.
  rewrite (store_bazaar_data_unfold now2 _ _ _ Hs).
  rewrite Ht in *. simpl default in *.
  destruct (foldl insert_current (Returned []) (product_tuple t <$> products d))
    as [cur|e]; [|discriminate Hst].
  destruct (products d) as [|p ps]; [done|].
  assert (Hnil : bool_decide (product_tuple t <$> p :: ps = []) = false)
    by (by apply bool_decide_eq_false_2).
  rewrite Hnil. simpl andb. cbv iota.
  rewrite fmap_cons, history_conflict; [done|].
  rewrite Hhist, fmap_app, fmap_cons. apply elem_of_app. right. by left.
Qed.

Lemma same_reply_twice_raises_witness :
  exists st1,
    store_bazaar_data 500 (Some Examples.reply_400) true setup_database
    = Returned st1
    /\ store_bazaar_data 900 (Some Examples.reply_400) true st1
       = Raised "sqlite3.IntegrityError".
Proof.
  destruct (store_bazaar_data 500 (Some Examples.reply_400) true setup_database)
    as [st1|e] eqn:Hst; [|vm_compute in Hst; discriminate Hst].
  exists st1. split; [reflexivity|].
  apply (same_reply_twice_raises 500 900 400 Examples.reply_400
           setup_database st1); [reflexivity|reflexivity|discriminate|exact Hst].
Defined.


(** ** An update cycle *)

(** X19. [update] reports failure exactly when the fetch yields nothing (the
    request failed or the reply is not a success), and then the database is
    untouched and no cycle is logged.  When it reports success the reply was
    a success, the current table holds exactly the reply's products, and
    exactly one row was added to [update_log], carrying the number of
    products of the reply.  A store that raises is not logged: the
    exception leaves [update]. *)
Theorem update_logs_what_it_stored (response : option bazaar_data)
    (now_ms log_ms : Z) (duration : Q) (store_history : bool) (st : db) :
  (fetch_bazaar_data response = None
   <-> update response now_ms log_ms duration store_history st
       = Returned (st, false))
  /\ (forall st',
        update response now_ms log_ms duration store_history st
        = Returned (st', true) ->
        exists d row,
          response = Some d /\ bz_success d = true
          /\ product_id <$> bazaar_current st' = fst <$> products d
          /\ update_log st' = update_log st ++ [row]
          /\ l_timestamp row = log_ms
          /\ l_total_products row = Z.of_nat (length (products d)))
  /\ (forall d e,
        fetch_bazaar_data response = Some d ->
        store_bazaar_data now_ms (Some d) store_history st = Raised e ->
        update response now_ms log_ms duration store_history st = Raised e).
Proof.
  unfold update. split; [|split].
  - split; [by intros ->|].
    destruct (fetch_bazaar_data response) as [d|]; [|done].
    destruct (store_bazaar_data now_ms (Some d) store_history st);
      simpl; [|discriminate]. intros Heq. injection Heq as _ Hflag. done.
  - intros st' Hup.
    destruct (fetch_bazaar_data response) as [d|] eqn:Hf; [|discriminate Hup].
    assert (Hd : response = Some d /\ bz_success d = true).
    { unfold fetch_bazaar_data in Hf. destruct response as [d0|]; [|done].
      destruct (bz_success d0) eqn:Hs; [|done]. by injection Hf as <-. }
    destruct Hd as [Hresp Hs].
    destruct (store_bazaar_data now_ms (Some d) store_history st) as [st1|e]
      eqn:Hst; [|discriminate Hup].
    simpl in Hup. injection Hup as <-.
    destruct (store_bazaar_data_committed _ _ _ _ _ Hs Hst) as (Hcur & _ & Hlog).
    eexists d, _. split; [done|]. split; [done|]. simpl.
    split; [by rewrite Hcur, product_tuple_ids|].
    split; [by rewrite Hlog|]. done.
  - intros d e -> Hst. by rewrite Hst.
Qed.

Lemma update_logs_what_it_stored_witness :
  update None 500 501 1 true Examples.bazaar_prices
  = Returned (Examples.bazaar_prices, false)
  /\ update (Some Examples.reply_400) 500 501 1 true Examples.bazaar_prices
     = Raised "sqlite3.IntegrityError".
Proof.
  destruct (update_logs_what_it_stored None 500 501 1 true
              Examples.bazaar_prices) as (Hnone & _ & _).
  destruct (update_logs_what_it_stored (Some Examples.reply_400) 500 501 1 true
              Examples.bazaar_prices) as (_ & _ & Hraise).
  split.
  - by apply Hnone.
  - apply (Hraise Examples.reply_400); reflexivity.
Defined.

(** ** Reading the bazaar tables *)





(** X21. After a reply was committed [get_all_products] lists exactly the
    product keys of that reply, in ascending order of key. *)
Theorem all_products_are_the_reply (now_ms : Z) (d : bazaar_data)
    (store_history : bool) (st st' : db) :
  bz_success d = true ->
  store_bazaar_data now_ms (Some d) store_history st = Returned st' ->
  Sorted text_le (get_all_products st')
  /\ get_all_products st' ≡ₚ fst <$> products d.
Proof.
  intros Hs Hst.
  destruct (store_bazaar_data_committed _ _ _ _ _ Hs Hst) as (Hcur & _).
  unfold get_all_products. split.
  - apply (@Sorted_merge_sort _ text_le _ text_le_total).
  - by rewrite merge_sort_Permutation, Hcur, product_tuple_ids.
Qed.

Lemma all_products_are_the_reply_witness :
  exists st',
    store_bazaar_data 500 (Some Examples.reply_400) false
      Examples.bazaar_prices = Returned st'
    /\ get_all_products st' = ["A"; "B"].
Proof.
  destruct (store_bazaar_data 500 (Some Examples.reply_400) false
              Examples.bazaar_prices) as [st'|e] eqn:Hst;
    [|vm_compute in Hst; discriminate Hst].
  destruct (all_products_are_the_reply 500 Examples.reply_400 false
              Examples.bazaar_prices st' eq_refl Hst) as [_ Hperm].
  exists st'. split; [reflexivity|].
  vm_compute in Hst. injection Hst as <-. reflexivity.
Defined.

End BazaarStore.

(** * Further properties of the valuation engine *)

Section ValuationMore.

Import ChestValueCalculator.

(** The remaining fields of what [get_item_value] returns. *)
Lemma get_item_value_fields c now_ms name q :
  exists r,
    get_item_value c now_ms name q = Returned r
    /\ iv_item_name r = name /\ iv_quantity r = q
    /\ found_in r
       = (if lowest_bin_of c name is Some _ then ["auction_house"] else [])
         ++ (if BZ.get_product_info (bazaar_tracker c) name is Some _
             then ["bazaar"] else [])
    /\ auction_house r
       = (fun a => {| lowest_bin := AH.b_price a;
                      ah_tier := AH.b_tier a;
                      ah_total := AH.b_price a * q |})
         <$> lowest_bin_of c name
    /\ bazaar r
       = (fun b => {| insta_sell_price := BZ.p_buy_price b;
                      insta_buy_price := BZ.p_sell_price b;
                      bz_total := (BZ.p_buy_price b * inject_Z q)%Q |})
         <$> BZ.get_product_info (bazaar_tracker c) name.
Proof.
  unfold get_item_value. rewrite check_auction_house_returns.
  destruct (lowest_bin_of c name) as [a|];
    destruct (BZ.get_product_info (bazaar_tracker c) name) as [b|];
    simpl.
  - destruct (Qle_bool _ _); eexists; (split; [reflexivity|done]).
  - eexists; (split; [reflexivity|done]).
  - eexists; (split; [reflexivity|done]).
  - eexists; (split; [reflexivity|done]).
Qed.

(** X22. The fields of a valuation agree with one another.  [found_in]
    names the markets that know the item, the auction house first; the best
    price and the market are absent exactly when [found_in] is empty; a best
    price is the price of one of the two market entries and the total value
    is that price times the quantity; each market entry carries its own
    price times the quantity; and the bazaar entry's instant-sell price is
    the stored [buy_price], its instant-buy price the stored [sell_price]. *)
Theorem item_value_is_consistent (c : calculator) (now_ms : Z) (name : string)
    (q : Z) :
  exists r,
    get_item_value c now_ms name q = Returned r
    /\ iv_item_name r = name /\ iv_quantity r = q
    /\ found_in r
       = (if lowest_bin_of c name is Some _ then ["auction_house"] else [])
         ++ (if BZ.get_product_info (bazaar_tracker c) name is Some _
             then ["bazaar"] else [])
    /\ (best_price r = None <-> found_in r = [])
    /\ (market r = None <-> found_in r = [])
    /\ (forall p, best_price r = Some p ->
          total_value r = (p * inject_Z q)%Q
          /\ ((exists e, auction_house r = Some e
                         /\ p = inject_Z (lowest_bin e))
              \/ (exists e, bazaar r = Some e /\ p = insta_sell_price e)))
    /\ (forall e, auction_house r = Some e -> ah_total e = lowest_bin e * q)
    /\ (forall e, bazaar r = Some e ->
          bz_total e = (insta_sell_price e * inject_Z q)%Q
          /\ exists b,
               BZ.get_product_info (bazaar_tracker c) name = Some b
               /\ insta_sell_price e = BZ.p_buy_price b
               /\ insta_buy_price e = BZ.p_sell_price b).
Proof.
  destruct (get_item_value_fields c now_ms name q)
    as (r & Hr & Hname & Hq & Hfound & Hah & Hbz).
  destruct (get_item_value_returns c now_ms name q) as (r' & Hr' & Hprice & _).
  rewrite Hr in Hr'. injection Hr' as <-.
  exists r. split; [done|]. split; [done|]. split; [done|]. split; [done|].
  destruct (lowest_bin_of c name) as [a|];
    destruct (BZ.get_product_info (bazaar_tracker c) name) as [b|];
    simpl in *.
  - destruct (Qle_bool _ _); injection Hprice as Hb Ht Hm;
      rewrite Hb, Hm, Hfound, Hah, Hbz;
      (split; [done|]); (split; [done|]); (split; [|split]).
    + intros p [= <-]. split; [done|]. left. by eexists.
    + by intros e [= <-].
    + intros e [= <-]. split; [done|]. by exists b.
    + intros p [= <-]. split; [done|]. right. by eexists.
    + by intros e [= <-].
    + intros e [= <-]. split; [done|]. by exists b.
  - injection Hprice as Hb Ht Hm. rewrite Hb, Hm, Hfound, Hah, Hbz.
    split; [done|]. split; [done|]. split; [|split].
    + intros p [= <-]. split; [done|]. left. by eexists.
    + by intros e [= <-].
    + done.
  - injection Hprice as Hb Ht Hm. rewrite Hb, Hm, Hfound, Hah, Hbz.
    split; [done|]. split; [done|]. split; [|split].
    + intros p [= <-]. split; [done|]. right. by eexists.
    + done.
    + intros e [= <-]. split; [done|]. by exists b.
  - injection Hprice as Hb Ht Hm. rewrite Hb, Hm, Hfound, Hah, Hbz.
    by repeat split.
Qed.

Lemma item_value_is_consistent_witness :
  exists r e,
    get_item_value (Examples.calc Examples.board_prices Examples.bazaar_prices)
      3000 "A" 4 = Returned r
    /\ found_in r = ["auction_house"; "bazaar"]
    /\ bazaar r = Some e
    /\ bz_total e = (insta_sell_price e * inject_Z 4)%Q.
Proof.
  destruct (item_value_is_consistent
              (Examples.calc Examples.board_prices Examples.bazaar_prices)
              3000 "A" 4) as (r & Hr & _ & _ & Hfound & _ & _ & _ & _ & Hbz).
  destruct (bazaar r) as [e|] eqn:He.
  - exists r, e. split; [exact Hr|]. split; [rewrite Hfound; reflexivity|].
    split; [exact He|]. exact (proj1 (Hbz e eq_refl)).
  - exfalso. vm_compute in Hr. injection Hr as <-. discriminate He.
Defined.


(** ** Counting and adding up a chest *)

Lemma calculate_chest_value_total_items c now_ms chest cost :
  exists res,
    calculate_chest_value c now_ms chest cost = Returned res
    /\ total_items (chest_summary res) = Z.of_nat (length chest).
Proof.
  unfold calculate_chest_value.
  destruct (chest_loop c now_ms chest [] (initial_summary (length chest) cost))
    as (vs & s & Hrun & _ & Htot & _).
  cbv zeta. change (mret ([], ?x)) with (Returned (@nil item_value, x)).
  rewrite Hrun. simpl.
  destruct (with_profit_returns s) as (s' & Hs' & Htot' & _).
  rewrite Hs'. simpl. eexists. split; [reflexivity|]. simpl.
  by rewrite Htot', Htot.
Qed.

Lemma found_or_not (vs : list item_value) :
  (length (filter (fun v => is_Some (best_price v)) vs)
   + length (filter (fun v => best_price v = None) vs))%nat
  = length vs.
Proof.
  induction vs as [|v vs IH]; [done|].
  destruct (best_price v) as [p|] eqn:Hp.
  - rewrite filter_cons_True by (rewrite Hp; by eexists).
    rewrite filter_cons_False by (rewrite Hp; by intros ?).
    simpl. lia.
  - rewrite filter_cons_False by (rewrite Hp; by intros [? ?]).
    rewrite filter_cons_True by done. simpl. lia.
Qed.

(** X23. In the summary of a chest, [total_items] counts every element of
    the request, while [items_found] and [items_not_found] count only the
    elements that have a non-empty name: together they are the number of
    valued items, which is the number of named elements.  So the two
    counters add up to at most [total_items], and an element without a name
    is in neither. *)
Theorem chest_counters_add_up (c : calculator) (now_ms : Z)
    (chest : list chest_item) (cost : option Q) :
  exists res,
    calculate_chest_value c now_ms chest cost = Returned res
    /\ total_items (chest_summary res) = Z.of_nat (length chest)
    /\ length (items res)
       = length (filter (fun item => default "" (name item) <> "") chest)
    /\ items_found (chest_summary res) + items_not_found (chest_summary res)
       = Z.of_nat (length (items res))
    /\ items_found (chest_summary res) + items_not_found (chest_summary res)
       <= total_items (chest_summary res).
Proof.
  destruct (calculate_chest_value_returns c now_ms chest cost)
    as (res & Hres & Hval & Hf & Hnf & _).
  destruct (calculate_chest_value_total_items c now_ms chest cost)
    as (res' & Hres' & Htot).
  rewrite Hres in Hres'. injection Hres' as <-.
  exists res. split; [done|]. split; [done|].
  apply Forall2_length in Hval.
  pose proof (found_or_not (items res)) as Hsum.
  pose proof (length_filter (fun item => default "" (name item) <> "") chest)
    as Hle.
  split; [done|]. split; lia.
Qed.




(** ** When the data was last updated *)

Lemma max_timestamp_latest (ts : list Z) (m : Z) :
  0 < m -> (forall t, t ∈ ts -> t <= m) ->
  max_timestamp (ts ++ [m]) = Some m.
Proof.
  intros Hm Hts. unfold max_timestamp.
  assert (Hmax : forall t0 l, t0 <= m -> (forall t, t ∈ l -> t <= m) ->
                   foldl Z.max t0 (l ++ [m]) = m).
  { intros t0 l. revert t0. induction l as [|x l IH]; intros t0 H0 Hl.
    - simpl. lia.
    - simpl. apply IH.
      + assert (x <= m) by (apply Hl; by left). lia.
      + intros t Ht. apply Hl. by right. }
  destruct ts as [|t0 ts]; simpl.
  - destruct (Z.eqb_spec m 0); [lia|done].
  - rewrite Hmax.
    + destruct (Z.eqb_spec m 0); [lia|done].
    + apply Hts. by left.
    + intros t Ht. apply Hts. by right.
Qed.

(** X25. After a fetch cycle of the listing board that got its first page,
    the auction-house part of [get_last_update_times] is the clock value that
    cycle logged, provided that value is positive and no earlier log row is
    later; with an empty [update_log] it is absent. *)
Theorem last_update_is_the_latest_cycle (c : calculator)
    (fetch_page : nat -> option AH.page) (ts log_ts : Z) (duration : Q)
    (p0 : AH.page) :
  fetch_page 0%nat = Some p0 -> AH.success p0 = true ->
  0 < log_ts ->
  (forall row, row ∈ AH.update_log (auction_tracker c) ->
     AH.l_timestamp row <= log_ts) ->
  ah_last_update_timestamp
    (get_last_update_times
       {| auction_tracker :=
            AH.fetch_all_auctions fetch_page ts log_ts duration
              (auction_tracker c);
          bazaar_tracker := bazaar_tracker c |})
  = Some log_ts
  /\ ah_last_update_timestamp
       (get_last_update_times
          {| auction_tracker := AH.setup_database;
             bazaar_tracker := bazaar_tracker c |})
     = None.
Proof.
  intros H0 Hs Hpos Hold. split; [|done].
  unfold get_last_update_times. simpl.
  unfold AH.fetch_all_auctions. rewrite H0, Hs. simpl.
  rewrite fmap_app. simpl. apply max_timestamp_latest; [done|].
  intros t Ht. apply list_elem_of_fmap in Ht as (row & -> & Hrow).
  by apply Hold.
Qed.

Lemma last_update_is_the_latest_cycle_witness :
  ah_last_update_timestamp
    (get_last_update_times
       {| auction_tracker :=
            AH.fetch_all_auctions Examples.pages_with_failure 2000 2001 1
              Examples.board1;
          bazaar_tracker := BZ.setup_database |})
  = Some 2001.
Proof.
  refine (proj1 (last_update_is_the_latest_cycle
                   (Examples.calc Examples.board1 BZ.setup_database)
                   Examples.pages_with_failure 2000 2001 1 _
                   eq_refl eq_refl eq_refl _)).
  intros row Hrow. vm_compute in Hrow. by apply elem_of_nil in Hrow.
Defined.

(** ** Stores that have no data yet *)


End ValuationMore.
